(** * A model of the rolling log writer (writer.rolling.go)

    The writer appends formatted lines to a live file, renames the live file
    to a time-stamped archive when it has grown past a size threshold, and
    removes archives beyond a retention count.

    The Go code is embedded shallowly: every method of [rollingWriter] is a
    function in a small state monad over a [World] that holds the file
    system, the clock, the failures the environment is going to inject and a
    trace of the calls made.  The receiver, mutated in place through its
    pointer in Go, is passed in and handed back. *)

From Stdlib Require Import ZArith List String Ascii Bool Arith Lia.
Import ListNotations.

Local Open Scope string_scope.
Local Open Scope Z_scope.

(** ** Machine integers *)

(** Go's [int64] (and [int] on a 64-bit target): two's complement, arithmetic
    wraps around silently. *)
Definition wrap64 (z : Z) : Z := (z + 2 ^ 63) mod 2 ^ 64 - 2 ^ 63.

Definition in_int64 (z : Z) : Prop := - 2 ^ 63 <= z < 2 ^ 63.

(** Modelled from the spec: the constant [megabyte] is declared outside
    writer.rolling.go; the spec gives the factor 1,048,576. *)
Definition megabyte : Z := 1048576.

(** ** Errors and panics *)

Inductive error : Type :=
| ErrNotExist      (* ENOENT, the only error for which os.IsNotExist holds *)
| ErrClosed        (* os.ErrClosed: use of a closed file *)
| ErrInvalid       (* os.ErrInvalid: method called on a nil file *)
| ErrPermission
| ErrNoSpace
| ErrIO.

Definition IsNotExist (e : error) : bool :=
  match e with ErrNotExist => true | _ => false end.

Inductive panic_value : Type :=
| PanicError (e : error)       (* panic(err) *)
| PanicIndexOutOfRange.        (* runtime error: index out of range *)

Inductive Res (A : Type) : Type :=
| Val (a : A)
| Panicked (p : panic_value).
Arguments Val {A} a.
Arguments Panicked {A} p.

(** ** Strings and paths *)

(** strings.HasPrefix(s, prefix) *)
Definition HasPrefix (s pre : string) : bool := String.prefix pre s.

(** strings.Split(s, sep) for a one-byte separator: the pieces between the
    separators, never an empty slice. *)
Fixpoint Split (s : string) (sep : ascii) : list string :=
  match s with
  | EmptyString => [EmptyString]
  | String c s' =>
      if Ascii.eqb c sep then EmptyString :: Split s' sep
      else match Split s' sep with
           | [] => [String c EmptyString]
           | piece :: pieces => String c piece :: pieces
           end
  end.

(** [split[len(split)-1]] *)
Definition last_piece (split : list string) : string := last split EmptyString.

Fixpoint before_last_slash (s : string) : option string :=
  match s with
  | EmptyString => None
  | String c s' =>
      match before_last_slash s' with
      | Some d => Some (String c d)
      | None => if Ascii.eqb c "/" then Some EmptyString else None
      end
  end.

(** filepath.Dir on a cleaned path: everything before the last separator. *)
Definition filepath_Dir (path : string) : string :=
  match before_last_slash path with
  | None => "."
  | Some EmptyString => "/"
  | Some d => d
  end.

(** ** Time stamps *)

Record Time : Type := mkTime {
  year : Z; month : Z; day : Z;
  hour : Z; minute : Z; second : Z;
  zone : Z                         (* minutes east of UTC *)
}.

Definition digit_char (d : Z) : ascii := ascii_of_nat (48 + Z.to_nat (d mod 10)).

Definition pad2 (z : Z) : string :=
  String (digit_char (z / 10)) (String (digit_char z) EmptyString).

Definition pad4 (z : Z) : string :=
  String (digit_char (z / 1000)) (String (digit_char (z / 100)) (pad2 z)).

Definition format_zone (z : Z) : string :=
  if z =? 0 then "Z"
  else (if z <? 0 then "-" else "+")
       ++ pad2 (Z.abs z / 60) ++ ":" ++ pad2 (Z.abs z mod 60).

(** t.Format(time.RFC3339), layout "2006-01-02T15:04:05Z07:00". *)
Definition Format_RFC3339 (t : Time) : string :=
  pad4 (year t) ++ "-" ++ pad2 (month t) ++ "-" ++ pad2 (day t) ++ "T" ++
  pad2 (hour t) ++ ":" ++ pad2 (minute t) ++ ":" ++ pad2 (second t) ++
  format_zone (zone t).

Definition digit_value (c : ascii) : option Z :=
  let n := nat_of_ascii c in
  if ((48 <=? n) && (n <=? 57))%nat then Some (Z.of_nat (n - 48)) else None.

Definition obind {A B : Type} (o : option A) (k : A -> option B) : option B :=
  match o with Some a => k a | None => None end.

(** [n] decimal digits in front of [s], read as a number on top of [acc]. *)
Fixpoint digits (n : nat) (acc : Z) (s : string) : option (Z * string) :=
  match n with
  | O => Some (acc, s)
  | S n' =>
      match s with
      | EmptyString => None
      | String c s' =>
          obind (digit_value c) (fun d => digits n' (10 * acc + d) s')
      end
  end.

(** The year of the layout, "2006": the value must hold four bytes of which
    the first is a digit, and atoi of the four must succeed, which it does
    on four digits only. *)
Definition long_year (value : string) : option (Z * string) := digits 4 0 value.

(** getnum(s, fixed) of package time: the one or two digits in front of
    [s]; when [fixed], two digits or nothing. *)
Definition getnum (s : string) (fixed : bool) : option (Z * string) :=
  match s with
  | EmptyString => None
  | String c1 s1 =>
      obind (digit_value c1) (fun d1 =>
      match s1 with
      | EmptyString => if fixed then None else Some (d1, s1)
      | String c2 s2 =>
          match digit_value c2 with
          | Some d2 => Some (10 * d1 + d2, s2)
          | None => if fixed then None else Some (d1, s1)
          end
      end)
  end.

(** skip(value, prefix) of package time for a one-byte prefix that is not a
    space: the value without that byte in front. *)
Definition skip (prefix : ascii) (value : string) : option string :=
  match value with
  | String c rest => if Ascii.eqb c prefix then Some rest else None
  | EmptyString => None
  end.

Definition isLeap (y : Z) : bool :=
  (y mod 4 =? 0) && (negb (y mod 100 =? 0) || (y mod 400 =? 0)).

Definition daysIn (m y : Z) : Z :=
  if m =? 2 then (if isLeap y then 29 else 28)
  else if (m =? 4) || (m =? 6) || (m =? 9) || (m =? 11) then 30 else 31.

Definition is_digit (c : ascii) : bool :=
  match digit_value c with Some _ => true | None => false end.

Definition commaOrPeriod (c : ascii) : bool :=
  Ascii.eqb c "." || Ascii.eqb c ",".

Fixpoint drop_digits (s : string) : string :=
  match s with
  | String c s' => if is_digit c then drop_digits s' else s
  | EmptyString => EmptyString
  end.

(** The fractional second the parser accepts after the seconds although the
    layout has none: a period or a comma and the digits that follow, when
    there is at least one.  What it reads is not kept here; the program
    drops the time. *)
Definition skip_fraction (value : string) : string :=
  match value with
  | String c (String d rest) =>
      if commaOrPeriod c && is_digit d then drop_digits rest else value
  | _ => value
  end.

(** The zone of the layout, "Z07:00": a "Z", or a sign, two digits, a colon
    and two digits.  The range test lets an hour of 24 and a minute of 60
    through.  The result is the offset in minutes and the rest of the
    value. *)
Definition parse_zone (value : string) : option (Z * string) :=
  match value with
  | EmptyString => None
  | String sign rest =>
      if Ascii.eqb sign "Z" then Some (0, rest)
      else
        match rest with
        | String h1 (String h2 (String colon (String m1 (String m2 rest')))) =>
            if negb (Ascii.eqb colon ":") then None
            else
              obind (getnum (String h1 (String h2 EmptyString)) true) (fun '(hr, _) =>
              obind (getnum (String m1 (String m2 EmptyString)) true) (fun '(mm, _) =>
              if (24 <? hr) || (60 <? mm) then None
              else if Ascii.eqb sign "+" then Some (60 * hr + mm, rest')
              else if Ascii.eqb sign "-" then Some (- (60 * hr + mm), rest')
              else None))
        | _ => None
        end
  end.

(** time.Parse(time.RFC3339, value), the layout "2006-01-02T15:04:05Z07:00"
    read by the general parser of package time (which also accepts whatever
    its RFC 3339 fast path accepts), chunk by chunk: a year of
    four digits, month and day of two digits each, an hour of one or two
    digits, minute and second of two digits each, possibly a fractional
    second, and the zone; month, hour, minute and second are tested for
    their range as they are read, the day at the end against the month, and
    nothing may follow the zone.  [None] stands for a non-nil error. *)
Definition Parse_RFC3339 (value : string) : option Time :=
  obind (long_year value) (fun '(y, s) =>
  obind (skip "-" s) (fun s =>
  obind (getnum s true) (fun '(mo, s) =>
  if (mo <=? 0) || (12 <? mo) then None else
  obind (skip "-" s) (fun s =>
  obind (getnum s true) (fun '(d, s) =>
  obind (skip "T" s) (fun s =>
  obind (getnum s false) (fun '(h, s) =>
  if 24 <=? h then None else
  obind (skip ":" s) (fun s =>
  obind (getnum s true) (fun '(mi, s) =>
  if 60 <=? mi then None else
  obind (skip ":" s) (fun s =>
  obind (getnum s true) (fun '(se, s) =>
  if 60 <=? se then None else
  obind (parse_zone (skip_fraction s)) (fun '(z, s) =>
  match s with
  | String _ _ => None
  | EmptyString =>
      if (d <? 1) || (daysIn mo y <? d) then None
      else Some (mkTime y mo d h mi se z)
  end)))))))))))).

(** ** The world outside the writer *)

(** What the environment does to one library call: let it through, or make it
    fail with [e].  For a write, [n] bytes reach the file before the failure
    (a short write); other calls ignore [n].  For a directory walk the
    failure is that of reading the directory, which the walk reports to the
    walk function and not to its caller. *)
Inductive Fault : Type :=
| NoFault
| FaultWith (e : error) (n : nat).

Inductive Func : Type := FRotate | FDeleteOld.

(** The calls a run makes, oldest first.  The [EvCall] entries are ghost
    marks left at the entry of [rotate] and [deleteOld]; the others record a
    library call and the error it returned. *)
Inductive Event : Type :=
| EvCall (f : Func)
| EvStat (path : string) (err : option error)
| EvOpen (path : string) (err : option error)
| EvClose (err : option error)
| EvRename (oldpath newpath : string) (err : option error)
| EvRemove (path : string) (err : option error)
| EvWalk (root : string) (err : option error)
| EvWriteString (count : nat) (err : option error)
| EvPrintln (msg : string) (err : error).

(** [w_files] maps the path of every regular file to its inode, in the order
    in which a directory walk meets the files; [w_sizes] is the inode table
    (the size in bytes of inode [i] at index [i]).  [w_clock] holds the
    readings time.Now is going to return, [w_script] the faults the next
    library calls are going to meet (none once it is used up). *)
Record World : Type := mkWorld {
  w_cwd    : string;
  w_files  : list (string * nat);
  w_sizes  : list Z;
  w_clock  : list Time;
  w_script : list Fault;
  w_trace  : list Event
}.

Definition set_files (fs : list (string * nat)) (w : World) : World :=
  mkWorld (w_cwd w) fs (w_sizes w) (w_clock w) (w_script w) (w_trace w).
Definition set_sizes (sz : list Z) (w : World) : World :=
  mkWorld (w_cwd w) (w_files w) sz (w_clock w) (w_script w) (w_trace w).
Definition set_clock (c : list Time) (w : World) : World :=
  mkWorld (w_cwd w) (w_files w) (w_sizes w) c (w_script w) (w_trace w).
Definition set_script (s : list Fault) (w : World) : World :=
  mkWorld (w_cwd w) (w_files w) (w_sizes w) (w_clock w) s (w_trace w).
Definition set_trace (t : list Event) (w : World) : World :=
  mkWorld (w_cwd w) (w_files w) (w_sizes w) (w_clock w) (w_script w) t.

(** An os.File behind its pointer: the inode it was opened on and whether
    Close has been called on it.  Only the writer ever holds the pointer, so
    the object is kept in the writer's field; a nil pointer is [None]. *)
Record File : Type := mkFile { f_ino : nat; f_closed : bool }.

(** os.FileInfo, of which the program reads the size only. *)
Record FileInfo : Type := mkFileInfo { Size : Z }.

(** ** The monad: state passing over the world, with panics *)

Definition M (A : Type) : Type := World -> Res A * World.

Definition ret {A : Type} (a : A) : M A := fun w => (Val a, w).

Definition bind {A B : Type} (m : M A) (k : A -> M B) : M B :=
  fun w =>
    match m w with
    | (Val a, w') => k a w'
    | (Panicked p, w') => (Panicked p, w')
    end.

Definition panic {A : Type} (p : panic_value) : M A := fun w => (Panicked p, w).

Declare Scope go_scope.
Delimit Scope go_scope with go.
Notation "x <- m ;; k" := (bind m (fun x => k))
  (at level 61, m at next level, right associativity) : go_scope.
Notation "' p <- m ;; k" := (bind m (fun p => k))
  (at level 61, p pattern, m at next level, right associativity) : go_scope.
Notation "m ;;; k" := (bind m (fun _ => k))
  (at level 61, right associativity) : go_scope.
Local Open Scope go_scope.

Definition emit (ev : Event) : M unit :=
  fun w => (Val tt, set_trace (w_trace w ++ [ev]) w).

(** The fault the environment has in store for the call being made. *)
Definition next_fault : M Fault :=
  fun w =>
    match w_script w with
    | [] => (Val NoFault, w)
    | f :: rest => (Val f, set_script rest w)
    end.

(** ** File-system primitives *)

Fixpoint lookup_path (path : string) (fs : list (string * nat)) : option nat :=
  match fs with
  | [] => None
  | (p, i) :: rest => if String.eqb p path then Some i else lookup_path path rest
  end.

Definition remove_path (path : string) (fs : list (string * nat)) : list (string * nat) :=
  filter (fun e => negb (String.eqb (fst e) path)) fs.

(** A walk reads each directory in lexical order of the names: a new entry
    takes its place before the first entry that is greater. *)
Fixpoint insert_path (path : string) (i : nat) (fs : list (string * nat))
  : list (string * nat) :=
  match fs with
  | [] => [(path, i)]
  | (p, j) :: rest =>
      if String.ltb path p then (path, i) :: (p, j) :: rest
      else (p, j) :: insert_path path i rest
  end.

Definition size_of (i : nat) (sz : list Z) : Z := nth i sz 0.

Fixpoint set_size (i : nat) (n : Z) (sz : list Z) : list Z :=
  match i, sz with
  | O, _ :: rest => n :: rest
  | S i', s :: rest => s :: set_size i' n rest
  | _, [] => []
  end.

(** The size of the file at [path], if there is one. *)
Definition disk_size (path : string) (w : World) : option Z :=
  match lookup_path path (w_files w) with
  | Some i => Some (size_of i (w_sizes w))
  | None => None
  end.

(** ** Library calls *)

(** os.Stat(path): the file's info, or the error. *)
Definition os_Stat (path : string) : M (FileInfo + error) :=
  f <- next_fault ;;
  fun w =>
    let res :=
      match f with
      | FaultWith e _ => inr e
      | NoFault =>
          match lookup_path path (w_files w) with
          | Some i => inl (mkFileInfo (size_of i (w_sizes w)))
          | None => inr ErrNotExist
          end
      end in
    (Val res,
     set_trace (w_trace w ++ [EvStat path match res with
                                          | inl _ => None
                                          | inr e => Some e
                                          end]) w).

(** Modelled from the spec: [openFile] is declared outside writer.rolling.go.
    The spec has it open the live file for appending when the file exists
    and create it when it does not; on failure no handle is returned. *)
Definition openFile (path : string) : M (option File * option error) :=
  f <- next_fault ;;
  match f with
  | FaultWith e _ => emit (EvOpen path (Some e)) ;;; ret (None, Some e)
  | NoFault =>
      fun w =>
        match lookup_path path (w_files w) with
        | Some i =>
            (Val (Some (mkFile i false), None),
             set_trace (w_trace w ++ [EvOpen path None]) w)
        | None =>
            let i := List.length (w_sizes w) in
            (Val (Some (mkFile i false), None),
             set_trace (w_trace w ++ [EvOpen path None])
               (set_sizes (w_sizes w ++ [0])
                  (set_files (insert_path path i (w_files w)) w)))
        end
  end.

(** The Close method of os.File.  A nil or already closed file fails without reaching
    the system; otherwise the descriptor is released whatever close(2)
    answers, so the file is closed afterwards even when an error comes
    back. *)
Definition File_Close (file : option File) : M (option File * option error) :=
  match file with
  | None => emit (EvClose (Some ErrInvalid)) ;;; ret (None, Some ErrInvalid)
  | Some h =>
      if f_closed h then emit (EvClose (Some ErrClosed)) ;;; ret (Some h, Some ErrClosed)
      else
        f <- next_fault ;;
        let err := match f with FaultWith e _ => Some e | NoFault => None end in
        emit (EvClose err) ;;; ret (Some (mkFile (f_ino h) true), err)
  end.

(** The WriteString method of os.File, on a file opened for appending: the bytes go to
    the end of the inode the file was opened on.  A faulted write leaves at
    most [n] bytes behind and reports how many. *)
Definition File_WriteString (file : option File) (s : string) : M (nat * option error) :=
  match file with
  | None => emit (EvWriteString 0 (Some ErrInvalid)) ;;; ret (0%nat, Some ErrInvalid)
  | Some h =>
      if f_closed h then
        emit (EvWriteString 0 (Some ErrClosed)) ;;; ret (0%nat, Some ErrClosed)
      else
        f <- next_fault ;;
        let '(count, err) :=
          match f with
          | FaultWith e n => (Nat.min n (String.length s), Some e)
          | NoFault => (String.length s, None)
          end in
        fun w =>
          (Val (count, err),
           set_trace (w_trace w ++ [EvWriteString count err])
             (set_sizes (set_size (f_ino h)
                           (size_of (f_ino h) (w_sizes w) + Z.of_nat count)
                           (w_sizes w)) w))
  end.

(** os.Rename(oldpath, newpath): the entry moves to the new name, replacing
    a file that has it. *)
Definition os_Rename (oldpath newpath : string) : M (option error) :=
  f <- next_fault ;;
  match f with
  | FaultWith e _ => emit (EvRename oldpath newpath (Some e)) ;;; ret (Some e)
  | NoFault =>
      fun w =>
        match lookup_path oldpath (w_files w) with
        | None =>
            (Val (Some ErrNotExist),
             set_trace (w_trace w ++ [EvRename oldpath newpath (Some ErrNotExist)]) w)
        | Some i =>
            (Val None,
             set_trace (w_trace w ++ [EvRename oldpath newpath None])
               (set_files (insert_path newpath i
                             (remove_path newpath (remove_path oldpath (w_files w)))) w))
        end
  end.

(** os.Remove(path) *)
Definition os_Remove (path : string) : M (option error) :=
  f <- next_fault ;;
  match f with
  | FaultWith e _ => emit (EvRemove path (Some e)) ;;; ret (Some e)
  | NoFault =>
      fun w =>
        match lookup_path path (w_files w) with
        | None =>
            (Val (Some ErrNotExist),
             set_trace (w_trace w ++ [EvRemove path (Some ErrNotExist)]) w)
        | Some _ =>
            (Val None,
             set_trace (w_trace w ++ [EvRemove path None])
               (set_files (remove_path path (w_files w)) w))
        end
  end.

(** time.Now() *)
Definition time_Now : M Time :=
  fun w =>
    match w_clock w with
    | [] => (Val (mkTime 1 1 1 0 0 0 0), w)
    | t :: rest => (Val t, set_clock rest w)
    end.

(** fmt.Println(msg, err) *)
Definition fmt_Println (msg : string) (err : error) : M unit :=
  emit (EvPrintln msg err).

(** The files below [root]: filepath.Join(root, name) for the names met. *)
Definition below (root path : string) : bool :=
  if String.eqb root "/" then HasPrefix path "/"
  else HasPrefix path (root ++ "/").

(** The walk function is called on one path after the other, with no
    error to report, until it returns an error. *)
Fixpoint walk_paths {S : Type} (fn : string -> option error -> S -> S * option error)
    (paths : list string) (acc : S) : S * option error :=
  match paths with
  | [] => (acc, None)
  | p :: rest =>
      match fn p None acc with
      | (acc', Some e) => (acc', Some e)
      | (acc', None) => walk_paths fn rest acc'
      end
  end.

(** filepath.Walk(root, fn): [fn] is called on the root and then on every
    file below it; the state [S] stands for the variables the closure
    captures, and the os.FileInfo argument, which the closure of this
    program does not read, is left out.  When the environment does not let
    the directory be read, [fn] is called on the root with that error and
    the walk is over.  Walk itself never fails: the error it returns is the
    one the walk function returned.  (Releases that call [fn] on the root
    once without and once more with the error give the closure of
    [deleteOld] the same list, as it never takes the root for an archive.) *)
Definition filepath_Walk {S : Type} (root : string)
    (fn : string -> option error -> S -> S * option error) (acc : S)
  : M (S * option error) :=
  f <- next_fault ;;
  fun w =>
    let res :=
      match f with
      | FaultWith e _ => fn root (Some e) acc
      | NoFault =>
          walk_paths fn (root :: filter (below root) (map fst (w_files w))) acc
      end in
    (Val res, set_trace (w_trace w ++ [EvWalk root (snd res)]) w).

(** ** The writer *)

(** The struct [rollingWriter].  The mutex [lock] is left out: one call runs
    at a time in this model, which is what the lock arranges. *)
Record rollingWriter : Type := mkWriter {
  closed       : bool;
  file         : option File;
  fileName     : string;
  maxSize      : Z;               (* int64 *)
  maxCount     : Z;               (* int *)
  bytesWritten : Z                (* int64 *)
}.

Definition set_closed (b : bool) (r : rollingWriter) : rollingWriter :=
  mkWriter b (file r) (fileName r) (maxSize r) (maxCount r) (bytesWritten r).
Definition set_file (f : option File) (r : rollingWriter) : rollingWriter :=
  mkWriter (closed r) f (fileName r) (maxSize r) (maxCount r) (bytesWritten r).
Definition set_bytesWritten (n : Z) (r : rollingWriter) : rollingWriter :=
  mkWriter (closed r) (file r) (fileName r) (maxSize r) (maxCount r) n.

(** Modelled from the spec: [toAbsolutePath] is declared outside
    writer.rolling.go; the spec has it resolve the path to an absolute
    form. *)
Definition toAbsolutePath (name : string) : M string :=
  fun w => (Val (if HasPrefix name "/" then name else w_cwd w ++ "/" ++ name), w).

(** Modelled from the spec: [panicOnError] is declared outside
    writer.rolling.go; it panics with a non-nil error. *)
Definition panicOnError (err : option error) : M unit :=
  match err with
  | Some e => panic (PanicError e)
  | None => ret tt
  end.

(** [rotate] renames the current live file and creates a new one. *)
Definition rotate (r : rollingWriter) : M (rollingWriter * option error) :=
  emit (EvCall FRotate) ;;;
  (* Close the open file *)
  '(f, err) <- File_Close (file r) ;;
  let r := set_file f r in
  match err with
  | Some e => ret (r, Some e)
  | None =>
      (* Rename it *)
      now <- time_Now ;;
      err <- os_Rename (fileName r) (fileName r ++ "." ++ Format_RFC3339 now) ;;
      match err with
      | Some e => ret (r, Some e)
      | None =>
          (* Create a new "live" file *)
          let r := set_bytesWritten 0 r in
          '(f, err) <- openFile (fileName r) ;;
          ret (set_file f r, err)
      end
  end.

(** The walk function of [deleteOld]; [logFiles] is the slice the closure
    appends to.  The error the walk hands over is not looked at. *)
Definition visit (r : rollingWriter) (path : string) (err : option error)
    (logFiles : list string) : list string * option error :=
  (* Not a matching file *)
  if negb (HasPrefix path (fileName r)) then (logFiles, None)
  else
    (* Matching file, check if it has a timestamp on the end *)
    let split := Split path "." in
    match Parse_RFC3339 (last_piece split) with
    | None => (logFiles, None)
    | Some _ => ((logFiles ++ [path])%list, None)
    end.

(** The loop of [deleteOld]: delete files until we're at the max count.
    Indexing the empty slice panics. *)
Fixpoint trim (maxCount : Z) (logFiles : list string) : M (option error) :=
  if Z.of_nat (List.length logFiles) >? maxCount then
    match logFiles with
    | [] => panic PanicIndexOutOfRange
    | path :: rest =>
        err <- os_Remove path ;;
        match err with
        | Some e => ret (Some e)
        | None => trim maxCount rest
        end
    end
  else ret None.

(** [deleteOld] deletes old log files, based on the configured max count. *)
Definition deleteOld (r : rollingWriter) : M (option error) :=
  emit (EvCall FDeleteOld) ;;;
  (* Get the log directory *)
  let directory := filepath_Dir (fileName r) in
  (* Walk the directory we're logging to and find the log files *)
  '(logFiles, err) <- filepath_Walk directory (visit r) [] ;;
  (* If there was a walk error, return that *)
  match err with
  | Some e => ret (Some e)
  | None => trim (maxCount r) logFiles
  end.

(** [newRollingWriter] creates a new rolling writer. *)
Definition newRollingWriter (name : string) (maxSizeMB maxCountArg : Z)
  : M rollingWriter :=
  abs <- toAbsolutePath name ;;
  (* int64(maxSize * megabyte): the product wraps in int, as wide as int64 *)
  let writer := mkWriter false None abs (wrap64 (maxSizeMB * megabyte))
                  maxCountArg 0 in
  (* Check if there's already a live log file *)
  stat <- os_Stat (fileName writer) ;;
  match stat with
  | inl info =>
      (* The file already exists, open it up *)
      '(f, err) <- openFile (fileName writer) ;;
      let writer := set_file f writer in
      panicOnError err ;;;
      (* Store the size of it and rotate if necessary *)
      let writer := set_bytesWritten (Size info) writer in
      writer <-
        (if bytesWritten writer >=? maxSize writer then
           '(writer, err) <- rotate writer ;;
           panicOnError err ;;;
           ret writer
         else ret writer) ;;
      (* Delete old files *)
      err <- deleteOld writer ;;
      panicOnError err ;;;
      ret writer
  | inr e =>
      (* Make sure it's a file doesn't exist error *)
      if negb (IsNotExist e) then panic (PanicError e)
      else
        (* Create the live file *)
        '(f, err) <- openFile (fileName writer) ;;
        let writer := set_file f writer in
        panicOnError err ;;;
        (* Delete old files *)
        err <- deleteOld writer ;;
        panicOnError err ;;;
        ret writer
  end.

(** [close] closes the writer. *)
Definition close (r : rollingWriter) : M rollingWriter :=
  '(f, _) <- File_Close (file r) ;;
  ret (set_closed true (set_file f r)).

Section Write.

(** The logger, the level and the line format are declared outside
    writer.rolling.go and are left open. *)
Variables Logger level : Type.
Variable formatStandard : Logger -> level -> string -> string.

(** [write] writes a log line to the file. *)
Definition write (r : rollingWriter) (logger : Logger) (lvl : level)
    (line : string) : M rollingWriter :=
  if closed r then ret r
  else
    '(count, err) <- File_WriteString (file r)
                       (formatStandard logger lvl line ++ String "010" EmptyString) ;;
    match err with
    | Some e => fmt_Println "Failed to write log line:" e ;;; ret r
    | None =>
        (* Rotate if we've written more than we're allowed in the file *)
        let r := set_bytesWritten (wrap64 (bytesWritten r + Z.of_nat count)) r in
        if bytesWritten r >=? maxSize r then
          '(r, err) <- rotate r ;;
          match err with
           | Some e => fmt_Println "Failed to rotate log file:" e
           | None => ret tt
           end ;;;
          err <- deleteOld r ;;
          match err with
           | Some e => fmt_Println "Failed to delete old log file:" e
           | None => ret tt
           end ;;;
          ret r
        else ret r
    end.

(** A run of [write] calls, one per line. *)
Fixpoint writes (r : rollingWriter) (logger : Logger) (lvl : level)
    (lines : list string) : M rollingWriter :=
  match lines with
  | [] => ret r
  | line :: rest => r' <- write r logger lvl line ;; writes r' logger lvl rest
  end.

End Write.

(** The line as it is: the simplest format, used to run the model. *)
Definition plainFormat (_ _ : unit) (line : string) : string := line.

(** The ghost count of calls of [f] in a trace. *)
Definition is_call (f : Func) (ev : Event) : bool :=
  match ev, f with
  | EvCall FRotate, FRotate => true
  | EvCall FDeleteOld, FDeleteOld => true
  | _, _ => false
  end.

Definition calls (f : Func) (tr : list Event) : nat :=
  List.length (filter (is_call f) tr).

Definition is_write (ev : Event) : bool :=
  match ev with EvWriteString _ _ => true | _ => false end.

Definition is_remove (ev : Event) : bool :=
  match ev with EvRemove _ _ => true | _ => false end.

(** The test of the walk function: the path starts with the live path and
    what follows its last dot is a time stamp. *)
Definition is_archive (r : rollingWriter) (path : string) : bool :=
  HasPrefix path (fileName r) &&
  match Parse_RFC3339 (last_piece (Split path ".")) with
  | Some _ => true
  | None => false
  end.

(** The log directory and the files below it, in the order of a walk. *)
Definition listing (r : rollingWriter) (w : World) : list string :=
  filepath_Dir (fileName r)
    :: filter (below (filepath_Dir (fileName r))) (map fst (w_files w)).

(** The environment lets the next library call through; for a scan that
    starts in [w], the directory can be read. *)
Definition readable (w : World) : Prop := hd NoFault (w_script w) = NoFault.

(** The paths a walk of the log directory calls the walk function on: the
    whole listing, or the directory alone when it cannot be read. *)
Definition walked (r : rollingWriter) (w : World) : list string :=
  match hd NoFault (w_script w) with
  | NoFault => listing r w
  | FaultWith _ _ => [filepath_Dir (fileName r)]
  end.

(** The archives a scan of [w] discovers, in discovery order. *)
Definition archives (r : rollingWriter) (w : World) : list string :=
  filter (is_archive r) (walked r w).

(** The archives the log directory holds, in the order of a walk. *)
Definition on_disk (r : rollingWriter) (w : World) : list string :=
  filter (is_archive r) (listing r w).

(** ** Vocabulary of the statements *)

(** What a call leaves alone. *)
Definition same_disk (w w' : World) : Prop :=
  w_files w' = w_files w /\ w_sizes w' = w_sizes w.

(** The name the live file is archived under at time [t]. *)
Definition archive_name (r : rollingWriter) (t : Time) : string :=
  (fileName r ++ "." ++ Format_RFC3339 t)%string.

(** The four ways a rotation can go, by the step that fails: what the
    writer and the disk are like afterwards and which events are left. *)
Inductive rotate_outcome (r : rollingWriter) (w : World)
  : rollingWriter -> option error -> World -> list Event -> Prop :=
| RotCloseFails r' w' e :
    bytesWritten r' = bytesWritten r ->
    same_disk w w' ->
    (forall h, file r' = Some h -> f_closed h = true) ->
    rotate_outcome r w r' (Some e) w' [EvClose (Some e)]
| RotRenameFails r' w' e t :
    bytesWritten r' = bytesWritten r ->
    same_disk w w' ->
    (forall h, file r' = Some h -> f_closed h = true) ->
    rotate_outcome r w r' (Some e) w'
      [EvClose None; EvRename (fileName r) (archive_name r t) (Some e)]
| RotOpenFails r' w' e t :
    bytesWritten r' = 0 ->
    file r' = None ->
    lookup_path (fileName r) (w_files w') = None ->
    rotate_outcome r w r' (Some e) w'
      [EvClose None; EvRename (fileName r) (archive_name r t) None;
       EvOpen (fileName r) (Some e)]
| RotDone r' w' t i :
    bytesWritten r' = 0 ->
    file r' = Some (mkFile i false) ->
    lookup_path (fileName r) (w_files w') = Some i ->
    (i < List.length (w_sizes w'))%nat ->
    size_of i (w_sizes w') = 0 ->
    rotate_outcome r w r' None w'
      [EvClose None; EvRename (fileName r) (archive_name r t) None;
       EvOpen (fileName r) None].

(** The events of deleting [paths] one after the other without failure. *)
Definition ok_removes (paths : list string) : list Event :=
  map (fun p => EvRemove p None) paths.

(** The directory once [paths] have been deleted. *)
Definition remove_paths (paths : list string) (fs : list (string * nat))
  : list (string * nat) :=
  fold_left (fun fs p => remove_path p fs) paths fs.

(** How the loop of [deleteOld] ends after [j] successful deletions from the
    list [l], with the events it leaves. *)
Definition loop_end (mc : Z) (l : list string) (j : nat)
    (res : Res (option error)) (evs : list Event) : Prop :=
  match res with
  | Val None =>
      evs = ok_removes (firstn j l) /\
      Z.of_nat j = Z.max 0 (Z.of_nat (List.length l) - mc)
  | Val (Some e) =>
      exists p, nth_error l j = Some p /\
        evs = (ok_removes (firstn j l) ++ [EvRemove p (Some e)])%list /\
        Z.of_nat (List.length l - j) > mc
  | Panicked pv =>
      pv = PanicIndexOutOfRange /\ j = List.length l /\
      evs = ok_removes l /\ mc < 0
  end.

(** A library call that is neither a ghost mark nor a write. *)
Definition quiet (ev : Event) : bool :=
  match ev with
  | EvCall _ | EvWriteString _ _ => false
  | _ => true
  end.

(** The path an event deletes, if it is a deletion. *)
Definition removed_path (ev : Event) : option string :=
  match ev with
  | EvRemove p _ => Some p
  | _ => None
  end.

(** The events a construction may leave before its scan. *)
Definition setup (ev : Event) : bool :=
  match ev with
  | EvStat _ _ | EvOpen _ _ | EvClose _ | EvRename _ _ _ | EvCall FRotate => true
  | _ => false
  end.

(** bytesWritten is the size of the file at the live path, and the writer's
    file, while open, is that file. *)
Definition tracks (r : rollingWriter) (w : World) : Prop :=
  exists i,
    lookup_path (fileName r) (w_files w) = Some i /\
    (i < List.length (w_sizes w))%nat /\
    size_of i (w_sizes w) = bytesWritten r /\
    forall h, file r = Some h -> f_closed h = false -> f_ino h = i.

(** The scan at the end of a construction: the writer is returned when
    deleteOld returns nil, and any error is a panic. *)
Definition scanned (r : rollingWriter) (dres : Res (option error))
  : Res rollingWriter :=
  match dres with
  | Val None => Val r
  | Val (Some e) => Panicked (PanicError e)
  | Panicked pv => Panicked pv
  end.

(** A time as time.Now can return it and RFC 3339 can print it. *)
Definition valid_time (t : Time) : Prop :=
  0 <= year t < 10000 /\ 1 <= month t <= 12 /\
  1 <= day t <= daysIn (month t) (year t) /\
  0 <= hour t < 24 /\ 0 <= minute t < 60 /\ 0 <= second t < 60 /\
  - 1440 < zone t < 1440.

(** ** Vocabulary of the further properties *)

(** What write prints for an error: one line, or nothing for nil. *)
Definition report (msg : string) (err : option error) : list Event :=
  match err with
  | Some e => [EvPrintln msg e]
  | None => []
  end.

(** The error a library call returned, for the events that record one.
    A printed report is not a call that failed. *)
Definition failure (ev : Event) : option error :=
  match ev with
  | EvCall _ | EvPrintln _ _ => None
  | EvStat _ err | EvOpen _ err | EvClose err | EvRename _ _ err
  | EvRemove _ err | EvWalk _ err | EvWriteString _ err => err
  end.

Definition succeeded (ev : Event) : bool :=
  match failure ev with
  | Some _ => false
  | None => true
  end.

(** A writer whose file is nil or closed: no append can succeed on it. *)
Definition dead (r : rollingWriter) : Prop :=
  forall h, file r = Some h -> f_closed h = true.

(** The configuration of a writer, fixed at construction. *)
Definition same_config (r r' : rollingWriter) : Prop :=
  fileName r' = fileName r /\ maxSize r' = maxSize r /\ maxCount r' = maxCount r.

(** The live file is there and counted right, or it is gone and the writer
    has no file to append to. *)
Definition tracks_or_lost (r : rollingWriter) (w : World) : Prop :=
  tracks r w \/ (disk_size (fileName r) w = None /\ dead r).

(** The bytes a run of appends adds up to. *)
Definition bytes_of (texts : list string) : Z :=
  fold_right (fun s n => Z.of_nat (String.length s) + n) 0 texts.

(** No failed append has left bytes in the file. *)
Definition no_short_write (evs : list Event) : Prop :=
  forall n e, In (EvWriteString n (Some e)) evs -> n = 0%nat.

(** What time.Now returns when the clock of the model has run out. *)
Definition zero_time : Time := mkTime 1 1 1 0 0 0 0.

(** An environment that disturbs none of the calls to come. *)
Definition calm (w : World) : Prop := forall f, In f (w_script w) -> f = NoFault.

(** A computation that does not put a fault in the way of later calls. *)
Definition keeps_calm {A : Type} (m : M A) : Prop :=
  forall w, calm w -> calm (snd (m w)).

(** ** Sample worlds *)

Definition t0 : Time := mkTime 2020 1 1 0 0 0 0.
Definition t1 : Time := mkTime 2020 1 1 0 0 1 0.

Definition live : string := "/log/app.log".
Definition arch1 : string := "/log/app.log.2019-12-29T08:00:00Z".
Definition arch2 : string := "/log/app.log.2019-12-30T08:00:00Z".
Definition arch3 : string := "/log/app.log.2019-12-31T08:00:00Z".

(** No file at all. *)
Definition empty_world : World := mkWorld "/" [] [] [t0; t1] [] [].

(** A live file of 5 bytes and no archive. *)
Definition live_world : World :=
  mkWorld "/" [(live, 0%nat)] [5] [t0; t1] [] [].

(** A live file of 5 bytes, three archives and a file that only shares the
    prefix. *)
Definition full_world (script : list Fault) : World :=
  mkWorld "/"
    [(live, 0%nat); (arch1, 1%nat); (arch2, 2%nat); (arch3, 3%nat);
     ("/log/app.log.bak", 4%nat)]
    [5; 10; 10; 10; 7] [t0; t1] script [].

(** An open writer on the live file of [live_world], threshold 10 bytes. *)
Definition sample_writer (maxCount : Z) : rollingWriter :=
  mkWriter false (Some (mkFile 0 false)) live 10 maxCount 5.

(** A live file whose own name ends in a time stamp. *)
Definition stamped_live : string := "/log/app.2020-01-01T00:00:00Z".
Definition stamped_world : World :=
  mkWorld "/" [(stamped_live, 0%nat)] [5] [t0; t1] [] [].
Definition stamped_writer : rollingWriter :=
  mkWriter false (Some (mkFile 0 false)) stamped_live 10 0 5.

(** A construction over no file followed by two writes, the first of which
    the environment cuts short after 3 bytes. *)
Definition short_write_world : World :=
  mkWorld "/" [] [] [t0; t1]
    [NoFault; NoFault; NoFault; FaultWith ErrNoSpace 3] [].

Definition short_write_run : Res rollingWriter * World :=
  (r <- newRollingWriter live 1 2 ;;
   writes unit unit plainFormat r tt tt ["aaaa"; "bbbb"])%go short_write_world.


(** Two lines, the first of which takes [sample_writer] over its threshold. *)
Definition two_lines : list string := ["hello"; "again"].

(** The writer after a rotation in a world where the live file was the only
    file: its file is the second inode. *)
Definition rotated_writer (maxCount bytes : Z) : rollingWriter :=
  mkWriter false (Some (mkFile 1 false)) live 10 maxCount bytes.

(** The writer after a rotation whose rename failed: the file is closed. *)
Definition stuck_writer : rollingWriter :=
  mkWriter false (Some (mkFile 0 true)) live 10 2 5.

(** An environment that refuses the rename of a rotation, and one that
    refuses the rename of a rotation during construction. *)
Definition rename_fails : list Fault := [NoFault; FaultWith ErrPermission 0].
Definition construction_rename_fails : list Fault :=
  [NoFault; NoFault; NoFault; FaultWith ErrPermission 0].

(** * Properties *)

Local Open Scope list_scope.

(** ** The string and time functions on sample values *)

Example parse_utc :
  Parse_RFC3339 "2020-01-01T00:00:00Z" = Some (mkTime 2020 1 1 0 0 0 0).
Proof. reflexivity. Qed.

Example parse_offset :
  Parse_RFC3339 "2021-02-28T23:59:59-07:00" = Some (mkTime 2021 2 28 23 59 59 (-420)).
Proof. reflexivity. Qed.

Example parse_rejects_name : Parse_RFC3339 "log" = None.
Proof. reflexivity. Qed.

Example parse_short_hour :
  Parse_RFC3339 "2020-01-01T1:00:00Z" = Some (mkTime 2020 1 1 1 0 0 0).
Proof. reflexivity. Qed.

Example parse_comma_fraction :
  Parse_RFC3339 "2020-01-01T01:00:00,5Z" = Some (mkTime 2020 1 1 1 0 0 0).
Proof. reflexivity. Qed.

Example parse_wide_zone :
  Parse_RFC3339 "2020-01-01T01:00:00+24:60" = Some (mkTime 2020 1 1 1 0 0 1500).
Proof. reflexivity. Qed.

Example parse_rejects_short_minute : Parse_RFC3339 "2020-01-01T01:0:00Z" = None.
Proof. reflexivity. Qed.

Example parse_rejects_day : Parse_RFC3339 "2021-02-29T01:00:00Z" = None.
Proof. reflexivity. Qed.

Example parse_rejects_extra_text : Parse_RFC3339 "2020-01-01T01:00:00Zx" = None.
Proof. reflexivity. Qed.

Example format_then_parse :
  Parse_RFC3339 (Format_RFC3339 (mkTime 2024 2 29 13 5 9 330))
  = Some (mkTime 2024 2 29 13 5 9 330).
Proof. reflexivity. Qed.

Example split_path :
  Split "/log/app.log.2020-01-01T00:00:00Z" "." = ["/log/app"; "log"; "2020-01-01T00:00:00Z"].
Proof. reflexivity. Qed.

Example split_no_dot : Split "/log/app" "." = ["/log/app"].
Proof. reflexivity. Qed.

Example dir_of_path : filepath_Dir "/var/log/app.log" = "/var/log".
Proof. reflexivity. Qed.

(** ** Running the monad *)

Lemma bind_val {A B : Type} (m : M A) (k : A -> M B) (w w1 : World) (a : A) :
  m w = (Val a, w1) -> bind m k w = k a w1.
Proof. unfold bind; intros ->; reflexivity. Qed.

Lemma bind_panicked {A B : Type} (m : M A) (k : A -> M B) (w w1 : World) p :
  m w = (Panicked p, w1) -> bind m k w = (Panicked p, w1).
Proof. unfold bind; intros ->; reflexivity. Qed.

Lemma emit_run (ev : Event) (w : World) :
  emit ev w = (Val tt, set_trace (w_trace w ++ [ev]) w).
Proof. reflexivity. Qed.

Lemma same_disk_refl w : same_disk w w.
Proof. split; reflexivity. Qed.

Lemma same_disk_trans w1 w2 w3 :
  same_disk w1 w2 -> same_disk w2 w3 -> same_disk w1 w3.
Proof. unfold same_disk; intros [-> ->] [-> ->]; auto. Qed.

Lemma next_fault_run (w : World) :
  exists f w', next_fault w = (Val f, w') /\
    w_trace w' = w_trace w /\ same_disk w w'.
Proof.
  unfold next_fault, same_disk.
  destruct (w_script w) as [|f rest]; eauto 10.
Qed.

(** ** The library calls, one step each *)

Lemma File_Close_run (f : option File) (w : World) :
  exists f' err w',
    File_Close f w = (Val (f', err), w') /\
    w_trace w' = w_trace w ++ [EvClose err] /\
    same_disk w w' /\
    (forall h, f' = Some h -> f_closed h = true).
Proof.
  unfold File_Close.
  destruct f as [h|]; [destruct (f_closed h) eqn:Ec|].
  - do 3 eexists; split; [reflexivity|]. split; [reflexivity|].
    split; [split; reflexivity|]. intros h' [= <-]. exact Ec.
  - destruct (next_fault_run w) as (ft & w1 & Hn & Ht & Hd).
    rewrite (bind_val _ _ _ _ _ Hn).
    do 3 eexists; split; [reflexivity|]. cbn. rewrite Ht. split; [reflexivity|].
    split; [exact Hd|]. intros h' [= <-]. reflexivity.
  - do 3 eexists; split; [reflexivity|]. split; [reflexivity|].
    split; [split; reflexivity|]. discriminate.
Qed.

Lemma time_Now_run (w : World) :
  exists t w', time_Now w = (Val t, w') /\
    w_trace w' = w_trace w /\ same_disk w w'.
Proof.
  unfold time_Now, same_disk. destruct (w_clock w); eauto 10.
Qed.

Lemma os_Rename_run (a b : string) (w : World) :
  exists err w',
    os_Rename a b w = (Val err, w') /\
    w_trace w' = w_trace w ++ [EvRename a b err] /\
    w_sizes w' = w_sizes w /\
    match err with
    | Some _ => w_files w' = w_files w
    | None => exists i, lookup_path a (w_files w) = Some i /\
        w_files w' = insert_path b i (remove_path b (remove_path a (w_files w)))
    end.
Proof.
  unfold os_Rename.
  destruct (next_fault_run w) as (ft & w1 & Hn & Ht & Hf & Hs).
  rewrite (bind_val _ _ _ _ _ Hn).
  destruct ft as [|e n].
  - destruct (lookup_path a (w_files w1)) as [i|] eqn:El.
    + do 2 eexists; split; [reflexivity|]. cbn. rewrite Ht, Hs. rewrite Hf in *.
      repeat split. exists i. auto.
    + do 2 eexists; split; [reflexivity|]. cbn. rewrite Ht, Hs, Hf. auto.
  - do 2 eexists; split; [reflexivity|]. cbn. rewrite Ht, Hs, Hf. auto.
Qed.

Lemma openFile_run (p : string) (w : World) :
  exists f err w',
    openFile p w = (Val (f, err), w') /\
    w_trace w' = w_trace w ++ [EvOpen p err] /\
    match err with
    | Some _ => f = None /\ same_disk w w'
    | None =>
        exists i, f = Some (mkFile i false) /\
          match lookup_path p (w_files w) with
          | Some j => i = j /\ same_disk w w'
          | None =>
              i = List.length (w_sizes w) /\
              w_files w' = insert_path p i (w_files w) /\
              w_sizes w' = w_sizes w ++ [0]
          end
    end.
Proof.
  unfold openFile.
  destruct (next_fault_run w) as (ft & w1 & Hn & Ht & Hf & Hs).
  rewrite (bind_val _ _ _ _ _ Hn).
  destruct ft as [|e n].
  - rewrite <- Hf, <- Hs.
    destruct (lookup_path p (w_files w1)) as [j|] eqn:El.
    + do 3 eexists; split; [reflexivity|]. cbn. rewrite Ht. split; [reflexivity|].
      exists j. repeat split; cbn; congruence.
    + do 3 eexists; split; [reflexivity|]. cbn. rewrite Ht. split; [reflexivity|].
      eexists. repeat split; cbn; congruence.
  - do 3 eexists; split; [reflexivity|]. cbn. rewrite Ht.
    repeat split; cbn; congruence.
Qed.

Lemma os_Remove_run (p : string) (w : World) :
  exists err w',
    os_Remove p w = (Val err, w') /\
    w_trace w' = w_trace w ++ [EvRemove p err] /\
    w_sizes w' = w_sizes w /\
    match err with
    | Some _ => w_files w' = w_files w
    | None => lookup_path p (w_files w) <> None /\
              w_files w' = remove_path p (w_files w)
    end.
Proof.
  unfold os_Remove.
  destruct (next_fault_run w) as (ft & w1 & Hn & Ht & Hf & Hs).
  rewrite (bind_val _ _ _ _ _ Hn).
  destruct ft as [|e n].
  - rewrite <- Hf, <- Hs.
    destruct (lookup_path p (w_files w1)) as [j|] eqn:El.
    + do 2 eexists; split; [reflexivity|]. cbn. rewrite Ht.
      repeat split. congruence.
    + do 2 eexists; split; [reflexivity|]. cbn. rewrite Ht. auto.
  - do 2 eexists; split; [reflexivity|]. cbn. rewrite Ht, Hs, Hf. auto.
Qed.

Lemma os_Stat_run (p : string) (w : World) :
  exists stat w',
    os_Stat p w = (Val stat, w') /\
    same_disk w w' /\
    match stat with
    | inl info =>
        w_trace w' = w_trace w ++ [EvStat p None] /\
        disk_size p w = Some (Size info)
    | inr e => w_trace w' = w_trace w ++ [EvStat p (Some e)]
    end.
Proof.
  unfold os_Stat, disk_size.
  destruct (next_fault_run w) as (ft & w1 & Hn & Ht & Hf & Hs).
  rewrite (bind_val _ _ _ _ _ Hn).
  rewrite <- Hf, <- Hs.
  destruct ft as [|e n].
  - destruct (lookup_path p (w_files w1)) as [j|] eqn:El.
    + do 2 eexists; split; [reflexivity|]. cbn. rewrite Ht.
      repeat split; cbn; congruence.
    + do 2 eexists; split; [reflexivity|]. cbn. rewrite Ht.
      repeat split; cbn; congruence.
  - do 2 eexists; split; [reflexivity|]. cbn. rewrite Ht.
    repeat split; cbn; congruence.
Qed.

Lemma File_WriteString_run (f : option File) (s : string) (w : World) :
  exists count err w',
    File_WriteString f s w = (Val (count, err), w') /\
    w_trace w' = w_trace w ++ [EvWriteString count err] /\
    w_files w' = w_files w /\
    (count <= String.length s)%nat /\
    (err = None -> count = String.length s) /\
    match f with
    | Some h =>
        if f_closed h then count = 0%nat /\ w_sizes w' = w_sizes w
        else w_sizes w' =
             set_size (f_ino h) (size_of (f_ino h) (w_sizes w) + Z.of_nat count) (w_sizes w)
    | None => count = 0%nat /\ w_sizes w' = w_sizes w
    end.
Proof.
  unfold File_WriteString.
  destruct f as [h|]; [destruct (f_closed h)|].
  - do 3 eexists; split; [reflexivity|]. cbn. repeat split; try lia; discriminate.
  - destruct (next_fault_run w) as (ft & w1 & Hn & Ht & Hf & Hs).
    rewrite (bind_val _ _ _ _ _ Hn).
    destruct ft as [|e n].
    + do 3 eexists; split; [reflexivity|]. cbn. rewrite Ht, Hf, Hs.
      repeat split; lia.
    + do 3 eexists; split; [reflexivity|]. cbn. rewrite Ht, Hf, Hs.
      repeat split; try lia; discriminate.
  - do 3 eexists; split; [reflexivity|]. cbn. repeat split; try lia; discriminate.
Qed.

(** ** The log directory *)

Lemma string_length_append (s1 s2 : string) :
  String.length (s1 ++ s2)%string = (String.length s1 + String.length s2)%nat.
Proof. induction s1 as [|c s1 IH]; cbn; congruence. Qed.

Lemma before_last_slash_spec (f d : string) :
  before_last_slash f = Some d ->
  exists base, f = (d ++ String "/" base)%string.
Proof.
  revert d; induction f as [|c f IH]; intros d H; cbn in H; [discriminate|].
  destruct (before_last_slash f) as [d'|].
  - injection H as <-. destruct (IH d' eq_refl) as (base & ->).
    exists base. reflexivity.
  - destruct (Ascii.eqb c "/") eqn:E; [|discriminate].
    injection H as <-. apply Ascii.eqb_eq in E. subst c.
    exists f. reflexivity.
Qed.

Lemma Dir_length (f : string) :
  (String.length (filepath_Dir f) <= Nat.max 1 (String.length f))%nat.
Proof.
  unfold filepath_Dir.
  destruct (before_last_slash f) as [d|] eqn:E; [|cbn [String.length]; lia].
  destruct (before_last_slash_spec _ _ E) as (base & ->).
  rewrite string_length_append. destruct d; cbn [String.length]; lia.
Qed.

Lemma prefix_length (p s : string) :
  String.prefix p s = true -> (String.length p <= String.length s)%nat.
Proof.
  revert s; induction p as [|c p IH]; intros s H; cbn [String.length]; [lia|].
  destruct s as [|c' s]; cbn [String.prefix String.length] in *; [discriminate|].
  destruct (ascii_dec c c'); [|discriminate].
  specialize (IH _ H). lia.
Qed.

(** The directory that deleteOld walks is never taken for an archive: it
    starts with the live path only when it is "." or "/". *)
Lemma root_not_archive (r : rollingWriter) :
  is_archive r (filepath_Dir (fileName r)) = false.
Proof.
  unfold is_archive.
  destruct (HasPrefix (filepath_Dir (fileName r)) (fileName r)) eqn:E;
    [|reflexivity].
  cbn [andb]. unfold filepath_Dir in *.
  destruct (before_last_slash (fileName r)) as [[|c d]|] eqn:Eb;
    [reflexivity| |reflexivity].
  exfalso. destruct (before_last_slash_spec _ _ Eb) as (base & Hf).
  apply prefix_length in E. rewrite Hf in E at 1.
  rewrite string_length_append in E. cbn [String.length] in E. lia.
Qed.

(** ** The archive set *)

Lemma visit_spec r p err acc :
  visit r p err acc = (if is_archive r p then acc ++ [p] else acc, None).
Proof.
  unfold visit, is_archive.
  destruct (HasPrefix p (fileName r)); cbn; [|reflexivity].
  destruct (Parse_RFC3339 _); reflexivity.
Qed.

Lemma walk_visit r paths acc :
  walk_paths (visit r) paths acc = (acc ++ filter (is_archive r) paths, None).
Proof.
  revert acc; induction paths as [|p paths IH]; intros acc; cbn.
  - now rewrite app_nil_r.
  - rewrite visit_spec. rewrite IH.
    destruct (is_archive r p); [now rewrite <- app_assoc|reflexivity].
Qed.

Lemma Walk_visit_run r (w : World) :
  exists logFiles err w',
    filepath_Walk (filepath_Dir (fileName r)) (visit r) [] w = (Val (logFiles, err), w') /\
    w_trace w' = w_trace w ++ [EvWalk (filepath_Dir (fileName r)) err] /\
    same_disk w w' /\
    err = None /\ logFiles = archives r w.
Proof.
  unfold filepath_Walk, archives, walked, listing, next_fault, bind.
  destruct (w_script w) as [|[|e n] rest]; cbn [hd].
  - rewrite walk_visit. do 3 eexists. split; [reflexivity|].
    cbn. repeat split.
  - rewrite walk_visit. do 3 eexists. split; [reflexivity|].
    cbn. repeat split.
  - rewrite visit_spec. do 3 eexists. split; [reflexivity|].
    cbn. repeat split.
Qed.

Lemma archives_readable r w : readable w -> archives r w = on_disk r w.
Proof. unfold readable, archives, on_disk, walked. now intros ->. Qed.

Lemma archives_unreadable r w e n :
  hd NoFault (w_script w) = FaultWith e n -> archives r w = [].
Proof.
  unfold archives, walked. intros ->. cbn [filter].
  now rewrite root_not_archive.
Qed.

(** ** rotate *)

Lemma lookup_remove_path (p q : string) (fs : list (string * nat)) :
  lookup_path p (remove_path q fs) =
  if String.eqb p q then None else lookup_path p fs.
Proof.
  unfold remove_path.
  induction fs as [|[x i] fs IH]; cbn [filter fst lookup_path].
  - now destruct (String.eqb p q).
  - destruct (String.eqb x q) eqn:Exq; cbn [negb lookup_path].
    + rewrite IH. destruct (String.eqb p q) eqn:Epq; [reflexivity|].
      destruct (String.eqb x p) eqn:Exp; [|reflexivity].
      apply String.eqb_eq in Exq, Exp. subst.
      rewrite String.eqb_refl in Epq. discriminate.
    + destruct (String.eqb x p) eqn:Exp.
      * apply String.eqb_eq in Exp. subst.
        now rewrite Exq.
      * exact IH.
Qed.

Lemma archive_name_fresh (r : rollingWriter) (t : Time) :
  archive_name r t <> fileName r.
Proof.
  unfold archive_name. intros H. apply (f_equal String.length) in H.
  rewrite !string_length_append in H. cbn in H. lia.
Qed.

Lemma lookup_insert_path_other (p q : string) (i : nat) (fs : list (string * nat)) :
  p <> q -> lookup_path p (insert_path q i fs) = lookup_path p fs.
Proof.
  intros Hpq. induction fs as [|[x j] fs IH]; cbn.
  - destruct (String.eqb q p) eqn:E; [|reflexivity].
    apply String.eqb_eq in E. congruence.
  - destruct (String.ltb q x); cbn.
    + destruct (String.eqb q p) eqn:E; [|reflexivity].
      apply String.eqb_eq in E. congruence.
    + now rewrite IH.
Qed.

Lemma lookup_insert_path_new (p : string) (i : nat) (fs : list (string * nat)) :
  lookup_path p fs = None -> lookup_path p (insert_path p i fs) = Some i.
Proof.
  induction fs as [|[x j] fs IH]; cbn.
  - now rewrite String.eqb_refl.
  - destruct (String.eqb x p) eqn:E; [discriminate|]. intros H.
    destruct (String.ltb p x); cbn.
    + now rewrite String.eqb_refl.
    + rewrite E. auto.
Qed.

Lemma size_of_new (sz : list Z) : size_of (List.length sz) (sz ++ [0]) = 0.
Proof. unfold size_of. rewrite app_nth2, Nat.sub_diag by lia. reflexivity. Qed.

Lemma rotate_run (r : rollingWriter) (w : World) :
  exists r' err w' evs,
    rotate r w = (Val (r', err), w') /\
    w_trace w' = w_trace w ++ EvCall FRotate :: evs /\
    (closed r' = closed r /\ fileName r' = fileName r /\
     maxSize r' = maxSize r /\ maxCount r' = maxCount r) /\
    rotate_outcome r w r' err w' evs.
Proof.
  unfold rotate.
  rewrite (bind_val _ _ _ _ _ (emit_run _ w)).
  set (w0 := set_trace _ w).
  destruct (File_Close_run (file r) w0) as (f1 & e1 & w1 & Hc & Ht1 & Hd1 & Hcl1).
  rewrite (bind_val _ _ _ _ _ Hc).
  assert (Hd0 : same_disk w w0) by (split; reflexivity).
  assert (Ht0 : w_trace w0 = w_trace w ++ [EvCall FRotate]) by reflexivity.
  destruct e1 as [e|].
  { do 4 eexists; split; [reflexivity|].
    split; [rewrite Ht1, Ht0, <- app_assoc; reflexivity|].
    split; [repeat split|].
    constructor; [reflexivity|unfold same_disk in *; intuition congruence|exact Hcl1]. }
  cbn [fileName set_file].
  destruct (time_Now_run w1) as (t & w2 & Hn & Ht2 & Hd2).
  rewrite (bind_val _ _ _ _ _ Hn).
  destruct (os_Rename_run (fileName r) (fileName r ++ "." ++ Format_RFC3339 t)%string w2)
    as (e3 & w3 & Hr & Ht3 & Hs3 & Hf3).
  rewrite (bind_val _ _ _ _ _ Hr).
  destruct e3 as [e|].
  { do 4 eexists; split; [reflexivity|].
    split; [rewrite Ht3, Ht2, Ht1, Ht0, <- !app_assoc; reflexivity|].
    split; [repeat split|].
    apply RotRenameFails; [reflexivity| |exact Hcl1].
    unfold same_disk in *; intuition congruence. }
  cbn [fileName set_file set_bytesWritten].
  destruct (openFile_run (fileName r) w3) as (f4 & e4 & w4 & Ho & Ht4 & Hres).
  rewrite (bind_val _ _ _ _ _ Ho).
  do 4 eexists; split; [reflexivity|].
  split; [rewrite Ht4, Ht3, Ht2, Ht1, Ht0, <- !app_assoc; reflexivity|].
  split; [repeat split|].
  destruct Hf3 as (i0 & _ & Hf3).
  assert (Hgone : lookup_path (fileName r) (w_files w3) = None).
  { rewrite Hf3, lookup_insert_path_other
      by (intros H; symmetry in H; revert H; apply (archive_name_fresh r t)).
    rewrite lookup_remove_path.
    destruct (String.eqb (fileName r) _); [reflexivity|].
    rewrite lookup_remove_path. now rewrite String.eqb_refl. }
  destruct e4 as [e|].
  - destruct Hres as [-> [Hf4 _]]. apply RotOpenFails; try reflexivity.
    now rewrite Hf4.
  - destruct Hres as (i & -> & Hnew). rewrite Hgone in Hnew.
    destruct Hnew as (-> & Hf4 & Hs4).
    eapply RotDone; try reflexivity.
    + rewrite Hf4. now apply lookup_insert_path_new.
    + rewrite Hs4, length_app. cbn. lia.
    + rewrite Hs4. apply size_of_new.
Qed.

(** ** The trimming loop *)

Lemma lookup_remove_paths (p : string) (l : list string) (fs : list (string * nat)) :
  lookup_path p (remove_paths l fs) =
  if existsb (String.eqb p) l then None else lookup_path p fs.
Proof.
  revert fs; induction l as [|q l IH]; intros fs; cbn; [reflexivity|].
  unfold remove_paths in *. rewrite IH. rewrite lookup_remove_path.
  destruct (String.eqb p q); cbn; [now destruct (existsb _ l)|reflexivity].
Qed.

Lemma trim_run (mc : Z) (l : list string) (w : World) :
  exists res w' evs j,
    trim mc l w = (res, w') /\
    w_trace w' = w_trace w ++ evs /\
    w_sizes w' = w_sizes w /\
    (j <= List.length l)%nat /\
    w_files w' = remove_paths (firstn j l) (w_files w) /\
    Forall (fun p => lookup_path p (w_files w) <> None) (firstn j l) /\
    loop_end mc l j res evs.
Proof.
  unfold loop_end. revert w; induction l as [|p l IH]; intros w.
  - cbn [trim List.length]. destruct (Z.gtb_spec (Z.of_nat 0) mc) as [E|E].
    + exists (Panicked PanicIndexOutOfRange), w, [], 0%nat.
      rewrite app_nil_r. cbn. repeat split; auto; lia.
    + exists (Val None), w, [], 0%nat.
      rewrite app_nil_r. cbn. repeat split; auto; lia.
  - cbn [trim]. destruct (Z.gtb_spec (Z.of_nat (List.length (p :: l))) mc) as [E|E].
    + destruct (os_Remove_run p w) as (e1 & w1 & Hr & Ht1 & Hs1 & Hf1).
      rewrite (bind_val _ _ _ _ _ Hr).
      destruct e1 as [e|].
      * exists (Val (Some e)), w1, [EvRemove p (Some e)], 0%nat.
        cbn. repeat split; auto; try lia.
        exists p. repeat split. cbn in E. lia.
      * destruct Hf1 as [Hin Hf1].
        destruct (IH w1) as (res & w' & evs & j & Hrun & Ht & Hs & Hj & Hf & Hall & Hres).
        exists res, w', (EvRemove p None :: evs), (S j).
        split; [exact Hrun|].
        split; [rewrite Ht, Ht1, <- app_assoc; reflexivity|].
        split; [congruence|].
        split; [cbn; lia|].
        split; [cbn; rewrite Hf, Hf1; reflexivity|].
        split.
        { cbn. constructor; [exact Hin|].
          eapply Forall_impl; [|exact Hall].
          intros q Hq. rewrite Hf1, lookup_remove_path in Hq.
          destruct (String.eqb q p); congruence. }
        destruct res as [[e|]|pv].
        -- destruct Hres as (q & Hq & -> & Hlen).
           exists q. repeat split; auto.
        -- destruct Hres as [-> Hlen]. split; [reflexivity|].
           cbn [List.length] in *. lia.
        -- destruct Hres as (-> & -> & -> & Hmc). repeat split; auto.
    + exists (Val None), w, [], 0%nat.
      rewrite app_nil_r. repeat split; auto; try (cbn; lia). lia.
Qed.

(** ** deleteOld *)

Lemma deleteOld_run (r : rollingWriter) (w : World) :
  exists res w' evs j,
    deleteOld r w = (res, w') /\
    w_trace w' = w_trace w ++ EvCall FDeleteOld :: evs /\
    w_sizes w' = w_sizes w /\
    (j <= List.length (archives r w))%nat /\
    w_files w' = remove_paths (firstn j (archives r w)) (w_files w) /\
    Forall (fun p => lookup_path p (w_files w) <> None) (firstn j (archives r w)) /\
    exists removes,
      evs = EvWalk (filepath_Dir (fileName r)) None :: removes /\
      loop_end (maxCount r) (archives r w) j res removes.
Proof.
  unfold deleteOld.
  rewrite (bind_val _ _ _ _ _ (emit_run _ w)).
  set (w0 := set_trace _ w).
  destruct (Walk_visit_run r w0) as (l & e1 & w1 & Hw & Ht1 & [Hf1 Hs1] & -> & Hl).
  rewrite (bind_val _ _ _ _ _ Hw).
  assert (Ha : archives r w0 = archives r w) by reflexivity.
  cbv iota.
  rewrite Hl, Ha.
  destruct (trim_run (maxCount r) (archives r w) w1)
    as (res & w' & evs & j & Hrun & Ht & Hs & Hj & Hf & Hall & Hres).
  exists res, w', (EvWalk (filepath_Dir (fileName r)) None :: evs), j.
  split; [exact Hrun|].
  split; [rewrite Ht, Ht1; unfold w0; cbn; rewrite <- !app_assoc; reflexivity|].
  split; [rewrite Hs, Hs1; reflexivity|].
  split; [exact Hj|].
  split; [rewrite Hf, Hf1; reflexivity|].
  split; [rewrite Hf1 in Hall; exact Hall|].
  exists evs. split; [reflexivity|exact Hres].
Qed.

(** ** Counting events *)

Lemma calls_app (f : Func) (a b : list Event) :
  calls f (a ++ b) = (calls f a + calls f b)%nat.
Proof. unfold calls. now rewrite filter_app, length_app. Qed.

Lemma quiet_calls (f : Func) (evs : list Event) :
  forallb quiet evs = true -> calls f evs = 0%nat.
Proof.
  unfold calls. induction evs as [|ev evs IH]; cbn; [reflexivity|].
  intros H. apply andb_true_iff in H as [Hq H].
  destruct ev; try discriminate; destruct f; cbn; auto.
Qed.

Lemma quiet_writes (evs : list Event) :
  forallb quiet evs = true -> filter is_write evs = [].
Proof.
  induction evs as [|ev evs IH]; cbn; [reflexivity|].
  intros H. apply andb_true_iff in H as [Hq H].
  destruct ev; try discriminate; cbn; auto.
Qed.

Lemma quiet_ok_removes (l : list string) : forallb quiet (ok_removes l) = true.
Proof. induction l; cbn; auto. Qed.

Lemma ok_removes_no_failure (l : list string) (p : string) (e : error) :
  ~ In (EvRemove p (Some e)) (ok_removes l).
Proof.
  unfold ok_removes. rewrite in_map_iff. intros (q & Hq & _). discriminate.
Qed.

Lemma filter_remove_ok_removes (l : list string) :
  filter is_remove (ok_removes l) = ok_removes l.
Proof. unfold ok_removes. induction l; cbn; congruence. Qed.

Lemma rotate_outcome_quiet r w r' err w' evs :
  rotate_outcome r w r' err w' evs -> forallb quiet evs = true.
Proof. destruct 1; reflexivity. Qed.

Lemma loop_end_quiet mc l j res evs :
  loop_end mc l j res evs -> forallb quiet evs = true.
Proof.
  unfold loop_end. destruct res as [[e|]|pv].
  - intros (p & _ & -> & _). rewrite forallb_app, quiet_ok_removes. reflexivity.
  - intros [-> _]. apply quiet_ok_removes.
  - intros (_ & _ & -> & _). apply quiet_ok_removes.
Qed.

Lemma removed_ok_removes (l : list string) :
  map removed_path (ok_removes l) = map Some l.
Proof. unfold ok_removes. induction l; cbn; congruence. Qed.

Lemma loop_end_prefix mc l j res evs :
  (j <= List.length l)%nat ->
  loop_end mc l j res evs ->
  map removed_path evs = map Some (firstn (List.length evs) l).
Proof.
  intros Hj. unfold loop_end. destruct res as [[e|]|pv].
  - intros (p & Hp & -> & _).
    rewrite map_app, removed_ok_removes, length_app. unfold ok_removes.
    rewrite length_map, length_firstn, Nat.min_l by exact Hj. cbn.
    apply nth_error_split in Hp as (l1 & l2 & -> & <-).
    rewrite firstn_app, Nat.sub_diag, firstn_all, app_nil_r.
    replace (List.length l1 + 1)%nat with (S (List.length l1)) by lia.
    rewrite firstn_app. replace (S (List.length l1) - List.length l1)%nat with 1%nat by lia.
    rewrite firstn_all2 by lia. cbn. now rewrite map_app.
  - intros [-> _]. rewrite removed_ok_removes. unfold ok_removes.
    rewrite length_map, length_firstn, Nat.min_l by exact Hj. reflexivity.
  - intros (_ & _ & -> & _). rewrite removed_ok_removes. unfold ok_removes.
    rewrite length_map, firstn_all. reflexivity.
Qed.



(** ** What deleteOld deletes *)

Lemma existsb_eqb_In (q : string) (l : list string) :
  existsb (String.eqb q) l = true <-> In q l.
Proof.
  rewrite existsb_exists. split.
  - intros (x & Hx & Hq). apply String.eqb_eq in Hq. now subst.
  - intros H. exists q. split; [exact H|apply String.eqb_refl].
Qed.

Lemma lookup_removed (q : string) (l : list string) (fs : list (string * nat)) :
  In q l -> lookup_path q (remove_paths l fs) = None.
Proof.
  intros H. rewrite lookup_remove_paths.
  apply existsb_eqb_In in H. now rewrite H.
Qed.

Lemma lookup_kept (q : string) (l : list string) (fs : list (string * nat)) :
  ~ In q l -> lookup_path q (remove_paths l fs) = lookup_path q fs.
Proof.
  intros H. rewrite lookup_remove_paths.
  destruct (existsb (String.eqb q) l) eqn:E; [|reflexivity].
  apply existsb_eqb_In in E. contradiction.
Qed.

Lemma firstn_In {A : Type} (n : nat) (l : list A) (x : A) :
  In x (firstn n l) -> In x l.
Proof.
  intros H. rewrite <- (firstn_skipn n l). apply in_or_app. now left.
Qed.

Lemma deleteOld_removes_archives r w res w' evs p e :
  deleteOld r w = (res, w') ->
  w_trace w' = w_trace w ++ evs ->
  In (EvRemove p e) evs ->
  In p (archives r w).
Proof.
  intros Hrun Ht Hin.
  destruct (deleteOld_run r w)
    as (res0 & w0 & evs0 & j & Hrun0 & Ht0 & _ & Hj & _ & _ & Hcase).
  rewrite Hrun in Hrun0. injection Hrun0 as <- <-.
  rewrite Ht in Ht0. apply app_inv_head in Ht0. subst evs.
  destruct Hcase as (removes & -> & Hend).
  destruct Hin as [Hin|[Hin|Hin]]; try discriminate.
  pose proof (loop_end_prefix _ _ _ _ _ Hj Hend) as Hp.
  apply (in_map removed_path) in Hin. rewrite Hp in Hin. cbn in Hin.
  apply in_map_iff in Hin as (q & Hq & Hin). injection Hq as ->.
  eapply firstn_In; eassumption.
Qed.

Lemma unstamped_not_archive r w p :
  Parse_RFC3339 (last_piece (Split p ".")) = None -> ~ In p (archives r w).
Proof.
  intros Hp Hin. unfold archives in Hin. apply filter_In in Hin as [_ Ha].
  unfold is_archive in Ha. rewrite Hp, andb_false_r in Ha. discriminate.
Qed.

Lemma deleteOld_keeps r w res w' p :
  deleteOld r w = (res, w') ->
  ~ In p (archives r w) ->
  lookup_path p (w_files w') = lookup_path p (w_files w).
Proof.
  intros Hrun Hnot.
  destruct (deleteOld_run r w)
    as (res0 & w0 & evs0 & j & Hrun0 & _ & _ & _ & Hf & _).
  rewrite Hrun in Hrun0. injection Hrun0 as <- <-.
  rewrite Hf. apply lookup_kept. intros H. apply Hnot. eapply firstn_In; eassumption.
Qed.

(** C8: when a deletion in the loop of deleteOld fails, it is the last thing
    the call does and its error is what the call returns; the archives
    deleted before it stay deleted, and every other path is on disk exactly
    as before the call. *)
Theorem deleteOld_stops_at_failed_removal r w res w' evs p e :
  deleteOld r w = (res, w') ->
  w_trace w' = w_trace w ++ evs ->
  In (EvRemove p (Some e)) evs ->
  res = Val (Some e) /\
  exists j,
    nth_error (archives r w) j = Some p /\
    evs = [EvCall FDeleteOld; EvWalk (filepath_Dir (fileName r)) None]
          ++ ok_removes (firstn j (archives r w)) ++ [EvRemove p (Some e)] /\
    w_files w' = remove_paths (firstn j (archives r w)) (w_files w) /\
    (forall q, In q (firstn j (archives r w)) -> lookup_path q (w_files w') = None) /\
    (forall q, ~ In q (firstn j (archives r w)) ->
               lookup_path q (w_files w') = lookup_path q (w_files w)).
Proof.
  intros Hrun Ht Hin.
  destruct (deleteOld_run r w)
    as (res0 & w0 & evs0 & j & Hrun0 & Ht0 & _ & Hj & Hf & _ & Hcase).
  rewrite Hrun in Hrun0. injection Hrun0 as <- <-.
  rewrite Ht in Ht0. apply app_inv_head in Ht0. subst evs.
  destruct Hcase as (removes & -> & Hend).
  destruct Hin as [Hin|[Hin|Hin]]; try discriminate.
  unfold loop_end in Hend. destruct res as [[e0|]|pv].
  - destruct Hend as (q & Hq & -> & Hlen).
    apply in_app_or in Hin as [Hin|Hin].
    { now apply ok_removes_no_failure in Hin. }
    destruct Hin as [Hin|[]]. injection Hin as -> ->.
    split; [reflexivity|]. exists j.
    split; [exact Hq|]. split; [reflexivity|]. split; [exact Hf|].
    rewrite Hf. split; intros x Hx; [now apply lookup_removed|now apply lookup_kept].
  - destruct Hend as [-> _]. now apply ok_removes_no_failure in Hin.
  - destruct Hend as (_ & _ & -> & _). now apply ok_removes_no_failure in Hin.
Qed.

(** C5, as amended: deleteOld never deletes a path whose text after the last
    dot is not an RFC 3339 time stamp: such a path is not in the archive
    set, no deletion names it and it is on disk as before; so when the text
    after the last dot of the live path is not such a time stamp, the live file
    is not in the archive set and deleteOld never deletes it. *)
Theorem deleteOld_spares_unstamped r w res w' evs :
  deleteOld r w = (res, w') ->
  w_trace w' = w_trace w ++ evs ->
  (forall p,
     Parse_RFC3339 (last_piece (Split p ".")) = None ->
     ~ In p (archives r w) /\
     (forall e, ~ In (EvRemove p e) evs) /\
     lookup_path p (w_files w') = lookup_path p (w_files w)) /\
  (Parse_RFC3339 (last_piece (Split (fileName r) ".")) = None ->
     ~ In (fileName r) (archives r w) /\
     (forall e, ~ In (EvRemove (fileName r) e) evs) /\
     disk_size (fileName r) w' = disk_size (fileName r) w).
Proof.
  intros Hrun Ht.
  assert (Hgen : forall p,
     Parse_RFC3339 (last_piece (Split p ".")) = None ->
     ~ In p (archives r w) /\
     (forall e, ~ In (EvRemove p e) evs) /\
     lookup_path p (w_files w') = lookup_path p (w_files w)).
  { intros p Hp. pose proof (unstamped_not_archive r w p Hp) as Hnot.
    split; [exact Hnot|]. split.
    - intros e Hin. apply Hnot. eapply deleteOld_removes_archives; eassumption.
    - eapply deleteOld_keeps; eassumption. }
  split; [exact Hgen|].
  intros Hp. destruct (Hgen _ Hp) as (H1 & H2 & H3).
  split; [exact H1|]. split; [exact H2|].
  unfold disk_size. rewrite H3.
  destruct (deleteOld_run r w) as (res0 & w0 & evs0 & j & Hrun0 & _ & Hs & _).
  rewrite Hrun in Hrun0. injection Hrun0 as <- <-. now rewrite Hs.
Qed.

(** ** The archives left after a scan *)

Lemma map_fst_remove_path (p : string) (fs : list (string * nat)) :
  map fst (remove_path p fs) = filter (fun q => negb (String.eqb q p)) (map fst fs).
Proof.
  unfold remove_path. induction fs as [|[x i] fs IH]; cbn; [reflexivity|].
  destruct (String.eqb x p); cbn; congruence.
Qed.

Lemma filter_twice {A : Type} (f g : A -> bool) (l : list A) :
  filter f (filter g l) = filter (fun x => g x && f x) l.
Proof.
  induction l as [|x l IH]; cbn; [reflexivity|].
  destruct (g x); cbn; [destruct (f x)|]; congruence.
Qed.

Lemma filter_swap {A : Type} (f g : A -> bool) (l : list A) :
  filter f (filter g l) = filter g (filter f l).
Proof.
  rewrite !filter_twice. apply filter_ext. intros x. apply andb_comm.
Qed.

Lemma map_fst_remove_paths (l : list string) (fs : list (string * nat)) :
  map fst (remove_paths l fs) =
  filter (fun q => negb (existsb (String.eqb q) l)) (map fst fs).
Proof.
  unfold remove_paths. revert fs; induction l as [|p l IH]; intros fs; cbn.
  - induction (map fst fs) as [|x xs IHx]; cbn; congruence.
  - rewrite IH, map_fst_remove_path, filter_twice.
    apply filter_ext. intros q. now rewrite negb_orb.
Qed.

Lemma filter_drop_firstn (k : nat) (l : list string) :
  NoDup l ->
  filter (fun q => negb (existsb (String.eqb q) (firstn k l))) l = skipn k l.
Proof.
  revert k; induction l as [|x l IH]; intros k Hnd.
  - now destruct k.
  - destruct k as [|k].
    + cbn [firstn skipn existsb negb].
      clear. induction (x :: l) as [|y ys IHy]; cbn; congruence.
    + inversion Hnd as [|? ? Hx Hl]; subst.
      cbn [firstn skipn filter existsb]. rewrite String.eqb_refl. cbn.
      rewrite <- (IH k Hl). apply filter_ext_in. intros q Hq.
      destruct (String.eqb q x) eqn:E; [|reflexivity].
      apply String.eqb_eq in E. subst. contradiction.
Qed.

Lemma lookup_path_In (p : string) (fs : list (string * nat)) :
  lookup_path p fs <> None -> In p (map fst fs).
Proof.
  induction fs as [|[x i] fs IH]; cbn; [congruence|].
  destruct (String.eqb x p) eqn:E.
  - apply String.eqb_eq in E. auto.
  - auto.
Qed.

Lemma on_disk_after_removal r w w' k :
  w_files w' = remove_paths (firstn k (on_disk r w)) (w_files w) ->
  NoDup (map fst (w_files w)) ->
  on_disk r w' = skipn k (on_disk r w).
Proof.
  intros Hf Hnd. unfold on_disk, listing in *.
  set (root := filepath_Dir (fileName r)) in *.
  set (names := map fst (w_files w)) in *.
  cbn [filter] in *. unfold root in *. rewrite root_not_archive in *.
  fold root in Hf |- *.
  rewrite Hf, map_fst_remove_paths. fold names.
  set (L := filter (is_archive r) (filter (below root) names)) in *.
  set (gone := fun q => negb (existsb (String.eqb q) (firstn k L))).
  transitivity (filter gone L).
  - unfold L. rewrite !filter_twice. apply filter_ext. intros q.
    destruct (gone q), (below root q), (is_archive r q); reflexivity.
  - apply filter_drop_firstn.
    unfold L. apply NoDup_filter, NoDup_filter. exact Hnd.
Qed.

(** C3: a deleteOld that returns nil has deleted, from the front of the list
    its scan built, in discovery order, exactly as many files as the list
    had above maxCount: with more than maxCount entries exactly maxCount
    stay, with maxCount or fewer nothing is deleted, and with maxCount = 0
    every discovered archive is deleted.  The list is every archive the
    directory holds when the directory could be read, and empty when it
    could not; in a directory that was read and lists no path twice, the
    archives left on disk are the discovered ones that were not deleted. *)
Theorem deleteOld_trims_to_maxCount r w w' evs :
  deleteOld r w = (Val None, w') ->
  w_trace w' = w_trace w ++ evs ->
  let found := archives r w in
  let k := Z.to_nat (Z.of_nat (List.length found) - maxCount r) in
  filter is_remove evs = ok_removes (firstn k found) /\
  w_files w' = remove_paths (firstn k found) (w_files w) /\
  (forall p, In p (firstn k found) -> lookup_path p (w_files w') = None) /\
  (forall p, ~ In p (firstn k found) ->
             lookup_path p (w_files w') = lookup_path p (w_files w)) /\
  (Z.of_nat (List.length found) > maxCount r ->
     Z.of_nat (List.length (skipn k found)) = maxCount r) /\
  (Z.of_nat (List.length found) <= maxCount r ->
     firstn k found = [] /\ w_files w' = w_files w) /\
  (maxCount r = 0 -> firstn k found = found) /\
  (readable w -> found = on_disk r w) /\
  (~ readable w -> found = []) /\
  (readable w -> NoDup (map fst (w_files w)) ->
     on_disk r w' = skipn k found).
Proof.
  intros Hrun Ht found k.
  destruct (deleteOld_run r w)
    as (res0 & w0 & evs0 & j & Hrun0 & Ht0 & _ & Hj & Hf & Hall & Hcase).
  rewrite Hrun in Hrun0. injection Hrun0 as <- <-.
  rewrite Ht in Ht0. apply app_inv_head in Ht0. subst evs.
  destruct Hcase as (removes & -> & Hend).
  destruct Hend as [-> Hk]. fold found in Hj, Hf, Hall, Hk |- *.
  assert (Ek : k = j) by (unfold k; lia). rewrite Ek.
  split; [cbn; apply filter_remove_ok_removes|].
  split; [exact Hf|].
  split; [intros p Hp; rewrite Hf; now apply lookup_removed|].
  split; [intros p Hp; rewrite Hf; now apply lookup_kept|].
  split; [intros Hgt; rewrite length_skipn; lia|].
  split.
  { intros Hle. assert (j = 0%nat) as -> by lia. split; [reflexivity|exact Hf]. }
  split.
  { intros Hz. apply firstn_all2. lia. }
  split; [intros Hr; now apply archives_readable|].
  split.
  { intros Hr. unfold readable in Hr.
    destruct (hd NoFault (w_script w)) as [|e n] eqn:E; [contradiction|].
    eapply archives_unreadable; eassumption. }
  intros Hr Hnd. unfold found in *. rewrite (archives_readable r w Hr) in *.
  eapply on_disk_after_removal; eassumption.
Qed.

(** ** close and write *)

Lemma close_run (r : rollingWriter) (w : World) :
  exists r' w' err,
    close r w = (Val r', w') /\
    closed r' = true /\
    w_trace w' = w_trace w ++ [EvClose err] /\
    same_disk w w'.
Proof.
  unfold close.
  destruct (File_Close_run (file r) w) as (f & err & w1 & Hc & Ht & Hd & _).
  rewrite (bind_val _ _ _ _ _ Hc).
  exists (set_closed true (set_file f r)), w1, err. auto.
Qed.

Section WriteProperties.

Variables Logger level : Type.
Variable formatStandard : Logger -> level -> string -> string.

Local Abbreviation write_ := (write Logger level formatStandard).
Local Abbreviation writes_ := (writes Logger level formatStandard).

Lemma write_closed r logger lvl line w :
  closed r = true -> write_ r logger lvl line w = (Val r, w).
Proof. unfold write. intros ->. reflexivity. Qed.

Lemma writes_closed r logger lvl lines w :
  closed r = true -> writes_ r logger lvl lines w = (Val r, w).
Proof.
  intros Hc. induction lines as [|line lines IH]; [reflexivity|].
  cbn [writes].
  rewrite (bind_val _ _ _ _ _ (write_closed r logger lvl line w Hc)).
  exact IH.
Qed.

(** The report of a failure on the diagnostic stream. *)
Lemma report_run (msg : string) (err : option error) (w : World) :
  exists w',
    match err with
    | Some e => fmt_Println msg e
    | None => ret tt
    end w = (Val tt, w') /\
    w_trace w' =
      w_trace w ++ match err with Some e => [EvPrintln msg e] | None => [] end /\
    same_disk w w'.
Proof.
  destruct err as [e|].
  - eexists; split; [reflexivity|]. split; [reflexivity|split; reflexivity].
  - exists w. rewrite app_nil_r. split; [reflexivity|]. split; [reflexivity|split; reflexivity].
Qed.

(** C6: close marks the writer closed, and from then on any run of write
    calls hands back the same writer and the same world: no field changes,
    no byte reaches a file, nothing is reported. *)
Theorem writes_after_close_do_nothing (r : rollingWriter) (w : World) :
  exists r' w',
    close r w = (Val r', w') /\
    closed r' = true /\
    forall logger lvl lines, writes_ r' logger lvl lines w' = (Val r', w').
Proof.
  destruct (close_run r w) as (r' & w' & err & Hc & Hclosed & _).
  exists r', w'. split; [exact Hc|]. split; [exact Hclosed|].
  intros. now apply writes_closed.
Qed.

(** C1: in a write call on an open writer whose append succeeds, rotate is
    called exactly once, first thing after the append, when bytesWritten
    with the appended count added is at or above maxSize, and then
    bytesWritten is 0 after a rotation that returned nil; below maxSize the
    call ends with the new count and no rotation. *)
Theorem write_rotates_once r logger lvl line w res w' count w1 :
  closed r = false ->
  File_WriteString (file r)
    (formatStandard logger lvl line ++ String "010" EmptyString)%string w
    = (Val (count, None), w1) ->
  write_ r logger lvl line w = (res, w') ->
  let r1 := set_bytesWritten (wrap64 (bytesWritten r + Z.of_nat count)) r in
  exists evs,
    w_trace w' = w_trace w1 ++ evs /\
    if bytesWritten r1 >=? maxSize r then
      calls FRotate evs = 1%nat /\
      exists r2 err w2 rest,
        rotate r1 w1 = (Val (r2, err), w2) /\
        evs = EvCall FRotate :: rest /\
        match err with
        | None => bytesWritten r2 = 0
        | Some _ => True
        end /\
        match res with
        | Val rf => rf = r2
        | Panicked _ => maxCount r < 0
        end
    else evs = [] /\ res = Val r1.
Proof.
  intros Hopen Happend Hrun r1.
  unfold write in Hrun. rewrite Hopen in Hrun.
  rewrite (bind_val _ _ _ _ _ Happend) in Hrun.
  fold r1 in Hrun. change (maxSize r1) with (maxSize r) in Hrun.
  destruct (bytesWritten r1 >=? maxSize r).
  2:{ injection Hrun as <- <-. exists []. rewrite app_nil_r. auto. }
  destruct (rotate_run r1 w1)
    as (r2 & err & w2 & revs & Hrot & Ht2 & (_ & _ & _ & Hmc) & Hout).
  rewrite (bind_val _ _ _ _ _ Hrot) in Hrun.
  destruct (report_run "Failed to rotate log file:" err w2) as (w3 & Hrep & Ht3 & _).
  rewrite (bind_val _ _ _ _ _ Hrep) in Hrun.
  destruct (deleteOld_run r2 w3)
    as (dres & w4 & devs & j & Hdel & Ht4 & _ & _ & _ & _ & Hcase).
  assert (Hdq : forallb quiet devs = true).
  { destruct Hcase as (removes & -> & Hend).
    cbn. eapply loop_end_quiet; eassumption. }
  assert (Hrq : forallb quiet revs = true)
    by (eapply rotate_outcome_quiet; eassumption).
  assert (Hb : match err with None => bytesWritten r2 = 0 | Some _ => True end).
  { destruct Hout; auto. }
  destruct dres as [derr|pv].
  - rewrite (bind_val _ _ _ _ _ Hdel) in Hrun.
    destruct (report_run "Failed to delete old log file:" derr w4) as (w5 & Hrep5 & Ht5 & _).
    rewrite (bind_val _ _ _ _ _ Hrep5) in Hrun.
    injection Hrun as <- <-.
    eexists. split.
    { rewrite Ht5, Ht4, Ht3, Ht2, <- !app_assoc. reflexivity. }
    split.
    { cbn [app]. change (EvCall FRotate :: ?l) with ([EvCall FRotate] ++ l).
      rewrite !calls_app.
      change (EvCall FDeleteOld :: ?l) with ([EvCall FDeleteOld] ++ l).
      rewrite !calls_app, (quiet_calls _ _ Hrq), (quiet_calls _ _ Hdq).
      destruct err, derr; reflexivity. }
    exists r2, err, w2. eexists. split; [exact Hrot|].
    split; [reflexivity|]. split; [exact Hb|reflexivity].
  - rewrite (bind_panicked _ _ _ _ _ Hdel) in Hrun.
    injection Hrun as <- <-.
    eexists. split.
    { rewrite Ht4, Ht3, Ht2, <- !app_assoc. reflexivity. }
    split.
    { cbn [app]. change (EvCall FRotate :: ?l) with ([EvCall FRotate] ++ l).
      rewrite !calls_app.
      change (EvCall FDeleteOld :: ?l) with ([EvCall FDeleteOld] ++ l).
      rewrite !calls_app, (quiet_calls _ _ Hrq), (quiet_calls _ _ Hdq).
      destruct err; reflexivity. }
    exists r2, err, w2. eexists. split; [exact Hrot|].
    split; [reflexivity|]. split; [exact Hb|].
    destruct Hcase as (removes & _ & Hend).
    destruct Hend as (_ & _ & _ & Hneg). rewrite Hmc in Hneg. exact Hneg.
Qed.

End WriteProperties.

(** ** newRollingWriter *)

Lemma panicOnError_run (err : option error) (w : World) :
  panicOnError err w =
  match err with
  | Some e => (Panicked (PanicError e), w)
  | None => (Val tt, w)
  end.
Proof. destruct err; reflexivity. Qed.

Lemma bind_panicOnError {B : Type} (err : option error) (k : unit -> M B) (w : World) :
  bind (panicOnError err) k w =
  match err with
  | Some e => (Panicked (PanicError e), w)
  | None => k tt w
  end.
Proof. destruct err; reflexivity. Qed.

Lemma bind_assoc {A B C : Type} (m : M A) (f : A -> M B) (g : B -> M C) (w : World) :
  bind (bind m f) g w = bind m (fun x => bind (f x) g) w.
Proof. unfold bind. destruct (m w) as [[a|p] w1]; reflexivity. Qed.

Lemma bind_ret {A B : Type} (a : A) (k : A -> M B) (w : World) :
  bind (ret a) k w = k a w.
Proof. reflexivity. Qed.

Lemma setup_no_calls (pre : list Event) :
  forallb setup pre = true -> calls FDeleteOld pre = 0%nat.
Proof.
  unfold calls. induction pre as [|ev pre IH]; cbn; [reflexivity|].
  intros H. apply andb_true_iff in H as [Hq H].
  destruct ev as [[]| | | | | | | |]; try discriminate; cbn; auto.
Qed.

Lemma setup_no_writes (pre : list Event) :
  forallb setup pre = true -> filter is_write pre = [].
Proof.
  induction pre as [|ev pre IH]; cbn; [reflexivity|].
  intros H. apply andb_true_iff in H as [Hq H].
  destruct ev as [[]| | | | | | | |]; try discriminate; cbn; auto.
Qed.

Lemma setup_no_scan (pre : list Event) (ev : Event) :
  forallb setup pre = true -> In ev pre ->
  match ev with EvWalk _ _ | EvRemove _ _ => False | _ => True end.
Proof.
  intros H Hin. rewrite forallb_forall in H. specialize (H ev Hin).
  destruct ev; try exact I; discriminate.
Qed.

Lemma rotate_outcome_setup r w r' err w' evs :
  rotate_outcome r w r' err w' evs -> forallb setup evs = true.
Proof. destruct 1; reflexivity. Qed.

Lemma finish_run (r : rollingWriter) (w : World) :
  (err <- deleteOld r ;; panicOnError err ;;; ret r)%go w
  = (scanned r (fst (deleteOld r w)), snd (deleteOld r w)).
Proof.
  unfold bind. destruct (deleteOld r w) as [[[e|]|pv] w']; reflexivity.
Qed.

Lemma newRollingWriter_run (name : string) (ms mc : Z) (w : World) :
  exists res w' abs staterr pre,
    newRollingWriter name ms mc w = (res, w') /\
    forallb setup pre = true /\
    ((exists pv, res = Panicked pv /\
        w_trace w' = w_trace w ++ EvStat abs staterr :: pre) \/
     (exists r1 w1 dres,
        w_trace w1 = w_trace w ++ EvStat abs staterr :: pre /\
        deleteOld r1 w1 = (dres, w') /\
        res = scanned r1 dres /\
        fileName r1 = abs /\ maxCount r1 = mc /\
        maxSize r1 = wrap64 (ms * megabyte) /\ closed r1 = false /\
        match staterr with
        | Some _ => calls FRotate pre = 0%nat /\ bytesWritten r1 = 0
        | None =>
            exists sz, disk_size abs w = Some sz /\
              calls FRotate pre =
                (if sz >=? wrap64 (ms * megabyte) then 1 else 0)%nat
        end)).
Proof.
  unfold newRollingWriter.
  set (abs := if HasPrefix name "/" then name else (w_cwd w ++ "/" ++ name)%string).
  rewrite (bind_val _ _ w w abs) by reflexivity.
  cbn [fileName].
  destruct (os_Stat_run abs w) as (stat & w1 & Hstat & Hd1 & Hinfo).
  rewrite (bind_val _ _ _ _ _ Hstat).
  destruct stat as [[sz]|e]; [destruct Hinfo as [Ht1 Hsz]|rename Hinfo into Ht1].
  2:{ destruct (IsNotExist e) eqn:Ene; cbn [negb].
    2:{ exists (Panicked (PanicError e)), w1, abs, (Some e), [].
        split; [reflexivity|]. split; [reflexivity|]. left. eauto. }
    destruct (openFile_run abs w1) as (f & oerr & w2 & Hopen & Ht2 & Hres).
    rewrite (bind_val _ _ _ _ _ Hopen).
    cbv zeta. rewrite bind_panicOnError.
    destruct oerr as [e2|].
    { exists (Panicked (PanicError e2)), w2, abs, (Some e), [EvOpen abs (Some e2)].
      split; [reflexivity|]. split; [reflexivity|]. left.
      eexists; split; [reflexivity|]. rewrite Ht2, Ht1, <- app_assoc. reflexivity. }
    rewrite finish_run.
    do 4 eexists. exists [EvOpen abs None].
    split; [reflexivity|]. split; [reflexivity|]. right.
    do 3 eexists.
    split; [rewrite Ht2, Ht1, <- app_assoc; reflexivity|].
    split; [apply surjective_pairing|].
    repeat split. }
  - cbn [Size] in Hsz.
    destruct (openFile_run abs w1) as (f & oerr & w2 & Hopen & Ht2 & Hres).
    rewrite (bind_val _ _ _ _ _ Hopen).
    cbv zeta. rewrite bind_panicOnError.
    destruct oerr as [e2|].
    { exists (Panicked (PanicError e2)), w2, abs, None, [EvOpen abs (Some e2)].
      split; [reflexivity|]. split; [reflexivity|]. left.
      eexists; split; [reflexivity|]. rewrite Ht2, Ht1, <- app_assoc. reflexivity. }
    cbn [bytesWritten maxSize set_bytesWritten set_file Size].
    destruct (sz >=? wrap64 (ms * megabyte)) eqn:Ege.
    + match goal with |- context [rotate ?r] => set (r0 := r) end.
      destruct (rotate_run r0 w2)
        as (r2 & rerr & w3 & revs & Hrot & Ht3 & (Hcl & Hfn & Hms & Hmc) & Hout).
      rewrite bind_assoc, (bind_val _ _ _ _ _ Hrot). cbv beta iota.
      rewrite bind_assoc, bind_panicOnError.
      pose proof (rotate_outcome_setup _ _ _ _ _ _ Hout) as Hset.
      destruct rerr as [e3|].
      { exists (Panicked (PanicError e3)), w3, abs, None,
          (EvOpen abs None :: EvCall FRotate :: revs).
        split; [reflexivity|]. split; [exact Hset|]. left.
        eexists; split; [reflexivity|].
        rewrite Ht3, Ht2, Ht1, <- !app_assoc. reflexivity. }
      rewrite bind_ret, finish_run.
      do 4 eexists. exists (EvOpen abs None :: EvCall FRotate :: revs).
      split; [reflexivity|]. split; [exact Hset|]. right.
      do 3 eexists.
      split; [rewrite Ht3, Ht2, Ht1, <- !app_assoc; reflexivity|].
      split; [apply surjective_pairing|].
      split; [reflexivity|].
      split; [exact Hfn|]. split; [exact Hmc|]. split; [exact Hms|].
      split; [exact Hcl|].
      exists sz. split; [exact Hsz|]. rewrite Ege.
      change (EvOpen abs None :: EvCall FRotate :: revs)
        with ([EvOpen abs None; EvCall FRotate] ++ revs).
      rewrite calls_app, (quiet_calls _ _ (rotate_outcome_quiet _ _ _ _ _ _ Hout)).
      reflexivity.
    + rewrite bind_ret, finish_run.
      do 4 eexists. exists [EvOpen abs None].
      split; [reflexivity|]. split; [reflexivity|]. right.
      do 3 eexists.
      split; [rewrite Ht2, Ht1, <- !app_assoc; reflexivity|].
      split; [apply surjective_pairing|].
      repeat split.
      exists sz. split; [exact Hsz|]. rewrite Ege. reflexivity.
Qed.

Lemma deleteOld_events r w res w' :
  deleteOld r w = (res, w') ->
  exists devs,
    w_trace w' = w_trace w ++ EvCall FDeleteOld :: devs /\
    forallb quiet devs = true /\
    forall e,
      (exists d, In (EvWalk d (Some e)) devs) \/
      (exists p, In (EvRemove p (Some e)) devs) ->
      res = Val (Some e).
Proof.
  intros Hrun.
  destruct (deleteOld_run r w)
    as (res0 & w0 & devs & j & Hrun0 & Ht0 & _ & _ & _ & _ & Hcase).
  rewrite Hrun in Hrun0. injection Hrun0 as <- <-.
  exists devs. split; [exact Ht0|].
  destruct Hcase as (removes & -> & Hend).
  split; [cbn; eapply loop_end_quiet; eassumption|].
  intros e [(d & [Hin|Hin])|(p & [Hin|Hin])]; try discriminate.
  - exfalso. unfold loop_end in Hend.
    assert (Hq : forall l, ~ In (EvWalk d (Some e)) (ok_removes l)).
    { intros l H. unfold ok_removes in H. apply in_map_iff in H as (q & Hq & _).
      discriminate. }
    destruct res as [[e0|]|pv].
    + destruct Hend as (q & _ & -> & _).
      apply in_app_or in Hin as [Hin|[Hin|[]]]; [now apply Hq in Hin|discriminate].
    + destruct Hend as [-> _]. now apply Hq in Hin.
    + destruct Hend as (_ & _ & -> & _). now apply Hq in Hin.
  - unfold loop_end in Hend. destruct res as [[e0|]|pv].
    + destruct Hend as (q & _ & -> & _).
      apply in_app_or in Hin as [Hin|[Hin|[]]].
      * now apply ok_removes_no_failure in Hin.
      * congruence.
    + destruct Hend as [-> _]. now apply ok_removes_no_failure in Hin.
    + destruct Hend as (_ & _ & -> & _). now apply ok_removes_no_failure in Hin.
Qed.

(** C4: a construction that returns a writer has called deleteOld exactly
    once and written no line; when the stat found the live file, it has
    called rotate exactly once if the size it recorded was at or above the
    threshold and not at all if the size was below; when the stat found no
    file, it has not called rotate. *)
Theorem construction_rotates_and_scans name ms mc w r w' evs :
  newRollingWriter name ms mc w = (Val r, w') ->
  w_trace w' = w_trace w ++ evs ->
  calls FDeleteOld evs = 1%nat /\
  filter is_write evs = [] /\
  maxSize r = wrap64 (ms * megabyte) /\
  exists staterr rest,
    evs = EvStat (fileName r) staterr :: rest /\
    match staterr with
    | Some _ => calls FRotate evs = 0%nat
    | None =>
        exists sz, disk_size (fileName r) w = Some sz /\
          calls FRotate evs = (if sz >=? maxSize r then 1 else 0)%nat
    end.
Proof.
  intros Hrun Ht.
  destruct (newRollingWriter_run name ms mc w)
    as (res & w0 & abs & staterr & pre & Hrun0 & Hpre & Hcase).
  rewrite Hrun in Hrun0. injection Hrun0 as <- <-.
  destruct Hcase as [(pv & Hres & _)|(r1 & w1 & dres & Ht1 & Hdel & Hres & Hfn & Hmc & Hms & _ & Hrot)];
    [discriminate|].
  destruct dres as [[e|]|pv]; try discriminate.
  injection Hres as ->.
  destruct (deleteOld_events _ _ _ _ Hdel) as (devs & Ht2 & Hq & _).
  rewrite Ht2, Ht1, <- app_assoc in Ht. apply app_inv_head in Ht. subst evs.
  cbn [app].
  assert (Hc : forall f, calls f (EvStat abs staterr :: pre ++ EvCall FDeleteOld :: devs)
                 = (calls f pre + calls f [EvCall FDeleteOld])%nat).
  { intros f. change (EvStat abs staterr :: ?l) with ([EvStat abs staterr] ++ l).
    change (EvCall FDeleteOld :: devs) with ([EvCall FDeleteOld] ++ devs).
    rewrite !calls_app, (quiet_calls _ _ Hq). cbn. lia. }
  split; [rewrite Hc, (setup_no_calls _ Hpre); reflexivity|].
  split.
  { cbn. rewrite filter_app, (setup_no_writes _ Hpre). cbn.
    apply quiet_writes. exact Hq. }
  split; [exact Hms|].
  rewrite Hfn, Hms. do 2 eexists. split; [reflexivity|].
  destruct staterr as [e|].
  - rewrite Hc. destruct Hrot as [-> _]. reflexivity.
  - destruct Hrot as (sz & Hsz & Hn). exists sz. split; [exact Hsz|].
    rewrite Hc, Hn. cbn. lia.
Qed.

(** C9: in a construction, a failure of the retention scan, be it of the
    directory walk or of a deletion, is fatal whether or not the live file
    existed: the constructor panics with that error and returns no writer. *)
Theorem construction_scan_failure_is_fatal name ms mc w res w' evs e :
  newRollingWriter name ms mc w = (res, w') ->
  w_trace w' = w_trace w ++ evs ->
  (exists d, In (EvWalk d (Some e)) evs) \/
  (exists p, In (EvRemove p (Some e)) evs) ->
  res = Panicked (PanicError e).
Proof.
  intros Hrun Ht Hin.
  destruct (newRollingWriter_run name ms mc w)
    as (res0 & w0 & abs & staterr & pre & Hrun0 & Hpre & Hcase).
  rewrite Hrun in Hrun0. injection Hrun0 as <- <-.
  destruct Hcase as [(pv & Hres & Ht0)|(r1 & w1 & dres & Ht1 & Hdel & Hres & _)].
  - exfalso. rewrite Ht in Ht0. apply app_inv_head in Ht0. subst evs.
    destruct Hin as [(d & [Hin|Hin])|(p & [Hin|Hin])]; try discriminate;
      apply (setup_no_scan _ _ Hpre) in Hin; exact Hin.
  - destruct (deleteOld_events _ _ _ _ Hdel) as (devs & Ht2 & _ & Hfail).
    rewrite Ht2, Ht1, <- app_assoc in Ht. apply app_inv_head in Ht. subst evs.
    assert (Hd : (exists d, In (EvWalk d (Some e)) devs) \/
                 (exists p, In (EvRemove p (Some e)) devs)).
    { destruct Hin as [(d & Hin)|(p & Hin)]; [left; exists d|right; exists p];
        (destruct Hin as [Hin|Hin]; [discriminate|]);
        (apply in_app_or in Hin as [Hin|[Hin|Hin]];
           [apply (setup_no_scan _ _ Hpre) in Hin; contradiction
           |discriminate|exact Hin]). }
    rewrite (Hfail e Hd) in Hres. exact Hres.
Qed.

(** ** bytesWritten against the size on disk *)

Lemma wrap64_small (z : Z) : in_int64 z -> wrap64 z = z.
Proof.
  unfold in_int64, wrap64. intros H.
  rewrite Z.mod_small by lia. lia.
Qed.

Lemma length_set_size (i : nat) (n : Z) (sz : list Z) :
  List.length (set_size i n sz) = List.length sz.
Proof.
  revert i; induction sz as [|s sz IH]; intros [|i]; cbn; auto.
Qed.

Lemma size_of_set_size (i : nat) (n : Z) (sz : list Z) :
  (i < List.length sz)%nat -> size_of i (set_size i n sz) = n.
Proof.
  unfold size_of. revert i; induction sz as [|s sz IH]; intros [|i] H; cbn in *;
    try lia; auto. apply IH. lia.
Qed.

Section Tracking.

#[local] Arguments size_of : simpl never.

Variables Logger level : Type.
Variable formatStandard : Logger -> level -> string -> string.

(** A write keeps bytesWritten equal to the size of the live file as long
    as the count stays within int64, the live path does not itself end in a
    time stamp and no failed append has left bytes behind; a rotation that
    cannot open the new live file leaves no live file at all. *)
Lemma write_tracks_size r logger lvl line w r' w' evs :
  tracks r w ->
  Parse_RFC3339 (last_piece (Split (fileName r) ".")) = None ->
  in_int64 (bytesWritten r
            + Z.of_nat (String.length
                          (formatStandard logger lvl line ++ String "010" EmptyString))) ->
  write Logger level formatStandard r logger lvl line w = (Val r', w') ->
  w_trace w' = w_trace w ++ evs ->
  (forall n e, In (EvWriteString n (Some e)) evs -> n = 0%nat) ->
  tracks r' w' \/ disk_size (fileName r') w' = None.
Proof.
  intros (i & Hl & Hi & Hsz & Hh) Hun Hrange Hrun Ht Hshort.
  unfold write in Hrun.
  destruct (closed r).
  { injection Hrun as <- <-. left. exists i. auto. }
  set (s := (formatStandard logger lvl line ++ String "010" EmptyString)%string) in *.
  destruct (File_WriteString_run (file r) s w)
    as (count & err & w1 & Hw & Ht1 & Hf1 & Hle & Hfull & Hs1).
  rewrite (bind_val _ _ _ _ _ Hw) in Hrun.
  assert (Hlen : (1 <= String.length s)%nat).
  { unfold s. rewrite string_length_append. cbn. lia. }
  destruct err as [e|].
  - (* the append failed *)
    cbn in Hrun. injection Hrun as <- <-. left.
    cbn in Ht. rewrite Ht1, <- app_assoc in Ht. apply app_inv_head in Ht. subst evs.
    assert (count = 0%nat) as -> by (apply (Hshort _ e); cbn; auto).
    exists i. cbn. rewrite Hf1. split; [exact Hl|].
    destruct (file r) as [h|] eqn:Efile.
    + destruct (f_closed h) eqn:Ec.
      * destruct Hs1 as [_ ->]. auto.
      * rewrite (Hh h eq_refl Ec) in Hs1. rewrite Hs1, length_set_size.
        split; [exact Hi|]. split; [|exact Hh].
        rewrite size_of_set_size by exact Hi. lia.
    + destruct Hs1 as [_ ->]. auto.
  - (* the append succeeded *)
    specialize (Hfull eq_refl). subst count.
    destruct (file r) as [h|] eqn:Efile; [|destruct Hs1 as [Hz _]; lia].
    destruct (f_closed h) eqn:Ec; [destruct Hs1 as [Hz _]; lia|].
    rewrite (Hh h eq_refl Ec) in Hs1.
    set (r1 := set_bytesWritten _ r) in Hrun.
    assert (Hb1 : bytesWritten r1 = bytesWritten r + Z.of_nat (String.length s)).
    { unfold r1. cbn. now apply wrap64_small. }
    assert (Htr1 : tracks r1 w1).
    { exists i. rewrite Hf1, Hs1, length_set_size, size_of_set_size by exact Hi.
      split; [exact Hl|]. split; [exact Hi|]. split; [lia|].
      unfold r1. cbn. rewrite Efile. exact Hh. }
    change (maxSize r1) with (maxSize r) in Hrun.
    destruct (bytesWritten r1 >=? maxSize r).
    2:{ injection Hrun as <- <-. left. exact Htr1. }
    destruct (rotate_run r1 w1)
      as (r2 & rerr & w2 & revs & Hrot & Ht2 & (_ & Hfn & _ & _) & Hout).
    rewrite (bind_val _ _ _ _ _ Hrot) in Hrun.
    destruct (report_run "Failed to rotate log file:" rerr w2) as (w3 & Hrep & _ & Hd3).
    rewrite (bind_val _ _ _ _ _ Hrep) in Hrun.
    destruct (deleteOld r2 w3) as [dres w4] eqn:Hdel.
    assert (Hkeep : lookup_path (fileName r2) (w_files w4)
                    = lookup_path (fileName r2) (w_files w3)).
    { eapply deleteOld_keeps; [exact Hdel|].
      apply unstamped_not_archive. rewrite Hfn. exact Hun. }
    assert (Hs4 : w_sizes w4 = w_sizes w3).
    { destruct (deleteOld_run r2 w3) as (res0 & w0 & evs0 & j & Hrun0 & _ & Hs & _).
      rewrite Hdel in Hrun0. injection Hrun0 as <- <-. exact Hs. }
    unfold bind in Hrun at 1. rewrite Hdel in Hrun.
    destruct dres as [derr|pv]; [|discriminate].
    destruct (report_run "Failed to delete old log file:" derr w4) as (w5 & Hrep5 & _ & Hd5).
    rewrite (bind_val _ _ _ _ _ Hrep5) in Hrun.
    injection Hrun as <- <-.
    destruct Hd3 as [Hf3 Hs3]. destruct Hd5 as [Hf5 Hs5].
    destruct Htr1 as (i1 & Hl1 & Hi1 & Hsz1 & Hh1).
    change (fileName r1) with (fileName r) in *.
    destruct Hout as [r2 w2 e Hb [Hf2 Hs2] Hcl|r2 w2 e t Hb [Hf2 Hs2] Hcl
                     |r2 w2 e t Hb Hfile Hgone|r2 w2 t i2 Hb Hfile Hnew Hi2 Hz];
      change (fileName r1) with (fileName r) in *;
      change (bytesWritten r1) with (wrap64 (bytesWritten r + Z.of_nat (String.length s))) in *.
    + left. exists i1.
      rewrite Hf5, Hkeep, Hf3, Hf2, Hfn, Hs5, Hs4, Hs3, Hs2, Hb.
      repeat split; auto.
      intros h' Hh' Hc'. rewrite (Hcl h' Hh') in Hc'. discriminate.
    + left. exists i1.
      rewrite Hf5, Hkeep, Hf3, Hf2, Hfn, Hs5, Hs4, Hs3, Hs2, Hb.
      repeat split; auto.
      intros h' Hh' Hc'. rewrite (Hcl h' Hh') in Hc'. discriminate.
    + right. unfold disk_size. now rewrite Hf5, Hkeep, Hf3, Hfn, Hgone.
    + left. exists i2.
      rewrite Hf5, Hkeep, Hf3, Hfn, Hs5, Hs4, Hs3, Hb, Hfile.
      repeat split; auto. intros h' [= <-] _. reflexivity.
Qed.

End Tracking.

(** C2: a construction over no file, a first write that the environment
    cuts short after 3 of its 5 bytes, and a second write that succeeds:
    after the successful write bytesWritten is 5 while the live file holds
    8 bytes. *)
Theorem short_write_loses_count :
  exists r w,
    short_write_run = (Val r, w) /\
    last (w_trace w) (EvCall FRotate) = EvWriteString 5 None /\
    bytesWritten r = 5 /\
    disk_size (fileName r) w = Some 8.
Proof.
  do 2 eexists. split; [vm_compute; reflexivity|].
  repeat split.
Qed.

(** C5 as stated does not hold for a live path that itself ends in a time
    stamp: the scan takes the live file for an archive and, with
    maxCount = 0, deletes it. *)
Lemma stamped_live_file_is_deleted :
  disk_size stamped_live stamped_world = Some 5 /\
  In (fileName stamped_writer) (archives stamped_writer stamped_world) /\
  fst (deleteOld stamped_writer stamped_world) = Val None /\
  In (EvRemove (fileName stamped_writer) None)
     (w_trace (snd (deleteOld stamped_writer stamped_world))) /\
  disk_size stamped_live (snd (deleteOld stamped_writer stamped_world)) = None.
Proof.
  vm_compute. intuition.
Qed.


(** ** Archive names are recognised by the scan *)

Lemma digit_char_cases (d : Z) :
  exists k, (k < 10)%nat /\ Z.of_nat k = d mod 10 /\
            digit_char d = ascii_of_nat (48 + k).
Proof.
  exists (Z.to_nat (d mod 10)).
  pose proof (Z.mod_pos_bound d 10 ltac:(lia)).
  repeat split; [lia|lia].
Qed.

Lemma digit_value_char (d : Z) : digit_value (digit_char d) = Some (d mod 10).
Proof.
  destruct (digit_char_cases d) as (k & Hk & <- & ->).
  do 10 (destruct k as [|k]; [reflexivity|]). lia.
Qed.

Lemma digit_char_not_dot (d : Z) : Ascii.eqb (digit_char d) "." = false.
Proof.
  destruct (digit_char_cases d) as (k & Hk & _ & ->).
  do 10 (destruct k as [|k]; [reflexivity|]). lia.
Qed.

Lemma getnum_pad2 (z : Z) (fixed : bool) (rest : string) :
  0 <= z < 100 ->
  getnum (pad2 z ++ rest) fixed = Some (z, rest).
Proof.
  intros Hz. unfold pad2, getnum. cbn [append].
  rewrite !digit_value_char. cbn [obind]. f_equal. f_equal.
  pose proof (Z.div_mod z 10 ltac:(lia)).
  rewrite (Z.mod_small (z / 10) 10)
    by (split; [apply Z.div_pos; lia|apply Z.div_lt_upper_bound; lia]).
  lia.
Qed.

Lemma long_year_pad4 (z : Z) (rest : string) :
  0 <= z < 10000 ->
  long_year (pad4 z ++ rest) = Some (z, rest).
Proof.
  intros Hz. unfold long_year, pad4, pad2. cbn [append digits].
  rewrite !digit_value_char. cbn [obind].
  f_equal. f_equal.
  replace (z / 1000) with (z / 10 / 10 / 10)
    by (rewrite !Z.div_div by lia; reflexivity).
  replace (z / 100) with (z / 10 / 10)
    by (rewrite !Z.div_div by lia; reflexivity).
  pose proof (Z.div_mod z 10 ltac:(lia)).
  pose proof (Z.div_mod (z / 10) 10 ltac:(lia)).
  pose proof (Z.div_mod (z / 10 / 10) 10 ltac:(lia)).
  pose proof (Z.mod_pos_bound z 10 ltac:(lia)).
  pose proof (Z.mod_pos_bound (z / 10) 10 ltac:(lia)).
  pose proof (Z.mod_pos_bound (z / 10 / 10) 10 ltac:(lia)).
  rewrite (Z.mod_small (z / 10 / 10 / 10) 10) by lia.
  lia.
Qed.

Lemma skip_fraction_zone (z : Z) :
  skip_fraction (format_zone z) = format_zone z.
Proof.
  unfold format_zone.
  destruct (z =? 0); [reflexivity|]. destruct (z <? 0); reflexivity.
Qed.

Lemma parse_format_zone (z : Z) :
  - 1440 < z < 1440 -> parse_zone (format_zone z) = Some (z, EmptyString).
Proof.
  intros Hz. unfold format_zone.
  destruct (Z.eqb_spec z 0) as [->|Hnz]; [reflexivity|].
  assert (Hh : 0 <= Z.abs z / 60 < 24).
  { split; [apply Z.div_pos; lia|apply Z.div_lt_upper_bound; lia]. }
  pose proof (Z.mod_pos_bound (Z.abs z) 60 ltac:(lia)) as Hm.
  pose proof (Z.div_mod (Z.abs z) 60 ltac:(lia)) as Hdm.
  pose proof (getnum_pad2 (Z.abs z / 60) true EmptyString ltac:(lia)) as Hhh.
  pose proof (getnum_pad2 (Z.abs z mod 60) true EmptyString ltac:(lia)) as Hmm.
  unfold pad2 in *. cbn [append] in *.
  destruct (Z.ltb_spec z 0) as [Hneg|Hpos]; cbn [append parse_zone];
    change (Ascii.eqb ":" ":") with true; cbn [negb];
    rewrite Hhh; cbn [obind]; rewrite Hmm; cbn [obind];
    replace (24 <? Z.abs z / 60) with false by (symmetry; apply Z.ltb_ge; lia);
    replace (60 <? Z.abs z mod 60) with false by (symmetry; apply Z.ltb_ge; lia);
    cbn [orb].
  - change (Ascii.eqb "-" "Z") with false. change (Ascii.eqb "-" "+") with false.
    change (Ascii.eqb "-" "-") with true. cbv iota. f_equal. f_equal. lia.
  - change (Ascii.eqb "+" "Z") with false. change (Ascii.eqb "+" "+") with true.
    cbv iota. f_equal. f_equal. lia.
Qed.

Lemma skip_cons (c : ascii) (s : string) : skip c (String c s) = Some s.
Proof. cbn. now rewrite Ascii.eqb_refl. Qed.

Lemma parse_format (t : Time) :
  valid_time t -> Parse_RFC3339 (Format_RFC3339 t) = Some t.
Proof.
  intros (Hy & Hmo & Hd & Hh & Hmi & Hs & Hz).
  unfold Parse_RFC3339, Format_RFC3339.
  assert (Hmax : daysIn (month t) (year t) <= 31).
  { unfold daysIn. repeat match goal with |- context [if ?b then _ else _] => destruct b end; lia. }
  rewrite long_year_pad4 by lia. cbn [obind].
  change ("-" ++ ?s)%string with (String "-" s). rewrite skip_cons. cbn [obind].
  rewrite getnum_pad2 by lia. cbn [obind].
  replace (month t <=? 0) with false by (symmetry; apply Z.leb_gt; lia).
  replace (12 <? month t) with false by (symmetry; apply Z.ltb_ge; lia).
  cbn [orb].
  change ("-" ++ ?s)%string with (String "-" s). rewrite skip_cons. cbn [obind].
  rewrite getnum_pad2 by lia. cbn [obind].
  change ("T" ++ ?s)%string with (String "T" s). rewrite skip_cons. cbn [obind].
  rewrite getnum_pad2 by lia. cbn [obind].
  replace (24 <=? hour t) with false by (symmetry; apply Z.leb_gt; lia).
  change (":" ++ ?s)%string with (String ":" s). rewrite skip_cons. cbn [obind].
  rewrite getnum_pad2 by lia. cbn [obind].
  replace (60 <=? minute t) with false by (symmetry; apply Z.leb_gt; lia).
  change (":" ++ ?s)%string with (String ":" s). rewrite skip_cons. cbn [obind].
  rewrite getnum_pad2 by lia. cbn [obind].
  replace (60 <=? second t) with false by (symmetry; apply Z.leb_gt; lia).
  rewrite skip_fraction_zone, parse_format_zone by exact Hz. cbn [obind].
  replace (day t <? 1) with false by (symmetry; apply Z.ltb_ge; lia).
  replace (daysIn (month t) (year t) <? day t) with false
    by (symmetry; apply Z.ltb_ge; lia).
  cbn [orb]. destruct t; reflexivity.
Qed.

Lemma Split_nonempty (s : string) (sep : ascii) : Split s sep <> [].
Proof.
  destruct s as [|c s]; cbn; [discriminate|].
  destruct (Ascii.eqb c sep); [discriminate|].
  destruct (Split s sep); discriminate.
Qed.

Lemma Split_app_sep (a b : string) (sep : ascii) :
  Split (a ++ String sep b) sep = Split a sep ++ Split b sep.
Proof.
  induction a as [|c a IH]; cbn [append Split].
  - now rewrite Ascii.eqb_refl.
  - destruct (Ascii.eqb c sep); [now rewrite IH|].
    rewrite IH. pose proof (Split_nonempty a sep).
    destruct (Split a sep); [contradiction|reflexivity].
Qed.

Lemma last_app_nonempty {A : Type} (l1 l2 : list A) (d : A) :
  l2 <> [] -> last (l1 ++ l2) d = last l2 d.
Proof.
  intros H. induction l1 as [|x l1 IH]; [reflexivity|].
  cbn [app last]. destruct (l1 ++ l2) eqn:E; [|exact IH].
  apply app_eq_nil in E as [_ ->]. contradiction.
Qed.

Lemma Split_cons_other (c : ascii) (s : string) (sep : ascii) :
  Ascii.eqb c sep = false -> Split s sep = [s] ->
  Split (String c s) sep = [String c s].
Proof. intros Hc Hs. cbn. now rewrite Hc, Hs. Qed.

Lemma Split_stamp (t : Time) : Split (Format_RFC3339 t) "." = [Format_RFC3339 t].
Proof.
  unfold Format_RFC3339, pad4, pad2, format_zone.
  destruct (zone t =? 0); [|destruct (zone t <? 0)]; cbn [append];
    repeat (apply Split_cons_other;
            [first [apply digit_char_not_dot|reflexivity]|]);
    reflexivity.
Qed.

Lemma HasPrefix_append (s x : string) : HasPrefix (s ++ x) s = true.
Proof.
  unfold HasPrefix. induction s as [|c s IH]; cbn.
  - now destruct x.
  - destruct (ascii_dec c c); [exact IH|contradiction].
Qed.

(** The name a rotation gives the old live file is one the scan takes for
    an archive of this writer. *)
Lemma archive_name_is_archive (r : rollingWriter) (t : Time) :
  valid_time t -> is_archive r (archive_name r t) = true.
Proof.
  intros Hv. unfold is_archive, archive_name.
  rewrite HasPrefix_append. cbn [andb].
  change ("." ++ Format_RFC3339 t)%string with (String "." (Format_RFC3339 t)).
  rewrite Split_app_sep. unfold last_piece.
  rewrite last_app_nonempty by apply Split_nonempty.
  rewrite Split_stamp. cbn [last]. now rewrite parse_format.
Qed.

(** ** The theorems on sample runs *)

Lemma write_rotates_once_witness :
  closed (sample_writer 2) = false /\
  File_WriteString (file (sample_writer 2))
    (plainFormat tt tt "hello" ++ String "010" EmptyString)%string live_world
  = (Val (6%nat, None),
     snd (File_WriteString (file (sample_writer 2))
            (plainFormat tt tt "hello" ++ String "010" EmptyString)%string live_world)) /\
  exists evs,
    w_trace (snd (write unit unit plainFormat (sample_writer 2) tt tt "hello" live_world))
    = w_trace (snd (File_WriteString (file (sample_writer 2))
                      (plainFormat tt tt "hello" ++ String "010" EmptyString)%string
                      live_world)) ++ evs /\
    calls FRotate evs = 1%nat.
Proof.
  assert (Ha : File_WriteString (file (sample_writer 2))
                 (plainFormat tt tt "hello" ++ String "010" EmptyString)%string live_world
               = (Val (6%nat, None),
                  snd (File_WriteString (file (sample_writer 2))
                         (plainFormat tt tt "hello" ++ String "010" EmptyString)%string
                         live_world)))
    by (vm_compute; reflexivity).
  split; [reflexivity|].
  split; [exact Ha|].
  destruct (write_rotates_once unit unit plainFormat (sample_writer 2) tt tt "hello"
              live_world _ _ 6%nat _ eq_refl Ha (surjective_pairing _))
    as (evs & Ht & H).
  exists evs. split; [exact Ht|].
  cbv zeta in H.
  change (bytesWritten _ >=? maxSize _) with true in H. cbv iota in H.
  exact (proj1 H).
Defined.

Lemma deleteOld_trims_to_maxCount_witness :
  deleteOld (sample_writer 1) (full_world [])
  = (Val None, snd (deleteOld (sample_writer 1) (full_world []))) /\
  readable (full_world []) /\
  NoDup (map fst (w_files (full_world []))) /\
  archives (sample_writer 1) (full_world []) = [arch1; arch2; arch3] /\
  filter is_remove
    [EvCall FDeleteOld; EvWalk "/log" None; EvRemove arch1 None; EvRemove arch2 None]
  = ok_removes [arch1; arch2] /\
  on_disk (sample_writer 1) (snd (deleteOld (sample_writer 1) (full_world [])))
  = [arch3].
Proof.
  assert (Hrun : deleteOld (sample_writer 1) (full_world [])
                 = (Val None, snd (deleteOld (sample_writer 1) (full_world []))))
    by (vm_compute; reflexivity).
  assert (Hr : readable (full_world [])) by reflexivity.
  assert (Hnd : NoDup (map fst (w_files (full_world [])))).
  { cbv. repeat constructor; cbn; intuition discriminate. }
  split; [exact Hrun|]. split; [exact Hr|]. split; [exact Hnd|].
  split; [vm_compute; reflexivity|].
  assert (Ht : w_trace (snd (deleteOld (sample_writer 1) (full_world [])))
               = w_trace (full_world [])
                 ++ [EvCall FDeleteOld; EvWalk "/log" None;
                     EvRemove arch1 None; EvRemove arch2 None])
    by (vm_compute; reflexivity).
  destruct (deleteOld_trims_to_maxCount _ _ _ _ Hrun Ht)
    as (Hrem & _ & _ & _ & _ & _ & _ & _ & _ & Hscan).
  split; [exact Hrem|]. exact (Hscan Hr Hnd).
Defined.

Lemma construction_rotates_and_scans_witness :
  newRollingWriter live 0 2 live_world
  = (Val (mkWriter false (Some (mkFile 1 false)) live 0 2 0),
     snd (newRollingWriter live 0 2 live_world)) /\
  disk_size live live_world = Some 5 /\
  calls FDeleteOld
    [EvStat live None; EvOpen live None; EvCall FRotate; EvClose None;
     EvRename live (live ++ "." ++ Format_RFC3339 t0)%string None;
     EvOpen live None; EvCall FDeleteOld; EvWalk "/log" None] = 1%nat /\
  calls FRotate
    [EvStat live None; EvOpen live None; EvCall FRotate; EvClose None;
     EvRename live (live ++ "." ++ Format_RFC3339 t0)%string None;
     EvOpen live None; EvCall FDeleteOld; EvWalk "/log" None] = 1%nat.
Proof.
  assert (Hrun : newRollingWriter live 0 2 live_world
                 = (Val (mkWriter false (Some (mkFile 1 false)) live 0 2 0),
                    snd (newRollingWriter live 0 2 live_world)))
    by (vm_compute; reflexivity).
  assert (Ht : w_trace (snd (newRollingWriter live 0 2 live_world))
               = w_trace live_world
                 ++ [EvStat live None; EvOpen live None; EvCall FRotate; EvClose None;
                     EvRename live (live ++ "." ++ Format_RFC3339 t0)%string None;
                     EvOpen live None; EvCall FDeleteOld; EvWalk "/log" None])
    by (vm_compute; reflexivity).
  split; [exact Hrun|]. split; [vm_compute; reflexivity|].
  destruct (construction_rotates_and_scans _ _ _ _ _ _ _ Hrun Ht)
    as (Hscan & _ & _ & staterr & rest & Hev & Hrot).
  split; [exact Hscan|].
  injection Hev as <- _.
  destruct Hrot as (sz & Hsz & Hn).
  injection Hsz as <-. exact Hn.
Defined.

Lemma deleteOld_spares_unstamped_witness :
  deleteOld (sample_writer 0) (full_world [])
  = (Val None, snd (deleteOld (sample_writer 0) (full_world []))) /\
  Parse_RFC3339 (last_piece (Split live ".")) = None /\
  Parse_RFC3339 (last_piece (Split "/log/app.log.bak" ".")) = None /\
  ~ In live (archives (sample_writer 0) (full_world [])) /\
  disk_size live (snd (deleteOld (sample_writer 0) (full_world []))) = Some 5 /\
  lookup_path "/log/app.log.bak"
    (w_files (snd (deleteOld (sample_writer 0) (full_world [])))) = Some 4%nat.
Proof.
  assert (Hrun : deleteOld (sample_writer 0) (full_world [])
                 = (Val None, snd (deleteOld (sample_writer 0) (full_world []))))
    by (vm_compute; reflexivity).
  assert (Ht : w_trace (snd (deleteOld (sample_writer 0) (full_world [])))
               = w_trace (full_world [])
                 ++ [EvCall FDeleteOld; EvWalk "/log" None; EvRemove arch1 None;
                     EvRemove arch2 None; EvRemove arch3 None])
    by (vm_compute; reflexivity).
  assert (Hl : Parse_RFC3339 (last_piece (Split live ".")) = None)
    by (vm_compute; reflexivity).
  assert (Hb : Parse_RFC3339 (last_piece (Split "/log/app.log.bak" ".")) = None)
    by (vm_compute; reflexivity).
  split; [exact Hrun|]. split; [exact Hl|]. split; [exact Hb|].
  destruct (deleteOld_spares_unstamped _ _ _ _ _ Hrun Ht) as [Hany Hlive].
  destruct (Hlive Hl) as (Hnot & _ & Hsize).
  destruct (Hany "/log/app.log.bak"%string Hb) as (_ & _ & Hbak).
  split; [exact Hnot|].
  split; [etransitivity; [exact Hsize|vm_compute; reflexivity]|].
  etransitivity; [exact Hbak|vm_compute; reflexivity].
Defined.

Lemma deleteOld_stops_at_failed_removal_witness :
  deleteOld (sample_writer 0)
    (full_world [NoFault; NoFault; FaultWith ErrPermission 0])
  = (Val (Some ErrPermission),
     snd (deleteOld (sample_writer 0)
            (full_world [NoFault; NoFault; FaultWith ErrPermission 0]))) /\
  In (EvRemove arch2 (Some ErrPermission))
    [EvCall FDeleteOld; EvWalk "/log" None; EvRemove arch1 None;
     EvRemove arch2 (Some ErrPermission)] /\
  lookup_path arch1
    (w_files (snd (deleteOld (sample_writer 0)
                     (full_world [NoFault; NoFault; FaultWith ErrPermission 0]))))
  = None /\
  lookup_path arch3
    (w_files (snd (deleteOld (sample_writer 0)
                     (full_world [NoFault; NoFault; FaultWith ErrPermission 0]))))
  = Some 3%nat.
Proof.
  assert (Hrun : deleteOld (sample_writer 0)
                   (full_world [NoFault; NoFault; FaultWith ErrPermission 0])
                 = (Val (Some ErrPermission),
                    snd (deleteOld (sample_writer 0)
                           (full_world [NoFault; NoFault; FaultWith ErrPermission 0]))))
    by (vm_compute; reflexivity).
  assert (Hin : In (EvRemove arch2 (Some ErrPermission))
                  [EvCall FDeleteOld; EvWalk "/log" None; EvRemove arch1 None;
                   EvRemove arch2 (Some ErrPermission)])
    by (cbn; auto).
  assert (Ht : w_trace (snd (deleteOld (sample_writer 0)
                              (full_world [NoFault; NoFault; FaultWith ErrPermission 0])))
               = w_trace (full_world [NoFault; NoFault; FaultWith ErrPermission 0])
                 ++ [EvCall FDeleteOld; EvWalk "/log" None; EvRemove arch1 None;
                     EvRemove arch2 (Some ErrPermission)])
    by (vm_compute; reflexivity).
  split; [exact Hrun|]. split; [exact Hin|].
  destruct (deleteOld_stops_at_failed_removal _ _ _ _ _ _ _ Hrun Ht Hin)
    as (_ & j & Hj & Hev & _ & Hgone & Hkept).
  assert (Ej : j = 1%nat).
  { destruct j as [|[|j]]; [discriminate Hj|reflexivity|].
    exfalso. destruct j as [|[|j]]; cbn in Hj; discriminate Hj. }
  subst j.
  split; [apply Hgone; vm_compute; auto|].
  etransitivity; [apply Hkept|vm_compute; reflexivity].
  vm_compute. intuition discriminate.
Defined.

Lemma construction_scan_failure_is_fatal_witness :
  (exists p, In (EvRemove p (Some ErrPermission))
     (w_trace (snd (newRollingWriter live 0 0
        (full_world [NoFault; NoFault; NoFault; NoFault; NoFault; NoFault;
                     FaultWith ErrPermission 0]))))) /\
  fst (newRollingWriter live 0 0
         (full_world [NoFault; NoFault; NoFault; NoFault; NoFault; NoFault;
                      FaultWith ErrPermission 0]))
  = Panicked (PanicError ErrPermission).
Proof.
  assert (Hin : exists p, In (EvRemove p (Some ErrPermission))
     (w_trace (snd (newRollingWriter live 0 0
        (full_world [NoFault; NoFault; NoFault; NoFault; NoFault; NoFault;
                     FaultWith ErrPermission 0]))))).
  { exists arch1. vm_compute. intuition. }
  split; [exact Hin|].
  apply (construction_scan_failure_is_fatal live 0 0
           (full_world [NoFault; NoFault; NoFault; NoFault; NoFault; NoFault;
                        FaultWith ErrPermission 0])
           _ _ _ ErrPermission (surjective_pairing _) (eq_sym (app_nil_l _))
           (or_intror Hin)).
Defined.

(** ** Further sample runs *)

(** The scenario of the specification with a threshold of 10 bytes and
    maxCount = 2: three lines of 5 bytes on an empty live file leave a live
    file of 5 bytes and one archive, which the scan does not touch. *)
Example three_writes_one_rotation :
  exists r w,
    writes unit unit plainFormat
      (mkWriter false (Some (mkFile 0 false)) live 10 2 0) tt tt
      ["aaaa"; "bbbb"; "cccc"]
      (mkWorld "/" [(live, 0%nat)] [0] [t0; t1] [] [])
    = (Val r, w) /\
    bytesWritten r = 5 /\
    disk_size live w = Some 5 /\
    archives r w = [(live ++ "." ++ Format_RFC3339 t0)%string] /\
    calls FRotate (w_trace w) = 1%nat /\
    filter is_remove (w_trace w) = [].
Proof.
  do 2 eexists. split; [vm_compute; reflexivity|].
  vm_compute. repeat split.
Qed.

(** With maxCount = 0 the archive a rotation has just made is deleted by the
    scan that follows it. *)
Example rotation_archive_deleted_at_zero :
  exists r w,
    write unit unit plainFormat (sample_writer 0) tt tt "hello" live_world = (Val r, w) /\
    In (EvRemove (live ++ "." ++ Format_RFC3339 t0)%string None) (w_trace w) /\
    archives r w = [] /\
    disk_size live w = Some 0.
Proof.
  do 2 eexists. split; [vm_compute; reflexivity|].
  vm_compute. intuition.
Qed.

(** A failed scan is fatal in the branch without a live file as well. *)
Example construction_without_live_file_panics :
  fst (newRollingWriter live 1 0
         (mkWorld "/" [(arch1, 0%nat)] [10] [t0]
            [NoFault; NoFault; NoFault; FaultWith ErrPermission 0] []))
  = Panicked (PanicError ErrPermission).
Proof. vm_compute. reflexivity. Qed.

(** A file whose suffix has a one-digit hour is an archive for the scan,
    since time.Parse reads the hour with one or two digits: with
    maxCount = 0 it is deleted. *)
Example short_hour_archive_is_deleted :
  deleteOld (sample_writer 0)
    (mkWorld "/" [(live, 0%nat); ("/log/app.log.2020-01-01T1:00:00Z", 1%nat)]
       [5; 10] [t0] [] [])
  = (Val None,
     mkWorld "/" [(live, 0%nat)] [5; 10] [t0] []
       [EvCall FDeleteOld; EvWalk "/log" None;
        EvRemove "/log/app.log.2020-01-01T1:00:00Z" None]).
Proof. vm_compute. reflexivity. Qed.

(** A negative maxCount makes the loop index the empty slice. *)
Example negative_maxCount_panics :
  fst (deleteOld (sample_writer (-1)) live_world) = Panicked PanicIndexOutOfRange.
Proof. vm_compute. reflexivity. Qed.

(** * Further properties *)

(** ** The shape of a write call *)

Section WriteRuns.

Variables Logger level : Type.
Variable formatStandard : Logger -> level -> string -> string.

Local Abbreviation write_ := (write Logger level formatStandard).
Local Abbreviation writes_ := (writes Logger level formatStandard).
Local Abbreviation text_ logger lvl line :=
  (formatStandard logger lvl line ++ String "010" EmptyString)%string.

Lemma report_script (msg : string) (err : option error) (w w' : World) :
  match err with
  | Some e => fmt_Println msg e
  | None => ret tt
  end w = (Val tt, w') ->
  w_script w' = w_script w.
Proof. destruct err; intros [= <-]; reflexivity. Qed.

(** Every way a write call can go: on a closed writer, with a failed
    append, with a successful append below the threshold, and with a
    successful append followed by a rotation and a scan. *)
Lemma write_run r logger lvl line w :
  exists res w' evs,
    write_ r logger lvl line w = (res, w') /\
    w_trace w' = w_trace w ++ evs /\
    ((closed r = true /\ res = Val r /\ w' = w /\ evs = []) \/
     (closed r = false /\
      exists count e w1,
        File_WriteString (file r) (text_ logger lvl line) w
        = (Val (count, Some e), w1) /\
        same_disk w1 w' /\
        res = Val r /\
        evs = [EvWriteString count (Some e);
               EvPrintln "Failed to write log line:" e] /\
        w_files w' = w_files w /\
        (dead r -> count = 0%nat /\ w_sizes w' = w_sizes w)) \/
     (closed r = false /\
      exists w1,
        File_WriteString (file r) (text_ logger lvl line) w
        = (Val (String.length (text_ logger lvl line), None), w1) /\
        w_trace w1 = w_trace w ++ [EvWriteString (String.length (text_ logger lvl line)) None] /\
        bytesWritten
          (set_bytesWritten
             (wrap64 (bytesWritten r
                      + Z.of_nat (String.length (text_ logger lvl line)))) r)
          < maxSize r /\
        res = Val (set_bytesWritten
                     (wrap64 (bytesWritten r
                              + Z.of_nat (String.length (text_ logger lvl line)))) r) /\
        w' = w1 /\
        evs = [EvWriteString (String.length (text_ logger lvl line)) None]) \/
     (closed r = false /\
      exists w1 r2 rerr w2 revs w3 dres w4 devs,
        File_WriteString (file r) (text_ logger lvl line) w
        = (Val (String.length (text_ logger lvl line), None), w1) /\
        w_trace w1 = w_trace w ++ [EvWriteString (String.length (text_ logger lvl line)) None] /\
        maxSize r <=
          bytesWritten
            (set_bytesWritten
               (wrap64 (bytesWritten r
                        + Z.of_nat (String.length (text_ logger lvl line)))) r) /\
        rotate (set_bytesWritten
                  (wrap64 (bytesWritten r
                           + Z.of_nat (String.length (text_ logger lvl line)))) r) w1
        = (Val (r2, rerr), w2) /\
        rotate_outcome
          (set_bytesWritten
             (wrap64 (bytesWritten r
                      + Z.of_nat (String.length (text_ logger lvl line)))) r)
          w1 r2 rerr w2 revs /\
        closed r2 = false /\ same_config r r2 /\
        same_disk w2 w3 /\
        deleteOld r2 w3 = (dres, w4) /\
        w_trace w4 = w_trace w3 ++ EvCall FDeleteOld :: devs /\
        same_disk w4 w' /\
        res = match dres with
              | Val _ => Val r2
              | Panicked pv => Panicked pv
              end /\
        evs = EvWriteString (String.length (text_ logger lvl line)) None
              :: EvCall FRotate :: revs
              ++ report "Failed to rotate log file:" rerr
              ++ EvCall FDeleteOld :: devs
              ++ match dres with
                 | Val derr => report "Failed to delete old log file:" derr
                 | Panicked _ => []
                 end /\
        w_script w3 = w_script w2)).
Proof.
  unfold write.
  destruct (closed r) eqn:Hclosed.
  { exists (Val r), w, []. rewrite app_nil_r. split; [reflexivity|].
    split; [reflexivity|]. left. auto. }
  set (s := text_ logger lvl line).
  destruct (File_WriteString_run (file r) s w)
    as (count & err & w1 & Hw & Ht1 & Hf1 & Hle & Hfull & Hs1).
  rewrite (bind_val _ _ _ _ _ Hw).
  destruct err as [e|].
  { do 3 eexists. split; [reflexivity|].
    split; [cbn; rewrite Ht1, <- app_assoc; reflexivity|].
    right. left. split; [reflexivity|]. exists count, e, w1.
    split; [exact Hw|]. split; [split; reflexivity|].
    split; [reflexivity|]. split; [reflexivity|]. split; [exact Hf1|].
    intros Hdead. unfold dead in Hdead.
    destruct (file r) as [h|]; [|exact Hs1].
    rewrite (Hdead h eq_refl) in Hs1. exact Hs1. }
  specialize (Hfull eq_refl). subst count.
  set (r1 := set_bytesWritten _ r).
  change (maxSize r1) with (maxSize r).
  destruct (Z.geb_spec (bytesWritten r1) (maxSize r)) as [Hge|Hlt].
  2:{ do 3 eexists. split; [reflexivity|]. split; [exact Ht1|].
      right. right. left. split; [reflexivity|]. exists w1. auto 10. }
  destruct (rotate_run r1 w1)
    as (r2 & rerr & w2 & revs & Hrot & Ht2 & (Hcl & Hfn & Hms & Hmc) & Hout).
  rewrite (bind_val _ _ _ _ _ Hrot).
  destruct (report_run "Failed to rotate log file:" rerr w2) as (w3 & Hrep & Ht3 & Hd3).
  rewrite (bind_val _ _ _ _ _ Hrep).
  destruct (deleteOld r2 w3) as [dres w4] eqn:Hdel.
  destruct (deleteOld_events _ _ _ _ Hdel) as (devs & Ht4 & _).
  destruct dres as [derr|pv].
  - rewrite (bind_val _ _ _ _ _ Hdel).
    destruct (report_run "Failed to delete old log file:" derr w4) as (w5 & Hrep5 & Ht5 & Hd5).
    rewrite (bind_val _ _ _ _ _ Hrep5).
    do 3 eexists. split; [reflexivity|].
    split.
    { rewrite Ht5, Ht4, Ht3, Ht2, Ht1, <- !app_assoc. cbn [app]. reflexivity. }
    right. right. right. split; [reflexivity|].
    exists w1, r2, rerr, w2, revs, w3, (Val derr), w4, devs.
    split; [exact Hw|]. split; [exact Ht1|]. split; [lia|].
    split; [exact Hrot|]. split; [exact Hout|].
    split; [rewrite Hcl; exact Hclosed|].
    split; [unfold same_config; auto|].
    split; [exact Hd3|]. split; [exact Hdel|]. split; [exact Ht4|].
    split; [exact Hd5|]. split; [reflexivity|].
    split; [unfold report; rewrite <- ?app_assoc; reflexivity|].
    eapply report_script; eassumption.
  - rewrite (bind_panicked _ _ _ _ _ Hdel).
    do 3 eexists. split; [reflexivity|].
    split.
    { rewrite Ht4, Ht3, Ht2, Ht1, <- !app_assoc. cbn [app]. reflexivity. }
    right. right. right. split; [reflexivity|].
    exists w1, r2, rerr, w2, revs, w3, (Panicked pv), w4, devs.
    split; [exact Hw|]. split; [exact Ht1|]. split; [lia|].
    split; [exact Hrot|]. split; [exact Hout|].
    split; [rewrite Hcl; exact Hclosed|].
    split; [unfold same_config; auto|].
    split; [exact Hd3|]. split; [exact Hdel|]. split; [exact Ht4|].
    split; [split; reflexivity|]. split; [reflexivity|].
    split; [unfold report; rewrite <- ?app_assoc, ?app_nil_r; reflexivity|].
    eapply report_script; eassumption.
Qed.

End WriteRuns.

Section WriteFacts.

Variables Logger level : Type.
Variable formatStandard : Logger -> level -> string -> string.

Local Abbreviation write_ := (write Logger level formatStandard).
Local Abbreviation writes_ := (writes Logger level formatStandard).

Lemma calls_report (f : Func) (msg : string) (err : option error) :
  calls f (report msg err) = 0%nat.
Proof. destruct err, f; reflexivity. Qed.

Lemma writes_report (msg : string) (err : option error) :
  filter is_write (report msg err) = [].
Proof. destruct err; reflexivity. Qed.

Lemma deleteOld_quiet r w res w' devs :
  deleteOld r w = (res, w') ->
  w_trace w' = w_trace w ++ EvCall FDeleteOld :: devs ->
  forallb quiet devs = true.
Proof.
  intros Hdel Ht.
  destruct (deleteOld_events _ _ _ _ Hdel) as (devs0 & Ht0 & Hq & _).
  rewrite Ht in Ht0. apply app_inv_head in Ht0. injection Ht0 as ->. exact Hq.
Qed.

(** X1: whatever happens in it, a write call appends at most once, calls
    rotate at most once, and calls deleteOld exactly as often as it calls
    rotate: the scan follows every rotation, also one that failed, and
    never runs without one. *)
Theorem write_scans_iff_rotates r logger lvl line w :
  exists evs,
    w_trace (snd (write_ r logger lvl line w)) = w_trace w ++ evs /\
    calls FDeleteOld evs = calls FRotate evs /\
    (calls FRotate evs <= 1)%nat /\
    (List.length (filter is_write evs) <= 1)%nat.
Proof.
  destruct (write_run Logger level formatStandard r logger lvl line w)
    as (res & w' & evs & Hrun & Ht & Hcase).
  exists evs. rewrite Hrun. split; [exact Ht|].
  destruct Hcase as [(_ & _ & _ & ->)
                    |[(_ & count & e & w0 & _ & _ & _ & -> & _)
                    |[(_ & w1 & _ & _ & _ & _ & _ & ->)
                    |(_ & w1 & r2 & rerr & w2 & revs & w3 & dres & w4 & devs &
                      _ & _ & _ & _ & Hout & _ & _ & _ & Hdel & Ht4 & _ & _ & -> & _)]]];
    try (cbn; repeat split; lia).
  pose proof (rotate_outcome_quiet _ _ _ _ _ _ Hout) as Hrq.
  pose proof (deleteOld_quiet _ _ _ _ _ Hdel Ht4) as Hdq.
  assert (Hc : forall f,
             calls f (EvWriteString (String.length
                        (formatStandard logger lvl line ++ String "010" EmptyString))
                        None
                      :: EvCall FRotate :: revs
                      ++ report "Failed to rotate log file:" rerr
                      ++ EvCall FDeleteOld :: devs
                      ++ match dres with
                         | Val derr => report "Failed to delete old log file:" derr
                         | Panicked _ => []
                         end)
             = (calls f [EvCall FRotate] + calls f [EvCall FDeleteOld])%nat).
  { intros f.
    change (EvWriteString ?n None :: EvCall FRotate :: ?l)
      with ([EvWriteString n None] ++ [EvCall FRotate] ++ l).
    change (EvCall FDeleteOld :: ?l) with ([EvCall FDeleteOld] ++ l).
    rewrite !calls_app, (quiet_calls _ _ Hrq), (quiet_calls _ _ Hdq), calls_report.
    assert (calls f match dres with
                    | Val derr => report "Failed to delete old log file:" derr
                    | Panicked _ => []
                    end = 0%nat) as ->
      by (destruct dres; [apply calls_report|reflexivity]).
    destruct f; cbn; lia. }
  rewrite !Hc. cbn [calls filter is_call List.length].
  split; [reflexivity|]. split; [cbn; lia|].
  cbn [filter is_write]. rewrite !filter_app, (quiet_writes _ Hrq), writes_report.
  cbn [filter is_write app]. rewrite filter_app, (quiet_writes _ Hdq).
  destruct dres as [derr|pv]; [rewrite writes_report|]; cbn; lia.
Qed.

(** X2: no run of write calls changes the configuration of the writer (the
    live path, the threshold, the retention count), and none closes it or
    reopens it. *)
Theorem writes_keep_configuration r logger lvl lines w r' w' :
  writes_ r logger lvl lines w = (Val r', w') ->
  same_config r r' /\ closed r' = closed r.
Proof.
  revert r w. induction lines as [|line lines IH]; intros r w Hrun.
  - injection Hrun as <- <-. repeat split.
  - cbn [writes] in Hrun.
    destruct (write_run Logger level formatStandard r logger lvl line w)
      as (res & w1 & evs & Hw & _ & Hcase).
    unfold bind in Hrun. rewrite Hw in Hrun.
    assert (Hstep : forall r1, res = Val r1 ->
                               same_config r r1 /\ closed r1 = closed r).
    { intros r1 Hres.
      destruct Hcase as [(_ & -> & _)
                        |[(_ & count & e & w0 & _ & _ & -> & _)
                        |[(_ & w0 & _ & _ & _ & -> & _)
                        |(Hc & w0 & r2 & rerr & w2 & revs & w3 & dres & w4 & devs &
                          _ & _ & _ & _ & _ & Hcl & Hcfg & _ & _ & _ & _ & -> & _)]]].
      - injection Hres as <-. repeat split.
      - injection Hres as <-. repeat split.
      - injection Hres as <-. repeat split.
      - destruct dres; [|discriminate]. injection Hres as <-.
        split; [exact Hcfg|congruence]. }
    destruct res as [r1|pv]; [|discriminate].
    destruct (Hstep r1 eq_refl) as [(Hf & Hm & Hc) Hcl].
    destruct (IH r1 w1 Hrun) as [(Hf' & Hm' & Hc') Hcl'].
    unfold same_config. repeat split; congruence.
Qed.

(** A writer whose file is nil or closed drops every line: each write
    reports the failed append and changes neither the writer nor the disk. *)
Lemma writes_dead r logger lvl lines w :
  dead r ->
  exists w' evs,
    writes_ r logger lvl lines w = (Val r, w') /\
    w_trace w' = w_trace w ++ evs /\
    same_disk w w' /\
    calls FRotate evs = 0%nat /\ calls FDeleteOld evs = 0%nat /\
    forallb (fun ev => negb (is_write ev && succeeded ev)) evs = true.
Proof.
  intros Hdead. revert w. induction lines as [|line lines IH]; intros w.
  - exists w, []. rewrite app_nil_r. repeat split.
  - cbn [writes].
    destruct (write_run Logger level formatStandard r logger lvl line w)
      as (res & w1 & evs & Hw & Ht & Hcase).
    assert (Hstep : res = Val r /\ same_disk w w1 /\
                    calls FRotate evs = 0%nat /\ calls FDeleteOld evs = 0%nat /\
                    forallb (fun ev => negb (is_write ev && succeeded ev)) evs = true).
    { destruct Hcase as [(_ & -> & -> & ->)
                        |[(_ & count & e & w0 & _ & _ & -> & -> & Hf & Hs)
                        |[(_ & w0 & Hok & _)
                        |(_ & w0 & r2 & rerr & w2 & revs & w3 & dres & w4 & devs &
                          Hok & _)]]].
      - repeat split.
      - destruct (Hs Hdead) as [_ Hsz]. repeat split; assumption.
      - exfalso. destruct (File_WriteString_run (file r)
                   (formatStandard logger lvl line ++ String "010" EmptyString)%string w)
          as (c & err & w9 & Hw9 & _ & _ & _ & _ & Hs9).
        rewrite Hok in Hw9. injection Hw9 as <- <- <-.
        rewrite string_length_append in Hs9. cbn in Hs9.
        unfold dead in Hdead. destruct (file r) as [h|]; [|lia].
        rewrite (Hdead h eq_refl) in Hs9. lia.
      - exfalso. destruct (File_WriteString_run (file r)
                   (formatStandard logger lvl line ++ String "010" EmptyString)%string w)
          as (c & err & w9 & Hw9 & _ & _ & _ & _ & Hs9).
        rewrite Hok in Hw9. injection Hw9 as <- <- <-.
        rewrite string_length_append in Hs9. cbn in Hs9.
        unfold dead in Hdead. destruct (file r) as [h|]; [|lia].
        rewrite (Hdead h eq_refl) in Hs9. lia. }
    destruct Hstep as (-> & Hd1 & Hr1 & Hs1 & Hn1).
    rewrite (bind_val _ _ _ _ _ Hw).
    destruct (IH w1) as (w' & evs' & Hrun & Ht' & Hd' & Hr' & Hs' & Hn').
    exists w', (evs ++ evs'). split; [exact Hrun|].
    split; [rewrite Ht', Ht, <- app_assoc; reflexivity|].
    split; [eapply same_disk_trans; eassumption|].
    rewrite !calls_app, forallb_app, Hr1, Hr', Hs1, Hs', Hn1, Hn'. repeat split.
Qed.

(** X3: a rotation that returns an error leaves the writer with a closed or
    nil file and the closed flag as it was, so every later write only reports a
    failed append: the writer, the files and their sizes stay as they are,
    and rotate and deleteOld are never called again. *)
Theorem failed_rotation_stops_logging r w r1 e w1 :
  rotate r w = (Val (r1, Some e), w1) ->
  dead r1 /\ closed r1 = closed r /\
  forall logger lvl lines w2,
    exists w3 evs,
      writes_ r1 logger lvl lines w2 = (Val r1, w3) /\
      w_trace w3 = w_trace w2 ++ evs /\
      same_disk w2 w3 /\
      calls FRotate evs = 0%nat /\ calls FDeleteOld evs = 0%nat /\
      forallb (fun ev => negb (is_write ev && succeeded ev)) evs = true.
Proof.
  intros Hrot.
  destruct (rotate_run r w) as (r2 & err & w2 & revs & Hrun & _ & (Hcl & _) & Hout).
  rewrite Hrot in Hrun. injection Hrun as <- <- <-.
  assert (Hdead : dead r1).
  { inversion Hout; subst; unfold dead; auto.
    intros h Hh. congruence. }
  split; [exact Hdead|]. split; [exact Hcl|].
  intros. now apply writes_dead.
Qed.

End WriteFacts.

(** ** bytesWritten over a run of writes *)

Section Sequences.

#[local] Arguments size_of : simpl never.

Variables Logger level : Type.
Variable formatStandard : Logger -> level -> string -> string.

Local Abbreviation write_ := (write Logger level formatStandard).
Local Abbreviation writes_ := (writes Logger level formatStandard).
Local Abbreviation text_ logger lvl line :=
  (formatStandard logger lvl line ++ String "010" EmptyString)%string.

Lemma deleteOld_keeps_live r w res w' :
  deleteOld r w = (res, w') ->
  Parse_RFC3339 (last_piece (Split (fileName r) ".")) = None ->
  w_sizes w' = w_sizes w /\
  lookup_path (fileName r) (w_files w') = lookup_path (fileName r) (w_files w).
Proof.
  intros Hdel Hun. split.
  - destruct (deleteOld_run r w) as (res0 & w0 & evs0 & j & Hrun0 & _ & Hs & _).
    rewrite Hdel in Hrun0. injection Hrun0 as <- <-. exact Hs.
  - eapply deleteOld_keeps; [exact Hdel|]. now apply unstamped_not_archive.
Qed.

Lemma write_step r logger lvl line w r' w' evs :
  tracks_or_lost r w ->
  Parse_RFC3339 (last_piece (Split (fileName r) ".")) = None ->
  0 <= bytesWritten r ->
  in_int64 (bytesWritten r + Z.of_nat (String.length (text_ logger lvl line))) ->
  write_ r logger lvl line w = (Val r', w') ->
  w_trace w' = w_trace w ++ evs ->
  no_short_write evs ->
  tracks_or_lost r' w' /\
  fileName r' = fileName r /\
  0 <= bytesWritten r' <= bytesWritten r + Z.of_nat (String.length (text_ logger lvl line)).
Proof.
  intros Hinv Hun Hpos Hrange Hrun Ht Hshort.
  set (s := text_ logger lvl line) in *.
  destruct (write_run Logger level formatStandard r logger lvl line w)
    as (res & w0 & evs0 & Hrun0 & Ht0 & Hcase).
  rewrite Hrun in Hrun0. injection Hrun0 as <- <-.
  rewrite Ht in Ht0. apply app_inv_head in Ht0. subst evs0.
  fold s in Hcase.
  assert (Hlen : (1 <= String.length s)%nat).
  { unfold s. rewrite string_length_append. cbn. lia. }
  assert (Happend : forall count err w1,
             File_WriteString (file r) s w = (Val (count, err), w1) ->
             w_files w1 = w_files w /\
             ((dead r /\ count = 0%nat /\ w_sizes w1 = w_sizes w) \/
              (exists h, file r = Some h /\ f_closed h = false /\
                 w_sizes w1 = set_size (f_ino h)
                                (size_of (f_ino h) (w_sizes w) + Z.of_nat count)
                                (w_sizes w)))).
  { intros count err w1 Hw.
    destruct (File_WriteString_run (file r) s w)
      as (c & err0 & w9 & Hw9 & _ & Hf9 & _ & _ & Hs9).
    rewrite Hw in Hw9. injection Hw9 as <- <- <-.
    split; [exact Hf9|].
    destruct (file r) as [h|] eqn:Ef.
    - destruct (f_closed h) eqn:Ec.
      + left. split; [|exact Hs9]. intros h' Hh'. rewrite Ef in Hh'.
        injection Hh' as <-. exact Ec.
      + right. exists h. auto.
    - left. split; [|exact Hs9]. intros h' Hh'. rewrite Ef in Hh'. discriminate. }
  assert (Htrack1 : forall count w1 h,
             tracks r w -> file r = Some h -> f_closed h = false ->
             w_files w1 = w_files w ->
             w_sizes w1 = set_size (f_ino h)
                            (size_of (f_ino h) (w_sizes w) + Z.of_nat count)
                            (w_sizes w) ->
             exists i, lookup_path (fileName r) (w_files w1) = Some i /\
                       (i < List.length (w_sizes w1))%nat /\
                       size_of i (w_sizes w1) = bytesWritten r + Z.of_nat count /\
                       f_ino h = i).
  { intros count w1 h (i & Hl & Hi & Hsz & Hh) Hfile Hc Hf1 Hs1.
    pose proof (Hh h Hfile Hc) as Ei. rewrite Ei in Hs1.
    exists i. rewrite Hf1, Hs1, length_set_size, size_of_set_size by exact Hi.
    repeat split; auto. lia. }
  destruct Hcase as [(_ & Hres & -> & ->)
                    |[(_ & count & e & w1 & Hw & [Hf1' Hs1'] & Hres & -> & _)
                    |[(_ & w1 & Hw & _ & Hlt & Hres & -> & ->)
                    |(_ & w1 & r2 & rerr & w2 & revs & w3 & dres & w4 & devs &
                      Hw & _ & Hge & Hrot & Hout & _ & (Hfn & _) & [Hf3 Hs3] &
                      Hdel & _ & [Hf5 Hs5] & Hres & -> & _)]]].
  - injection Hres as <-. split; [exact Hinv|]. split; [reflexivity|lia].
  - injection Hres as <-. split; [|split; [reflexivity|lia]].
    assert (count = 0%nat) as -> by (apply (Hshort _ e); cbn; auto).
    destruct (Happend _ _ _ Hw) as [Hf1 [(Hd & _ & Hs1)|(h & Hfile & Hc & Hs1)]].
    + destruct Hinv as [(i & Hl & Hi & Hsz & Hh)|[Hnone Hdead]].
      * left. exists i. rewrite Hf1', Hs1', Hf1, Hs1. auto.
      * right. split; [|exact Hdead]. unfold disk_size in *.
        rewrite Hf1', Hf1. destruct (lookup_path _ _); [discriminate|reflexivity].
    + destruct Hinv as [Htr|[_ Hdead]].
      * destruct (Htrack1 _ _ _ Htr Hfile Hc Hf1 Hs1) as (i & Hl & Hi & Hsz & Ei).
        left. exists i. rewrite Hf1', Hs1'. repeat split; auto; try lia.
        intros h' Hh' _. congruence.
      * rewrite (Hdead h Hfile) in Hc. discriminate.
  - injection Hres as ->.
    destruct (Happend _ _ _ Hw) as [Hf1 [(_ & Hz & _)|(h & Hfile & Hc & Hs1)]]; [lia|].
    cbn [bytesWritten set_bytesWritten fileName].
    rewrite wrap64_small by exact Hrange.
    split; [|split; [reflexivity|lia]].
    destruct Hinv as [Htr|[_ Hdead]];
      [|rewrite (Hdead h Hfile) in Hc; discriminate].
    destruct (Htrack1 _ _ _ Htr Hfile Hc Hf1 Hs1) as (i & Hl & Hi & Hsz & Ei).
    left. exists i. cbn [fileName bytesWritten file set_bytesWritten].
    repeat split; auto. intros h' Hh' _. congruence.
  - destruct dres as [derr|pv]; [|discriminate]. injection Hres as ->.
    destruct (Happend _ _ _ Hw) as [Hf1 [(_ & Hz & _)|(h & Hfile & Hc & Hs1)]]; [lia|].
    destruct Hinv as [Htr|[_ Hdead]];
      [|rewrite (Hdead h Hfile) in Hc; discriminate].
    destruct (Htrack1 _ _ _ Htr Hfile Hc Hf1 Hs1) as (i & Hl & Hi & Hsz & Ei).
    set (r1 := set_bytesWritten _ r) in *.
    assert (Hb1 : bytesWritten r1
                  = bytesWritten r + Z.of_nat (String.length s)).
    { unfold r1. cbn. now apply wrap64_small. }
    change (fileName r1) with (fileName r) in *.
    assert (Hun2 : Parse_RFC3339 (last_piece (Split (fileName r2) ".")) = None)
      by (rewrite Hfn; exact Hun).
    destruct (deleteOld_keeps_live _ _ _ _ Hdel Hun2) as [Hs4 Hl4].
    rewrite Hfn in Hl4.
    split; [|split; [exact Hfn|]].
    + unfold tracks_or_lost, tracks, disk_size. rewrite Hfn.
      rewrite Hf5, Hl4, Hf3, Hs5, Hs4, Hs3.
      destruct Hout as [r2 w2 e0 Hb [Hf2 Hs2] Hcl|r2 w2 e0 t Hb [Hf2 Hs2] Hcl
                       |r2 w2 e0 t Hb Hfile2 Hgone|r2 w2 t i2 Hb Hfile2 Hnew Hi2 Hz];
        change (fileName r1) with (fileName r) in *.
      * left. exists i. rewrite Hf2, Hs2, Hb, Hb1. repeat split; auto.
        intros h' Hh' Hc'. rewrite (Hcl h' Hh') in Hc'. discriminate.
      * left. exists i. rewrite Hf2, Hs2, Hb, Hb1. repeat split; auto.
        intros h' Hh' Hc'. rewrite (Hcl h' Hh') in Hc'. discriminate.
      * right. rewrite Hgone. split; [reflexivity|].
        intros h' Hh'. congruence.
      * left. exists i2. rewrite Hnew, Hb, Hfile2. repeat split; auto.
        intros h' [= <-] _. reflexivity.
    + destruct Hout; lia.
Qed.

(** X4: over any run of write calls that starts with bytesWritten equal to
    the size of the live file, stays within int64 and meets no failed append
    that left bytes behind, bytesWritten is the size of the live file after
    the run, unless a rotation could not open the new live file, in which
    case there is no live file and the writer has no file to write to.  The
    live path must not itself end in a time stamp. *)
Theorem writes_track_size r logger lvl lines w r' w' evs :
  tracks_or_lost r w ->
  Parse_RFC3339 (last_piece (Split (fileName r) ".")) = None ->
  0 <= bytesWritten r ->
  in_int64 (bytesWritten r + bytes_of (map (fun line => text_ logger lvl line) lines)) ->
  writes_ r logger lvl lines w = (Val r', w') ->
  w_trace w' = w_trace w ++ evs ->
  no_short_write evs ->
  tracks_or_lost r' w'.
Proof.
  revert r w evs. induction lines as [|line lines IH];
    intros r w evs Hinv Hun Hpos Hrange Hrun Ht Hshort.
  - injection Hrun as <- <-. exact Hinv.
  - cbn [writes] in Hrun. cbn [map bytes_of fold_right] in Hrange.
    fold (bytes_of (map (fun line => text_ logger lvl line) lines)) in Hrange.
    assert (Hnn : 0 <= bytes_of (map (fun line => text_ logger lvl line) lines)).
    { clear. induction lines as [|l ls IHl]; cbn; [lia|].
      unfold bytes_of in IHl. lia. }
    destruct (write_run Logger level formatStandard r logger lvl line w)
      as (res & w1 & evs1 & Hw & Ht1 & _).
    unfold bind in Hrun. rewrite Hw in Hrun.
    destruct res as [r1|pv]; [|discriminate].
    destruct (writes_ r1 logger lvl lines w1) as [res2 w2] eqn:Hrest.
    injection Hrun as -> ->.
    assert (Hex : exists evs2, w_trace w' = w_trace w1 ++ evs2 /\ evs = evs1 ++ evs2).
    { clear - Hrest Ht Ht1 Hw.
      assert (Hgrow : forall ls r0 w0 res0 w9,
                 writes_ r0 logger lvl ls w0 = (res0, w9) ->
                 exists es, w_trace w9 = w_trace w0 ++ es).
      { induction ls as [|l ls IHl]; intros r0 w0 res0 w9 H.
        - injection H as <- <-. exists []. now rewrite app_nil_r.
        - cbn [writes] in H.
          destruct (write_run Logger level formatStandard r0 logger lvl l w0)
            as (res & w5 & es1 & Hw5 & Ht5 & _).
          unfold bind in H. rewrite Hw5 in H.
          destruct res as [r5|pv].
          + destruct (IHl _ _ _ _ H) as (es2 & Hes2).
            exists (es1 ++ es2). now rewrite Hes2, Ht5, <- app_assoc.
          + injection H as <- <-. exists es1. exact Ht5. }
      destruct (Hgrow _ _ _ _ _ Hrest) as (evs2 & H2).
      exists evs2. split; [exact H2|].
      rewrite H2, Ht1, <- app_assoc in Ht. now apply app_inv_head in Ht. }
    destruct Hex as (evs2 & Ht2 & ->).
    unfold in_int64 in *.
    destruct (write_step r logger lvl line w r1 w1 evs1 Hinv Hun Hpos)
      as (Hinv1 & Hfn1 & Hb1); auto.
    { unfold in_int64. lia. }
    { intros n e Hin. apply (Hshort n e). apply in_or_app. now left. }
    apply (IH r1 w1 evs2); auto.
    + now rewrite Hfn1.
    + lia.
    + unfold in_int64. lia.
    + intros n e Hin. apply (Hshort n e). apply in_or_app. now right.
Qed.

End Sequences.

(** ** Construction in detail *)

Lemma os_Stat_unfaulted (p : string) (w : World) :
  hd NoFault (w_script w) = NoFault ->
  exists w',
    os_Stat p w
    = (Val match lookup_path p (w_files w) with
           | Some i => inl (mkFileInfo (size_of i (w_sizes w)))
           | None => inr ErrNotExist
           end, w') /\
    same_disk w w'.
Proof.
  intros Hhd. unfold os_Stat, bind, next_fault.
  destruct (w_script w) as [|f rest]; cbn in Hhd; [|subst f]; cbn;
    destruct (lookup_path p (w_files w)); eexists; split; try reflexivity;
    split; reflexivity.
Qed.

Lemma rotate_outcome_failure r w r' e w' evs :
  rotate_outcome r w r' (Some e) w' evs ->
  exists pre last,
    evs = pre ++ [last] /\ failure last = Some e /\ forallb succeeded pre = true.
Proof.
  intros H. inversion H; subst.
  - exists [], (EvClose (Some e)). repeat split.
  - eexists [_], _. repeat split.
  - eexists [_; _], _. repeat split.
Qed.

Lemma rotate_outcome_success r w r' w' evs :
  rotate_outcome r w r' None w' evs -> forallb succeeded evs = true.
Proof. intros H. inversion H; subst. reflexivity. Qed.

Lemma succeeded_ok_removes (l : list string) :
  forallb succeeded (ok_removes l) = true.
Proof. induction l; cbn; auto. Qed.

(** A construction either panics at a library call that failed, every call
    before it after the stat having succeeded, or reaches the scan with a
    writer that counts the live file right. *)
Lemma newRollingWriter_detail (name : string) (ms mc : Z) (w : World) :
  exists res w' abs staterr,
    newRollingWriter name ms mc w = (res, w') /\
    ((exists pre last e,
        w_trace w' = w_trace w ++ (EvStat abs staterr :: pre) ++ [last] /\
        forallb succeeded pre = true /\ failure last = Some e /\
        res = Panicked (PanicError e) /\
        match staterr with Some e0 => IsNotExist e0 = true | None => True end) \/
     (exists e,
        w_trace w' = w_trace w ++ [EvStat abs (Some e)] /\
        IsNotExist e = false /\ same_disk w w' /\
        staterr = Some e /\ res = Panicked (PanicError e)) \/
     (exists r1 w1 dres pre,
        w_trace w1 = w_trace w ++ EvStat abs staterr :: pre /\
        forallb succeeded pre = true /\
        match staterr with Some e0 => IsNotExist e0 = true | None => True end /\
        deleteOld r1 w1 = (dres, w') /\
        res = scanned r1 dres /\
        fileName r1 = abs /\ maxCount r1 = mc /\ closed r1 = false /\
        (exists h, file r1 = Some h /\ f_closed h = false) /\
        ((forall i, lookup_path abs (w_files w) = Some i ->
                    (i < List.length (w_sizes w))%nat) ->
         hd NoFault (w_script w) = NoFault ->
         tracks r1 w1))).
Proof.
  unfold newRollingWriter.
  set (abs := if HasPrefix name "/" then name else (w_cwd w ++ "/" ++ name)%string).
  rewrite (bind_val _ _ w w abs) by reflexivity.
  cbn [fileName].
  destruct (os_Stat_run abs w) as (stat & w1 & Hstat & [Hf1 Hs1] & Hinfo).
  rewrite (bind_val _ _ _ _ _ Hstat).
  destruct stat as [[sz]|e]; [destruct Hinfo as [Ht1 Hsz]|rename Hinfo into Ht1].
  2:{ destruct (IsNotExist e) eqn:Ene; cbn [negb].
      2:{ exists (Panicked (PanicError e)), w1, abs, (Some e).
          split; [reflexivity|]. right. left. exists e.
          repeat split; auto. }
      destruct (openFile_run abs w1) as (f & oerr & w2 & Hopen & Ht2 & Hres).
      rewrite (bind_val _ _ _ _ _ Hopen).
      cbv zeta. rewrite bind_panicOnError.
      destruct oerr as [e2|].
      { exists (Panicked (PanicError e2)), w2, abs, (Some e).
        split; [reflexivity|]. left. exists [], (EvOpen abs (Some e2)), e2.
        split; [rewrite Ht2, Ht1, <- app_assoc; reflexivity|]. auto. }
      destruct Hres as (i & -> & Hnew).
      rewrite finish_run.
      do 2 eexists. exists abs, (Some e).
      split; [reflexivity|]. right. right.
      do 3 eexists. exists [EvOpen abs None].
      split; [rewrite Ht2, Ht1, <- app_assoc; reflexivity|].
      split; [reflexivity|]. split; [exact Ene|].
      split; [apply surjective_pairing|].
      split; [reflexivity|]. split; [reflexivity|]. split; [reflexivity|].
      split; [reflexivity|]. split; [cbn; eauto|].
      intros Hwf Hhd.
      destruct (os_Stat_unfaulted abs w Hhd) as (w9 & Hstat9 & _).
      rewrite Hstat in Hstat9.
      destruct (lookup_path abs (w_files w)) as [j|] eqn:El; [discriminate|].
      rewrite Hf1, El in Hnew.
      destruct Hnew as (-> & Hf2 & Hs2).
      exists (List.length (w_sizes w1)). cbn [fileName file bytesWritten set_file].
      rewrite Hf2, Hs2, length_app. cbn [List.length].
      split; [now apply lookup_insert_path_new|].
      split; [lia|]. split; [apply size_of_new|].
      intros h [= <-] _. reflexivity. }
  cbn [Size] in Hsz.
  destruct (openFile_run abs w1) as (f & oerr & w2 & Hopen & Ht2 & Hres).
  rewrite (bind_val _ _ _ _ _ Hopen).
  cbv zeta. rewrite bind_panicOnError.
  destruct oerr as [e2|].
  { exists (Panicked (PanicError e2)), w2, abs, None.
    split; [reflexivity|]. left. exists [], (EvOpen abs (Some e2)), e2.
    split; [rewrite Ht2, Ht1, <- app_assoc; reflexivity|]. auto. }
  cbn [bytesWritten maxSize set_bytesWritten set_file Size].
  destruct (sz >=? wrap64 (ms * megabyte)) eqn:Ege.
  - match goal with |- context [rotate ?r] => set (r0 := r) end.
    destruct (rotate_run r0 w2)
      as (r2 & rerr & w3 & revs & Hrot & Ht3 & (Hcl & Hfn & Hms & Hmc) & Hout).
    rewrite bind_assoc, (bind_val _ _ _ _ _ Hrot). cbv beta iota.
    rewrite bind_assoc, bind_panicOnError.
    destruct rerr as [e3|].
    { exists (Panicked (PanicError e3)), w3, abs, None.
      split; [reflexivity|]. left.
      destruct (rotate_outcome_failure _ _ _ _ _ _ Hout) as (pre & last & -> & Hl & Hp).
      exists (EvOpen abs None :: EvCall FRotate :: pre), last, e3.
      split; [rewrite Ht3, Ht2, Ht1, <- !app_assoc; reflexivity|].
      split; [exact Hp|]. auto. }
    rewrite bind_ret, finish_run.
    do 2 eexists. exists abs, None.
    split; [reflexivity|]. right. right.
    do 3 eexists. exists (EvOpen abs None :: EvCall FRotate :: revs).
    split; [rewrite Ht3, Ht2, Ht1, <- !app_assoc; reflexivity|].
    split; [exact (rotate_outcome_success _ _ _ _ _ Hout)|].
    split; [exact I|].
    split; [apply surjective_pairing|].
    split; [reflexivity|].
    split; [exact Hfn|]. split; [exact Hmc|]. split; [exact Hcl|].
    inversion Hout as [| | |r9 w9 t i2 Hb Hfile Hnew Hi2 Hz]; subst.
    split; [eauto|].
    intros _ _. exists i2. rewrite Hfn, Hb, Hfile. repeat split; auto.
    intros h [= <-] _. reflexivity.
  - destruct Hres as (i & -> & Hold).
    rewrite bind_ret, finish_run.
    do 2 eexists. exists abs, None.
    split; [reflexivity|]. right. right.
    do 3 eexists. exists [EvOpen abs None].
    split; [rewrite Ht2, Ht1, <- !app_assoc; reflexivity|].
    split; [reflexivity|]. split; [exact I|].
    split; [apply surjective_pairing|].
    split; [reflexivity|]. split; [reflexivity|]. split; [reflexivity|].
    split; [reflexivity|]. split; [cbn; eauto|].
    intros Hwf _. unfold disk_size in Hsz.
    destruct (lookup_path abs (w_files w)) as [j|] eqn:El; [|discriminate].
    injection Hsz as Hsz.
    rewrite Hf1, El in Hold.
    destruct Hold as (-> & Hf2 & Hs2).
    exists j. cbn [fileName file bytesWritten set_file set_bytesWritten].
    rewrite Hf2, Hs2, Hs1, Hf1, El. repeat split; auto.
    intros h [= <-] _. reflexivity.
Qed.

(** X5: a construction that returns a writer leaves it open, with
    bytesWritten equal to the size of the live file and its file open on
    that live file, whether the file was created, found below the threshold
    or rotated away.  This needs a live path that does not itself end in a
    time stamp, a stat call the environment does not disturb, and a
    directory whose entry for the live path is in the inode table. *)
Theorem construction_tracks name ms mc w r w' :
  newRollingWriter name ms mc w = (Val r, w') ->
  Parse_RFC3339 (last_piece (Split (fileName r) ".")) = None ->
  hd NoFault (w_script w) = NoFault ->
  (forall i, lookup_path (fileName r) (w_files w) = Some i ->
             (i < List.length (w_sizes w))%nat) ->
  tracks r w' /\ closed r = false /\
  exists h, file r = Some h /\ f_closed h = false /\
            lookup_path (fileName r) (w_files w') = Some (f_ino h).
Proof.
  intros Hrun Hun Hhd Hwf.
  destruct (newRollingWriter_detail name ms mc w)
    as (res & w0 & abs & staterr & Hrun0 & Hcase).
  rewrite Hrun in Hrun0. injection Hrun0 as <- <-.
  destruct Hcase as [(pre & last & e & _ & _ & _ & Hres & _)
                    |[(e & _ & _ & _ & _ & Hres)
                    |(r1 & w1 & dres & pre & _ & _ & _ & Hdel & Hres & Hfn & _ &
                      Hcl & (h & Hfile & Hc) & Htr)]];
    try discriminate.
  destruct dres as [[e|]|pv]; try discriminate. injection Hres as ->.
  rewrite <- Hfn in Htr. specialize (Htr Hwf Hhd).
  destruct (deleteOld_keeps_live _ _ _ _ Hdel Hun) as [Hs Hl].
  destruct Htr as (i & Hli & Hi & Hsz & Hh).
  split; [exists i; rewrite Hl, Hs; auto|]. split; [exact Hcl|].
  exists h. split; [exact Hfile|]. split; [exact Hc|].
  rewrite Hl, Hli. f_equal. symmetry. exact (Hh h Hfile Hc).
Qed.

(** X6: with maxCount at least 0, a construction returns a writer only when
    every library call after the stat succeeded; otherwise it panics with
    the error of the call that failed, and that call is the last one it
    makes.  The stat may fail only with a not-exist error without being
    fatal. *)
Theorem construction_fails_at_first_failure name ms mc w res w' evs :
  newRollingWriter name ms mc w = (res, w') ->
  w_trace w' = w_trace w ++ evs ->
  0 <= mc ->
  match res with
  | Val _ => forallb succeeded (tl evs) = true
  | Panicked pv =>
      exists pre last e,
        evs = pre ++ [last] /\ failure last = Some e /\
        pv = PanicError e /\ forallb succeeded (tl pre) = true
  end.
Proof.
  intros Hrun Ht Hmc.
  destruct (newRollingWriter_detail name ms mc w)
    as (res0 & w0 & abs & staterr & Hrun0 & Hcase).
  rewrite Hrun in Hrun0. injection Hrun0 as <- <-.
  destruct Hcase as [(pre & last & e & Ht0 & Hpre & Hlast & -> & _)
                    |[(e & Ht0 & _ & _ & _ & ->)
                    |(r1 & w1 & dres & pre & Ht1 & Hpre & _ & Hdel & -> & _ & Hc & _)]].
  - rewrite Ht in Ht0. apply app_inv_head in Ht0. subst evs.
    exists (EvStat abs staterr :: pre), last, e. auto.
  - rewrite Ht in Ht0. apply app_inv_head in Ht0. subst evs.
    exists [], (EvStat abs (Some e)), e. auto.
  - destruct (deleteOld_run r1 w1)
      as (res0 & w0 & devs & j & Hrun0 & Ht0 & _ & _ & _ & _ & Hcase).
    rewrite Hdel in Hrun0. injection Hrun0 as <- <-.
    rewrite Ht0, Ht1, <- app_assoc in Ht. apply app_inv_head in Ht. subst evs.
    cbn [app tl].
    destruct Hcase as (removes & -> & Hend).
    unfold loop_end in Hend. destruct dres as [[e|]|pv]; cbn [scanned].
    + destruct Hend as (p & _ & -> & _).
      exists (EvStat abs staterr :: pre ++ EvCall FDeleteOld
                :: EvWalk (filepath_Dir (fileName r1)) None
                :: ok_removes (firstn j (archives r1 w1))),
        (EvRemove p (Some e)), e.
      split; [cbn; rewrite <- !app_assoc; reflexivity|].
      split; [reflexivity|]. split; [reflexivity|].
      cbn [tl]. rewrite forallb_app, Hpre. cbn. apply succeeded_ok_removes.
    + destruct Hend as [-> _].
      rewrite forallb_app, Hpre. cbn. apply succeeded_ok_removes.
    + destruct Hend as (_ & _ & _ & Hneg). lia.
Qed.

Section Threshold.

Variables Logger level : Type.
Variable formatStandard : Logger -> level -> string -> string.

Local Abbreviation write_ := (write Logger level formatStandard).
Local Abbreviation text_ logger lvl line :=
  (formatStandard logger lvl line ++ String "010" EmptyString)%string.

(** X7: a write on an open writer in which no library call fails leaves a
    live file whose size is bytesWritten and is below maxSize or 0: either
    the line fitted, or the file was rotated away and a new, empty live file
    is open.  The writer must count the live file right before the call. *)
Theorem write_keeps_live_file_below_threshold r logger lvl line w r' w' evs :
  tracks r w ->
  closed r = false ->
  Parse_RFC3339 (last_piece (Split (fileName r) ".")) = None ->
  0 <= bytesWritten r ->
  in_int64 (bytesWritten r + Z.of_nat (String.length (text_ logger lvl line))) ->
  write_ r logger lvl line w = (Val r', w') ->
  w_trace w' = w_trace w ++ evs ->
  forallb succeeded evs = true ->
  tracks r' w' /\
  disk_size (fileName r') w' = Some (bytesWritten r') /\
  (bytesWritten r' < maxSize r' \/ bytesWritten r' = 0).
Proof.
  intros Htr Hopen Hun Hpos Hrange Hrun Ht Hok.
  assert (Hshort : no_short_write evs).
  { intros n e Hin. rewrite forallb_forall in Hok.
    specialize (Hok _ Hin). discriminate. }
  destruct (write_step Logger level formatStandard r logger lvl line w r' w' evs
              (or_introl Htr) Hun Hpos Hrange Hrun Ht Hshort) as (Hinv & _ & _).
  destruct (write_run Logger level formatStandard r logger lvl line w)
    as (res & w0 & evs0 & Hrun0 & Ht0 & Hcase).
  rewrite Hrun in Hrun0. injection Hrun0 as <- <-.
  rewrite Ht in Ht0. apply app_inv_head in Ht0. subst evs0.
  assert (Halive : forall w1,
             File_WriteString (file r) (text_ logger lvl line) w
             = (Val (String.length (text_ logger lvl line), None), w1) ->
             exists h, file r = Some h /\ f_closed h = false).
  { intros w1 Hw.
    destruct (File_WriteString_run (file r) (text_ logger lvl line) w)
      as (c & err & w9 & Hw9 & _ & _ & _ & _ & Hs9).
    rewrite Hw in Hw9. injection Hw9 as <- <- <-.
    rewrite string_length_append in Hs9. cbn in Hs9.
    destruct (file r) as [h|]; [|lia].
    destruct (f_closed h) eqn:Ec; [lia|eauto]. }
  assert (Hgoal : (exists h, file r' = Some h /\ f_closed h = false) /\
                  (bytesWritten r' < maxSize r' \/ bytesWritten r' = 0)).
  { destruct Hcase as [(Hc & _)
                      |[(_ & count & e & w1 & _ & _ & _ & -> & _)
                      |[(_ & w1 & Hw & _ & Hlt & Hres & _)
                      |(_ & w1 & r2 & rerr & w2 & revs & w3 & dres & w4 & devs &
                        Hw & _ & _ & _ & Hout & _ & _ & _ & _ & _ & _ & Hres & -> & _)]]].
    - congruence.
    - discriminate.
    - injection Hres as ->. split; [exact (Halive _ Hw)|]. left. exact Hlt.
    - destruct dres as [derr|pv]; [|discriminate]. injection Hres as ->.
      destruct rerr as [e|].
      + exfalso.
        destruct (rotate_outcome_failure _ _ _ _ _ _ Hout) as (pre & last & -> & Hl & _).
        rewrite forallb_forall in Hok.
        assert (Hin : In last
                  (EvWriteString (String.length (text_ logger lvl line)) None
                   :: EvCall FRotate :: (pre ++ [last])
                   ++ report "Failed to rotate log file:" (Some e)
                   ++ EvCall FDeleteOld :: devs
                   ++ report "Failed to delete old log file:" derr)).
        { right. right. apply in_or_app. left. apply in_or_app. right. now left. }
        specialize (Hok _ Hin). unfold succeeded in Hok. rewrite Hl in Hok.
        discriminate.
      + inversion Hout; subst. split; [eauto|]. right. assumption. }
  destruct Hgoal as [(h & Hfile & Hc) Hbound].
  destruct Hinv as [Htr'|[_ Hdead]];
    [|rewrite (Hdead h Hfile) in Hc; discriminate].
  split; [exact Htr'|]. split; [|exact Hbound].
  destruct Htr' as (i & Hl & _ & Hsz & _). unfold disk_size.
  now rewrite Hl, Hsz.
Qed.

End Threshold.

(** ** What a scan cannot do *)

(** X8: deleteOld changes no file's size and creates no entry, leaves every
    path alone that does not start with the live path, and whatever it
    tries to delete is an archive in the sense of its walk function: a
    walked path that starts with the live path and ends in a time stamp. *)
Theorem deleteOld_touches_only_archives r w res w' evs :
  deleteOld r w = (res, w') ->
  w_trace w' = w_trace w ++ evs ->
  w_sizes w' = w_sizes w /\
  (forall p i, lookup_path p (w_files w') = Some i ->
               lookup_path p (w_files w) = Some i) /\
  (forall p, HasPrefix p (fileName r) = false ->
             lookup_path p (w_files w') = lookup_path p (w_files w)) /\
  (forall p e, In (EvRemove p e) evs ->
               In p (walked r w) /\ HasPrefix p (fileName r) = true /\
               Parse_RFC3339 (last_piece (Split p ".")) <> None).
Proof.
  intros Hrun Ht.
  destruct (deleteOld_run r w)
    as (res0 & w0 & evs0 & j & Hrun0 & _ & Hs & _ & Hf & _).
  rewrite Hrun in Hrun0. injection Hrun0 as <- <-.
  split; [exact Hs|]. split; [|split].
  - intros p i Hl. rewrite Hf, lookup_remove_paths in Hl.
    destruct (existsb _ _); [discriminate|exact Hl].
  - intros p Hp. eapply deleteOld_keeps; [exact Hrun|].
    unfold archives. rewrite filter_In. unfold is_archive. rewrite Hp.
    intros [_ H]. discriminate.
  - intros p e Hin.
    pose proof (deleteOld_removes_archives _ _ _ _ _ _ _ Hrun Ht Hin) as Ha.
    unfold archives in Ha. apply filter_In in Ha as [Hw Ha].
    unfold is_archive in Ha. apply andb_true_iff in Ha as [Hp Hs'].
    split; [exact Hw|]. split; [exact Hp|].
    destruct (Parse_RFC3339 _); [discriminate|discriminate].
Qed.

(** X9: deleteOld panics only for a negative maxCount, and then with an
    index out of range once every archive has been deleted; for a negative
    maxCount it never returns nil. *)
Theorem deleteOld_panics_only_below_zero r w :
  match fst (deleteOld r w) with
  | Panicked pv =>
      pv = PanicIndexOutOfRange /\ maxCount r < 0 /\
      forall p, In p (archives r w) ->
                lookup_path p (w_files (snd (deleteOld r w))) = None
  | Val None => 0 <= maxCount r
  | Val (Some _) => True
  end.
Proof.
  destruct (deleteOld_run r w)
    as (res & w' & evs & j & Hrun & _ & _ & Hj & Hf & _ & Hcase).
  rewrite Hrun. cbn [fst snd].
  destruct Hcase as (removes & _ & Hend).
  unfold loop_end in Hend. destruct res as [[e|]|pv]; [exact I| |].
  - destruct Hend as [_ Hk]. lia.
  - destruct Hend as (-> & -> & _ & Hneg).
    split; [reflexivity|]. split; [exact Hneg|].
    intros p Hp. rewrite Hf, firstn_all. now apply lookup_removed.
Qed.

(** ** Where a rotation puts the bytes *)

Lemma File_Close_clock (f : option File) (w : World) :
  w_clock (snd (File_Close f w)) = w_clock w.
Proof.
  unfold File_Close, bind, next_fault, emit, ret.
  destruct f as [h|]; [destruct (f_closed h)|]; cbn; try reflexivity.
  destruct (w_script w); reflexivity.
Qed.

Lemma time_Now_reading (w : World) :
  exists w',
    time_Now w = (Val (hd zero_time (w_clock w)), w') /\
    w_trace w' = w_trace w /\ same_disk w w'.
Proof.
  unfold time_Now. destruct (w_clock w); eexists; split; try reflexivity;
    split; try reflexivity; split; reflexivity.
Qed.

Lemma size_of_app_zero (i : nat) (sz : list Z) :
  size_of i (sz ++ [0]) = size_of i sz.
Proof.
  unfold size_of. destruct (Nat.lt_ge_cases i (List.length sz)) as [H|H].
  - now apply app_nth1.
  - rewrite (nth_overflow sz) by exact H.
    rewrite app_nth2 by exact H.
    destruct (i - List.length sz)%nat as [|[|k]]; reflexivity.
Qed.

(** A rotation that returns nil: the reading of the clock it names the
    archive after, and where each path points afterwards. *)
Lemma rotate_detail r w r' w' :
  rotate r w = (Val (r', None), w') ->
  exists t i0,
    t = hd zero_time (w_clock w) /\
    lookup_path (fileName r) (w_files w) = Some i0 /\
    lookup_path (archive_name r t) (w_files w') = Some i0 /\
    (forall p, p <> fileName r -> p <> archive_name r t ->
               lookup_path p (w_files w') = lookup_path p (w_files w)) /\
    (forall i, size_of i (w_sizes w') = size_of i (w_sizes w)) /\
    fileName r' = fileName r /\
    exists i',
      w_files w' =
      insert_path (fileName r) i'
        (insert_path (archive_name r t) i0
           (remove_path (archive_name r t)
              (remove_path (fileName r) (w_files w)))).
Proof.
  intros Hrot. unfold rotate in Hrot.
  rewrite (bind_val _ _ _ _ _ (emit_run _ w)) in Hrot.
  set (w0 := set_trace _ w) in Hrot.
  destruct (File_Close_run (file r) w0) as (f1 & e1 & w1 & Hc & _ & [Hf1 Hs1] & _).
  pose proof (File_Close_clock (file r) w0) as Hclock. rewrite Hc in Hclock.
  cbn [snd] in Hclock.
  rewrite (bind_val _ _ _ _ _ Hc) in Hrot.
  destruct e1 as [e|]; [discriminate|].
  cbn [fileName set_file] in Hrot.
  destruct (time_Now_reading w1) as (w2 & Hn & _ & [Hf2 Hs2]).
  rewrite (bind_val _ _ _ _ _ Hn) in Hrot.
  rewrite Hclock in Hrot, Hn. change (w_clock w0) with (w_clock w) in *.
  set (t := hd zero_time (w_clock w)) in *.
  destruct (os_Rename_run (fileName r) (fileName r ++ "." ++ Format_RFC3339 t)%string w2)
    as (e3 & w3 & Hr & _ & Hs3 & Hf3).
  rewrite (bind_val _ _ _ _ _ Hr) in Hrot.
  destruct e3 as [e|]; [discriminate|].
  destruct Hf3 as (i0 & Hl0 & Hf3).
  cbn [fileName set_file set_bytesWritten] in Hrot.
  destruct (openFile_run (fileName r) w3) as (f4 & e4 & w4 & Ho & _ & Hres).
  rewrite (bind_val _ _ _ _ _ Ho) in Hrot.
  injection Hrot as Hr' He4 Hw'. subst e4 w' r'.
  destruct Hres as (i & _ & Hnew).
  change (fileName r ++ "." ++ Format_RFC3339 t)%string with (archive_name r t) in *.
  assert (Hgone : lookup_path (fileName r) (w_files w3) = None).
  { rewrite Hf3, lookup_insert_path_other
      by (intros H; symmetry in H; revert H; apply archive_name_fresh).
    rewrite lookup_remove_path.
    destruct (String.eqb (fileName r) _); [reflexivity|].
    rewrite lookup_remove_path. now rewrite String.eqb_refl. }
  rewrite Hgone in Hnew. destruct Hnew as (_ & Hf4 & Hs4).
  assert (Hother : forall p, p <> fileName r ->
             lookup_path p (w_files w4) = lookup_path p (w_files w3)).
  { intros p Hp. rewrite Hf4. now apply lookup_insert_path_other. }
  exists t, i0. split; [reflexivity|].
  split; [rewrite Hf2, Hf1 in Hl0; exact Hl0|].
  split.
  { rewrite Hother by apply archive_name_fresh.
    rewrite Hf3. apply lookup_insert_path_new.
    rewrite lookup_remove_path. now rewrite String.eqb_refl. }
  split.
  { intros p Hp1 Hp2. rewrite (Hother p Hp1), Hf3.
    rewrite lookup_insert_path_other by exact Hp2.
    rewrite !lookup_remove_path.
    destruct (String.eqb p (archive_name r t)) eqn:E1;
      [apply String.eqb_eq in E1; contradiction|].
    destruct (String.eqb p (fileName r)) eqn:E2;
      [apply String.eqb_eq in E2; contradiction|].
    now rewrite Hf2, Hf1. }
  split; [intros j; rewrite Hs4, size_of_app_zero, Hs3, Hs2, Hs1; reflexivity|].
  split; [reflexivity|].
  eexists. rewrite Hf4, Hf3, Hf2, Hf1. reflexivity.
Qed.

(** X10: a rotation that returns nil loses no byte: the archive, named
    after the reading of the clock, is the file that was the live file,
    with its size, replacing any file of that name; the live path holds a
    new file of size 0; every other path holds what it held. *)
Theorem rotate_moves_live_file r w r' w' :
  rotate r w = (Val (r', None), w') ->
  exists sz,
    disk_size (fileName r) w = Some sz /\
    disk_size (archive_name r (hd zero_time (w_clock w))) w' = Some sz /\
    disk_size (fileName r) w' = Some 0 /\
    bytesWritten r' = 0 /\
    forall p, p <> fileName r ->
              p <> archive_name r (hd zero_time (w_clock w)) ->
              disk_size p w' = disk_size p w.
Proof.
  intros Hrot.
  destruct (rotate_detail _ _ _ _ Hrot) as (t & i0 & -> & Hl0 & Harch & Hother & Hsz & _ & _).
  destruct (rotate_run r w) as (r2 & err & w2 & revs & Hrun & _ & _ & Hout).
  rewrite Hrot in Hrun. injection Hrun as <- <- <-.
  inversion Hout as [| | |r9 w9 t9 i2 Hb Hfile Hnew Hi2 Hz]; subst.
  exists (size_of i0 (w_sizes w)). unfold disk_size.
  rewrite Hl0, Harch, Hnew, Hsz, Hz. repeat split; auto.
  intros p Hp1 Hp2. rewrite (Hother p Hp1 Hp2).
  destruct (lookup_path p (w_files w)); [now rewrite Hsz|reflexivity].
Qed.

(** ** The next scan after a rotation *)

Lemma string_append_assoc (a b c : string) :
  ((a ++ b) ++ c)%string = (a ++ (b ++ c))%string.
Proof. induction a as [|x a IH]; cbn; congruence. Qed.

Lemma absolute_has_slash (f : string) :
  HasPrefix f "/" = true -> before_last_slash f <> None.
Proof.
  unfold HasPrefix. destruct f as [|c f]; cbn [prefix]; [discriminate|].
  destruct (ascii_dec "/" c) as [<-|]; [|intros H; discriminate H]. intros _.
  cbn [before_last_slash].
  destruct (before_last_slash f); [discriminate|].
  change (Ascii.eqb "/" "/") with true. discriminate.
Qed.

Lemma HasPrefix_slash (s x : string) :
  HasPrefix s "/" = true -> HasPrefix (s ++ x) "/" = true.
Proof.
  unfold HasPrefix. destruct s as [|c s]; cbn [prefix append]; [discriminate|].
  destruct (ascii_dec "/" c); [|intros H; discriminate H].
  intros _. now destruct (s ++ x)%string.
Qed.

(** Whatever is appended to an absolute live path stays below the directory
    that deleteOld walks. *)
Lemma below_live (f x : string) :
  HasPrefix f "/" = true -> below (filepath_Dir f) (f ++ x) = true.
Proof.
  intros Habs. unfold filepath_Dir, below.
  destruct (before_last_slash f) as [d|] eqn:E;
    [|now apply absolute_has_slash in Habs].
  destruct (before_last_slash_spec _ _ E) as (base & Hf).
  destruct d as [|c d].
  - cbn. now apply HasPrefix_slash.
  - destruct (String.eqb (String c d) "/"); [now apply HasPrefix_slash|].
    rewrite Hf. rewrite string_append_assoc.
    change (String "/" base ++ x)%string with ("/" ++ (base ++ x))%string.
    rewrite <- string_append_assoc. apply HasPrefix_append.
Qed.

Lemma is_archive_config r r' p :
  fileName r' = fileName r -> is_archive r' p = is_archive r p.
Proof. unfold is_archive. now intros ->. Qed.

Lemma on_disk_config r r' w :
  fileName r' = fileName r -> on_disk r' w = on_disk r w.
Proof.
  intros H. unfold on_disk, listing. rewrite H.
  apply filter_ext. intros p. now apply is_archive_config.
Qed.

Lemma on_disk_same_files r r' w w' :
  fileName r' = fileName r -> w_files w' = w_files w ->
  on_disk r' w' = on_disk r w.
Proof.
  intros Hfn Hf. rewrite (on_disk_config r r' w' Hfn).
  unfold on_disk, listing. now rewrite Hf.
Qed.

(** X11: the archive a rotation makes is among the archives the directory
    holds, for an absolute live path and a clock reading RFC 3339 can print;
    a next scan that can read the directory finds it, so with maxCount = 0
    such a scan, when it returns nil, has deleted it right away. *)
Theorem rotation_archive_is_found r w r' w' :
  rotate r w = (Val (r', None), w') ->
  HasPrefix (fileName r) "/" = true ->
  valid_time (hd zero_time (w_clock w)) ->
  In (archive_name r (hd zero_time (w_clock w))) (on_disk r' w') /\
  (readable w' ->
     In (archive_name r (hd zero_time (w_clock w))) (archives r' w') /\
     forall w'',
       maxCount r' = 0 ->
       deleteOld r' w' = (Val None, w'') ->
       disk_size (archive_name r (hd zero_time (w_clock w))) w'' = None).
Proof.
  intros Hrot Habs Hvalid.
  destruct (rotate_detail _ _ _ _ Hrot) as (t & i0 & -> & _ & Harch & _ & _ & Hfn & _).
  set (t := hd zero_time (w_clock w)) in *.
  assert (Hin : In (archive_name r t) (on_disk r' w')).
  { rewrite (on_disk_config r r' w' Hfn). unfold on_disk. apply filter_In.
    split; [|now apply archive_name_is_archive].
    unfold listing. right. apply filter_In. split.
    - apply lookup_path_In. congruence.
    - unfold archive_name. now apply below_live. }
  split; [exact Hin|].
  intros Hread. rewrite <- (archives_readable r' w' Hread) in Hin.
  split; [exact Hin|].
  intros w'' Hzero Hdel.
  destruct (deleteOld_run r' w')
    as (res0 & w0 & evs0 & j & Hrun0 & _ & _ & Hj & Hf & _ & removes & _ & Hend).
  rewrite Hdel in Hrun0. injection Hrun0 as <- <-.
  destruct Hend as [_ Hk].
  unfold disk_size. rewrite Hf, lookup_removed; [reflexivity|].
  rewrite firstn_all2 by lia. exact Hin.
Qed.

(** ** The retention bound after a write *)

Lemma In_insert_path (q p : string) (i : nat) (fs : list (string * nat)) :
  In q (map fst (insert_path p i fs)) <-> q = p \/ In q (map fst fs).
Proof.
  induction fs as [|[x j] fs IH]; cbn.
  - intuition.
  - destruct (String.ltb p x); cbn; [intuition|].
    rewrite IH. intuition.
Qed.

Lemma NoDup_insert_path (p : string) (i : nat) (fs : list (string * nat)) :
  ~ In p (map fst fs) -> NoDup (map fst fs) ->
  NoDup (map fst (insert_path p i fs)).
Proof.
  induction fs as [|[x j] fs IH]; cbn; intros Hp Hnd.
  - constructor; [intros []|constructor].
  - destruct (String.ltb p x); cbn.
    + constructor; [exact Hp|exact Hnd].
    + inversion Hnd as [|? ? Hx Hfs]; subst. constructor.
      * rewrite In_insert_path. intuition.
      * apply IH; [intuition|exact Hfs].
Qed.

Lemma In_remove_path (q p : string) (fs : list (string * nat)) :
  In q (map fst (remove_path p fs)) <-> q <> p /\ In q (map fst fs).
Proof.
  rewrite map_fst_remove_path, filter_In. split.
  - intros [Hin Hne]. split; [|exact Hin].
    intros ->. rewrite String.eqb_refl in Hne. discriminate.
  - intros [Hne Hin]. split; [exact Hin|].
    destruct (String.eqb q p) eqn:E; [|reflexivity].
    apply String.eqb_eq in E. contradiction.
Qed.

Lemma NoDup_remove_path (p : string) (fs : list (string * nat)) :
  NoDup (map fst fs) -> NoDup (map fst (remove_path p fs)).
Proof. intros H. rewrite map_fst_remove_path. now apply NoDup_filter. Qed.

(** A rotation keeps the directory free of double entries. *)
Lemma rotate_keeps_NoDup r w r' w' :
  rotate r w = (Val (r', None), w') ->
  NoDup (map fst (w_files w)) ->
  NoDup (map fst (w_files w')).
Proof.
  intros Hrot Hnd.
  destruct (rotate_detail _ _ _ _ Hrot)
    as (t & i0 & _ & _ & _ & _ & _ & Hfn & i' & Hf).
  rewrite Hf.
  set (dst := archive_name r t).
  assert (Hld : fileName r <> dst)
    by (intros H; symmetry in H; revert H; apply archive_name_fresh).
  apply NoDup_insert_path.
  - rewrite In_insert_path, !In_remove_path. intuition.
  - apply NoDup_insert_path.
    + rewrite In_remove_path. intuition.
    + now apply NoDup_remove_path, NoDup_remove_path.
Qed.

(** ** Calls in a calm environment *)

Lemma calm_readable (w : World) : calm w -> readable w.
Proof.
  unfold calm, readable. destruct (w_script w) as [|f rest]; [reflexivity|].
  intros H. cbn. apply H. now left.
Qed.

Lemma keeps_calm_ret {A : Type} (a : A) : keeps_calm (ret a).
Proof. intros w H. exact H. Qed.

Lemma keeps_calm_emit (ev : Event) : keeps_calm (emit ev).
Proof. intros w H. exact H. Qed.

Lemma keeps_calm_next_fault : keeps_calm next_fault.
Proof.
  intros w H. unfold next_fault, calm in *.
  destruct (w_script w) as [|f rest] eqn:E; cbn; [now rewrite E|].
  intros g Hg. apply H. now right.
Qed.

Lemma keeps_calm_bind {A B : Type} (m : M A) (k : A -> M B) :
  keeps_calm m -> (forall a, keeps_calm (k a)) -> keeps_calm (bind m k).
Proof.
  intros Hm Hk w H. unfold bind. specialize (Hm w H).
  destruct (m w) as [[a|p] w1]; cbn in *; [now apply Hk|exact Hm].
Qed.

Lemma keeps_calm_same_script {A : Type} (m : M A) :
  (forall w, w_script (snd (m w)) = w_script w) -> keeps_calm m.
Proof. intros Hm w H. unfold calm in *. now rewrite Hm. Qed.

Lemma keeps_calm_File_WriteString (f : option File) (s : string) :
  keeps_calm (File_WriteString f s).
Proof.
  unfold File_WriteString. destruct f as [h|]; [destruct (f_closed h)|].
  - apply keeps_calm_same_script. reflexivity.
  - apply keeps_calm_bind; [apply keeps_calm_next_fault|].
    intros [|e n]; apply keeps_calm_same_script; reflexivity.
  - apply keeps_calm_same_script. reflexivity.
Qed.

Lemma keeps_calm_File_Close (f : option File) : keeps_calm (File_Close f).
Proof.
  unfold File_Close. destruct f as [h|]; [destruct (f_closed h)|].
  - apply keeps_calm_same_script. reflexivity.
  - apply keeps_calm_bind; [apply keeps_calm_next_fault|].
    intros ft. apply keeps_calm_same_script. reflexivity.
  - apply keeps_calm_same_script. reflexivity.
Qed.

Lemma keeps_calm_time_Now : keeps_calm time_Now.
Proof.
  apply keeps_calm_same_script. intros w. unfold time_Now.
  destruct (w_clock w); reflexivity.
Qed.

Lemma keeps_calm_os_Rename (a b : string) : keeps_calm (os_Rename a b).
Proof.
  unfold os_Rename. apply keeps_calm_bind; [apply keeps_calm_next_fault|].
  intros [|e n]; apply keeps_calm_same_script; intros w; [|reflexivity].
  destruct (lookup_path a (w_files w)); reflexivity.
Qed.

Lemma keeps_calm_openFile (path : string) : keeps_calm (openFile path).
Proof.
  unfold openFile. apply keeps_calm_bind; [apply keeps_calm_next_fault|].
  intros [|e n]; apply keeps_calm_same_script; intros w; [|reflexivity].
  destruct (lookup_path path (w_files w)); reflexivity.
Qed.

Lemma keeps_calm_rotate (r : rollingWriter) : keeps_calm (rotate r).
Proof.
  unfold rotate.
  apply keeps_calm_bind; [apply keeps_calm_emit|]. intros _.
  apply keeps_calm_bind; [apply keeps_calm_File_Close|]. intros [f [e|]];
    [apply keeps_calm_ret|].
  apply keeps_calm_bind; [apply keeps_calm_time_Now|]. intros now.
  apply keeps_calm_bind; [apply keeps_calm_os_Rename|]. intros [e|];
    [apply keeps_calm_ret|].
  apply keeps_calm_bind; [apply keeps_calm_openFile|]. intros [f' err].
  apply keeps_calm_ret.
Qed.

Section Retention.

Variables Logger level : Type.
Variable formatStandard : Logger -> level -> string -> string.

Local Abbreviation write_ := (write Logger level formatStandard).

(** X12: in an environment that disturbs no call, after a write in which no
    library call fails, the archives the directory holds are the same as
    before when the write did not rotate, and are at most maxCount when it
    did, the new archive included.  The directory must list no path
    twice. *)
Theorem write_keeps_retention_bound r logger lvl line w r' w' evs :
  calm w ->
  NoDup (map fst (w_files w)) ->
  write_ r logger lvl line w = (Val r', w') ->
  w_trace w' = w_trace w ++ evs ->
  forallb succeeded evs = true ->
  (calls FRotate evs = 0%nat /\ on_disk r' w' = on_disk r w) \/
  (calls FRotate evs = 1%nat /\
   Z.of_nat (List.length (on_disk r' w')) <= maxCount r').
Proof.
  intros Hcalm Hnd Hrun Ht Hok.
  destruct (write_run Logger level formatStandard r logger lvl line w)
    as (res & w0 & evs0 & Hrun0 & Ht0 & Hcase).
  rewrite Hrun in Hrun0. injection Hrun0 as <- <-.
  rewrite Ht in Ht0. apply app_inv_head in Ht0. subst evs0.
  destruct Hcase as [(_ & Hres & -> & ->)
                    |[(_ & count & e & w1 & _ & _ & _ & -> & _)
                    |[(_ & w1 & Hw & _ & _ & Hres & -> & ->)
                    |(_ & w1 & r2 & rerr & w2 & revs & w3 & dres & w4 & devs &
                      Hw & _ & _ & Hrot & Hout & _ & (Hfn & _) & [Hf3 _] &
                      Hdel & Ht4 & [Hf5 _] & Hres & -> & Hscript)]]].
  - left. injection Hres as <-. auto.
  - discriminate.
  - left. injection Hres as ->. split; [reflexivity|].
    apply on_disk_same_files; [reflexivity|].
    destruct (File_WriteString_run (file r)
                (formatStandard logger lvl line ++ String "010" EmptyString)%string w)
      as (c & err & w9 & Hw9 & _ & Hf9 & _).
    rewrite Hw in Hw9. injection Hw9 as <- <- <-. exact Hf9.
  - right. destruct dres as [derr|pv]; [|discriminate].
    injection Hres as Hr. subst r2.
    rewrite forallb_forall in Hok.
    assert (rerr = None) as ->.
    { destruct rerr as [e|]; [|reflexivity]. exfalso.
      destruct (rotate_outcome_failure _ _ _ _ _ _ Hout) as (pre & last & -> & Hl & _).
      assert (Hin : In last
                (EvWriteString (String.length
                   (formatStandard logger lvl line ++ String "010" EmptyString)) None
                 :: EvCall FRotate :: (pre ++ [last])
                 ++ report "Failed to rotate log file:" (Some e)
                 ++ EvCall FDeleteOld :: devs
                 ++ report "Failed to delete old log file:" derr)).
      { right. right. apply in_or_app. left. apply in_or_app. right. now left. }
      specialize (Hok _ Hin). unfold succeeded in Hok. rewrite Hl in Hok.
      discriminate. }
    assert (Hread : readable w3).
    { apply calm_readable. unfold calm. rewrite Hscript.
      pose proof (keeps_calm_File_WriteString (file r)
                    (formatStandard logger lvl line ++ String "010" EmptyString)%string
                    w Hcalm) as H1.
      rewrite Hw in H1. cbn [snd] in H1.
      match type of Hrot with
      | rotate ?r1 _ = _ => pose proof (keeps_calm_rotate r1 w1 H1) as H2
      end.
      rewrite Hrot in H2. exact H2. }
    destruct (deleteOld_run r' w3)
      as (res0 & w0 & devs0 & j & Hrun0 & Ht0 & _ & Hj & Hf & Hall & removes & Hd & Hend).
    rewrite Hdel in Hrun0. injection Hrun0 as <- <-.
    rewrite Ht4 in Ht0. apply app_inv_head in Ht0. injection Ht0 as <-.
    subst devs.
    rewrite (archives_readable r' w3 Hread) in *.
    assert (Hdevs : forall ev, In ev removes -> succeeded ev = true).
    { intros ev Hin. apply Hok. right. right. apply in_or_app. right.
      cbn [report app]. right. right. apply in_or_app. now left. }
    assert (Hrem : removes = ok_removes (firstn j (on_disk r' w3)) /\
                   Z.of_nat j
                   = Z.max 0 (Z.of_nat (List.length (on_disk r' w3)) - maxCount r')).
    { unfold loop_end in Hend. destruct derr as [e|].
      - destruct Hend as (p & _ & -> & _).
        assert (Hin : In (EvRemove p (Some e))
                  (ok_removes (firstn j (on_disk r' w3)) ++ [EvRemove p (Some e)]))
          by (apply in_or_app; right; now left).
        specialize (Hdevs _ Hin). discriminate.
      - exact Hend. }
    destruct Hrem as [-> Hk].
    split.
    { change (EvWriteString ?n None :: EvCall FRotate :: ?l)
        with ([EvWriteString n None] ++ [EvCall FRotate] ++ l).
      change (EvCall FDeleteOld :: ?l) with ([EvCall FDeleteOld] ++ l).
      change (EvWalk ?d None :: ?l) with ([EvWalk d None] ++ l).
      rewrite !calls_app, (quiet_calls _ _ (rotate_outcome_quiet _ _ _ _ _ _ Hout)),
        (quiet_calls _ _ (quiet_ok_removes _)), !calls_report. reflexivity. }
    assert (Hnd3 : NoDup (map fst (w_files w3))).
    { rewrite Hf3.
      destruct (File_WriteString_run (file r)
                  (formatStandard logger lvl line ++ String "010" EmptyString)%string w)
        as (c & err & w9 & Hw9 & _ & Hf9 & _).
      rewrite Hw in Hw9. injection Hw9 as <- <- <-.
      apply (rotate_keeps_NoDup _ _ _ _ Hrot). rewrite Hf9. exact Hnd. }
    pose proof (on_disk_after_removal r' w3 w4 j Hf Hnd3) as Harch.
    rewrite (on_disk_same_files r' r' w4 w' eq_refl Hf5), Harch, length_skipn.
    lia.
Qed.

End Retention.

(** ** Closing *)

(** X13: close always returns, marks the writer closed, leaves its file (if
    any) closed, keeps the configuration and the byte count, and changes
    nothing on disk.  A second close gives back the same writer; its Close
    call fails without reaching the system, so the environment's fault
    script is not consumed. *)
Theorem close_twice (r : rollingWriter) (w : World) :
  exists r1 w1,
    close r w = (Val r1, w1) /\
    closed r1 = true /\ dead r1 /\ same_config r r1 /\
    bytesWritten r1 = bytesWritten r /\
    same_disk w w1 /\
    exists w2 e,
      close r1 w1 = (Val r1, w2) /\
      w_trace w2 = w_trace w1 ++ [EvClose (Some e)] /\
      w_script w2 = w_script w1 /\
      same_disk w1 w2.
Proof.
  unfold close, File_Close.
  destruct r as [c f fn ms mc bw]. cbn [file].
  destruct f as [h|]; [destruct (f_closed h) eqn:Ec|].
  - do 2 eexists. split; [reflexivity|]. cbn.
    split; [reflexivity|]. split; [intros h' [= <-]; exact Ec|].
    split; [repeat split|]. split; [reflexivity|]. split; [split; reflexivity|].
    rewrite Ec. do 2 eexists. split; [reflexivity|]. cbn.
    split; [reflexivity|]. split; [reflexivity|]. split; reflexivity.
  - destruct (next_fault_run w) as (ft & w1 & Hn & Ht & Hd).
    rewrite bind_assoc, (bind_val _ _ _ _ _ Hn).
    do 2 eexists. split; [reflexivity|]. cbn.
    split; [reflexivity|]. split; [intros h' [= <-]; reflexivity|].
    split; [repeat split|]. split; [reflexivity|].
    split; [unfold same_disk in *; cbn; exact Hd|].
    do 2 eexists. split; [reflexivity|]. cbn.
    split; [reflexivity|]. split; [reflexivity|]. split; reflexivity.
  - do 2 eexists. split; [reflexivity|]. cbn.
    split; [reflexivity|]. split; [intros h' [=]|].
    split; [repeat split|]. split; [reflexivity|]. split; [split; reflexivity|].
    do 2 eexists. split; [reflexivity|]. cbn.
    split; [reflexivity|]. split; [reflexivity|]. split; reflexivity.
Qed.

(** ** The further properties on sample runs *)

Lemma writes_keep_configuration_witness :
  writes unit unit plainFormat (sample_writer 2) tt tt two_lines live_world
  = (Val (rotated_writer 2 6),
     snd (writes unit unit plainFormat (sample_writer 2) tt tt two_lines live_world)) /\
  same_config (sample_writer 2) (rotated_writer 2 6) /\
  closed (rotated_writer 2 6) = closed (sample_writer 2).
Proof.
  assert (Hrun : writes unit unit plainFormat (sample_writer 2) tt tt two_lines live_world
                 = (Val (rotated_writer 2 6),
                    snd (writes unit unit plainFormat (sample_writer 2) tt tt two_lines
                           live_world)))
    by (vm_compute; reflexivity).
  split; [exact Hrun|].
  exact (writes_keep_configuration unit unit plainFormat _ _ _ _ _ _ _ Hrun).
Defined.

Lemma failed_rotation_stops_logging_witness :
  rotate (sample_writer 2) (full_world rename_fails)
  = (Val (stuck_writer, Some ErrPermission),
     snd (rotate (sample_writer 2) (full_world rename_fails))) /\
  dead stuck_writer /\
  exists w3 evs,
    writes unit unit plainFormat stuck_writer tt tt two_lines live_world
    = (Val stuck_writer, w3) /\
    w_trace w3 = w_trace live_world ++ evs /\
    same_disk live_world w3 /\
    calls FRotate evs = 0%nat /\ calls FDeleteOld evs = 0%nat.
Proof.
  assert (Hrun : rotate (sample_writer 2) (full_world rename_fails)
                 = (Val (stuck_writer, Some ErrPermission),
                    snd (rotate (sample_writer 2) (full_world rename_fails))))
    by (vm_compute; reflexivity).
  split; [exact Hrun|].
  destruct (failed_rotation_stops_logging unit unit plainFormat _ _ _ _ _ Hrun)
    as (Hdead & _ & Hlater).
  split; [exact Hdead|].
  destruct (Hlater tt tt two_lines live_world)
    as (w3 & evs & H1 & H2 & H3 & H4 & H5 & _).
  exists w3, evs. auto.
Defined.

Lemma writes_track_size_witness :
  tracks_or_lost (sample_writer 2) live_world /\
  writes unit unit plainFormat (sample_writer 2) tt tt two_lines live_world
  = (Val (rotated_writer 2 6),
     snd (writes unit unit plainFormat (sample_writer 2) tt tt two_lines live_world)) /\
  tracks_or_lost (rotated_writer 2 6)
    (snd (writes unit unit plainFormat (sample_writer 2) tt tt two_lines live_world)).
Proof.
  assert (Htr : tracks_or_lost (sample_writer 2) live_world).
  { left. exists 0%nat. split; [reflexivity|]. split; [cbn; lia|].
    split; [reflexivity|]. intros h [= <-] _. reflexivity. }
  assert (Hrun : writes unit unit plainFormat (sample_writer 2) tt tt two_lines live_world
                 = (Val (rotated_writer 2 6),
                    snd (writes unit unit plainFormat (sample_writer 2) tt tt two_lines
                           live_world)))
    by (vm_compute; reflexivity).
  assert (Ht : w_trace (snd (writes unit unit plainFormat (sample_writer 2) tt tt
                               two_lines live_world))
               = w_trace live_world
                 ++ [EvWriteString 6 None; EvCall FRotate; EvClose None;
                     EvRename live (live ++ "." ++ Format_RFC3339 t0)%string None;
                     EvOpen live None; EvCall FDeleteOld; EvWalk "/log" None;
                     EvWriteString 6 None])
    by (vm_compute; reflexivity).
  assert (Hl : Parse_RFC3339 (last_piece (Split live ".")) = None)
    by (vm_compute; reflexivity).
  assert (H0 : 0 <= bytesWritten (sample_writer 2)) by (cbn; lia).
  assert (Hr : in_int64 (bytesWritten (sample_writer 2)
                         + bytes_of (map (fun line =>
                                            (plainFormat tt tt line
                                             ++ String "010" EmptyString)%string)
                                       two_lines)))
    by (vm_compute; split; [discriminate|reflexivity]).
  assert (Hns : no_short_write
                  [EvWriteString 6 None; EvCall FRotate; EvClose None;
                   EvRename live (live ++ "." ++ Format_RFC3339 t0)%string None;
                   EvOpen live None; EvCall FDeleteOld; EvWalk "/log" None;
                   EvWriteString 6 None]).
  { intros n e Hin. cbn in Hin.
    repeat (destruct Hin as [Hin|Hin]; [discriminate Hin|]). destruct Hin. }
  split; [exact Htr|]. split; [exact Hrun|].
  exact (writes_track_size unit unit plainFormat _ tt tt two_lines _ _ _ _
           Htr Hl H0 Hr Hrun Ht Hns).
Defined.

Lemma construction_tracks_witness :
  newRollingWriter live 1 2 live_world
  = (Val (mkWriter false (Some (mkFile 0 false)) live 1048576 2 5),
     snd (newRollingWriter live 1 2 live_world)) /\
  tracks (mkWriter false (Some (mkFile 0 false)) live 1048576 2 5)
    (snd (newRollingWriter live 1 2 live_world)) /\
  lookup_path live (w_files (snd (newRollingWriter live 1 2 live_world)))
  = Some 0%nat.
Proof.
  assert (Hrun : newRollingWriter live 1 2 live_world
                 = (Val (mkWriter false (Some (mkFile 0 false)) live 1048576 2 5),
                    snd (newRollingWriter live 1 2 live_world)))
    by (vm_compute; reflexivity).
  split; [exact Hrun|].
  assert (Hl : Parse_RFC3339 (last_piece (Split live ".")) = None)
    by (vm_compute; reflexivity).
  assert (Hin : forall i, lookup_path live (w_files live_world) = Some i ->
                          (i < List.length (w_sizes live_world))%nat).
  { intros i Hi. vm_compute in Hi. injection Hi as <-. cbn. lia. }
  destruct (construction_tracks _ _ _ _ _ _ Hrun Hl eq_refl Hin)
    as (Htr & _ & h & Hh & _ & Hlook).
  split; [exact Htr|]. injection Hh as <-. exact Hlook.
Defined.

Lemma construction_fails_at_first_failure_witness :
  newRollingWriter live 0 2 (full_world construction_rename_fails)
  = (Panicked (PanicError ErrPermission),
     snd (newRollingWriter live 0 2 (full_world construction_rename_fails))) /\
  exists pre last e,
    [EvStat live None; EvOpen live None; EvCall FRotate; EvClose None;
     EvRename live (live ++ "." ++ Format_RFC3339 t0)%string (Some ErrPermission)]
    = (pre ++ [last])%list /\
    failure last = Some e /\
    PanicError ErrPermission = PanicError e /\
    forallb succeeded (tl pre) = true.
Proof.
  assert (Hrun : newRollingWriter live 0 2 (full_world construction_rename_fails)
                 = (Panicked (PanicError ErrPermission),
                    snd (newRollingWriter live 0 2
                           (full_world construction_rename_fails))))
    by (vm_compute; reflexivity).
  assert (Ht : w_trace (snd (newRollingWriter live 0 2
                               (full_world construction_rename_fails)))
               = w_trace (full_world construction_rename_fails)
                 ++ [EvStat live None; EvOpen live None; EvCall FRotate; EvClose None;
                     EvRename live (live ++ "." ++ Format_RFC3339 t0)%string
                       (Some ErrPermission)])
    by (vm_compute; reflexivity).
  split; [exact Hrun|].
  assert (Hmc : 0 <= 2) by lia.
  exact (construction_fails_at_first_failure _ _ _ _ _ _ _ Hrun Ht Hmc).
Defined.

Lemma write_keeps_live_file_below_threshold_witness :
  tracks (sample_writer 2) live_world /\
  write unit unit plainFormat (sample_writer 2) tt tt "hello" live_world
  = (Val (rotated_writer 2 0),
     snd (write unit unit plainFormat (sample_writer 2) tt tt "hello" live_world)) /\
  disk_size live
    (snd (write unit unit plainFormat (sample_writer 2) tt tt "hello" live_world))
  = Some 0 /\
  (bytesWritten (rotated_writer 2 0) < maxSize (rotated_writer 2 0) \/
   bytesWritten (rotated_writer 2 0) = 0).
Proof.
  assert (Htr : tracks (sample_writer 2) live_world).
  { exists 0%nat. split; [reflexivity|]. split; [cbn; lia|].
    split; [reflexivity|]. intros h [= <-] _. reflexivity. }
  assert (Hrun : write unit unit plainFormat (sample_writer 2) tt tt "hello" live_world
                 = (Val (rotated_writer 2 0),
                    snd (write unit unit plainFormat (sample_writer 2) tt tt "hello"
                           live_world)))
    by (vm_compute; reflexivity).
  assert (Ht : w_trace (snd (write unit unit plainFormat (sample_writer 2) tt tt "hello"
                               live_world))
               = w_trace live_world
                 ++ [EvWriteString 6 None; EvCall FRotate; EvClose None;
                     EvRename live (live ++ "." ++ Format_RFC3339 t0)%string None;
                     EvOpen live None; EvCall FDeleteOld; EvWalk "/log" None])
    by (vm_compute; reflexivity).
  assert (Hl : Parse_RFC3339 (last_piece (Split live ".")) = None)
    by (vm_compute; reflexivity).
  assert (H0 : 0 <= bytesWritten (sample_writer 2)) by (cbn; lia).
  assert (Hr : in_int64 (bytesWritten (sample_writer 2)
                         + Z.of_nat (String.length
                                       (plainFormat tt tt "hello"
                                        ++ String "010" EmptyString)%string)))
    by (vm_compute; split; [discriminate|reflexivity]).
  split; [exact Htr|]. split; [exact Hrun|].
  destruct (write_keeps_live_file_below_threshold unit unit plainFormat
              _ tt tt "hello" _ _ _ _ Htr eq_refl Hl H0 Hr Hrun Ht eq_refl)
    as (_ & Hsize & Hbelow).
  split; [exact Hsize|exact Hbelow].
Defined.

Lemma deleteOld_touches_only_archives_witness :
  deleteOld (sample_writer 1) (full_world [])
  = (Val None, snd (deleteOld (sample_writer 1) (full_world []))) /\
  w_sizes (snd (deleteOld (sample_writer 1) (full_world [])))
  = w_sizes (full_world []) /\
  lookup_path "/log/other.txt"
    (w_files (snd (deleteOld (sample_writer 1) (full_world []))))
  = lookup_path "/log/other.txt" (w_files (full_world [])) /\
  In arch1 (walked (sample_writer 1) (full_world [])) /\
  HasPrefix arch1 live = true /\
  Parse_RFC3339 (last_piece (Split arch1 ".")) <> None.
Proof.
  assert (Hrun : deleteOld (sample_writer 1) (full_world [])
                 = (Val None, snd (deleteOld (sample_writer 1) (full_world []))))
    by (vm_compute; reflexivity).
  assert (Ht : w_trace (snd (deleteOld (sample_writer 1) (full_world [])))
               = w_trace (full_world [])
                 ++ [EvCall FDeleteOld; EvWalk "/log" None;
                     EvRemove arch1 None; EvRemove arch2 None])
    by (vm_compute; reflexivity).
  split; [exact Hrun|].
  destruct (deleteOld_touches_only_archives _ _ _ _ _ Hrun Ht)
    as (Hs & _ & Hother & Hrem).
  split; [exact Hs|].
  split; [apply Hother; vm_compute; reflexivity|].
  apply (Hrem arch1 None). right. right. left. reflexivity.
Defined.

Lemma rotate_moves_live_file_witness :
  rotate (sample_writer 2) live_world
  = (Val (rotated_writer 2 0, None), snd (rotate (sample_writer 2) live_world)) /\
  exists sz,
    disk_size live live_world = Some sz /\
    disk_size (archive_name (sample_writer 2) t0)
      (snd (rotate (sample_writer 2) live_world)) = Some sz /\
    disk_size live (snd (rotate (sample_writer 2) live_world)) = Some 0.
Proof.
  assert (Hrun : rotate (sample_writer 2) live_world
                 = (Val (rotated_writer 2 0, None),
                    snd (rotate (sample_writer 2) live_world)))
    by (vm_compute; reflexivity).
  split; [exact Hrun|].
  destruct (rotate_moves_live_file _ _ _ _ Hrun) as (sz & H1 & H2 & H3 & _).
  exists sz. split; [exact H1|]. split; [exact H2|exact H3].
Defined.

Lemma rotation_archive_is_found_witness :
  rotate (sample_writer 2) live_world
  = (Val (rotated_writer 2 0, None), snd (rotate (sample_writer 2) live_world)) /\
  HasPrefix live "/" = true /\
  valid_time t0 /\
  readable (snd (rotate (sample_writer 2) live_world)) /\
  In (archive_name (sample_writer 2) t0)
    (archives (rotated_writer 2 0) (snd (rotate (sample_writer 2) live_world))).
Proof.
  assert (Hrun : rotate (sample_writer 2) live_world
                 = (Val (rotated_writer 2 0, None),
                    snd (rotate (sample_writer 2) live_world)))
    by (vm_compute; reflexivity).
  assert (Hv : valid_time t0) by (unfold valid_time, t0; cbn; lia).
  assert (Hr : readable (snd (rotate (sample_writer 2) live_world)))
    by (vm_compute; reflexivity).
  split; [exact Hrun|]. split; [reflexivity|]. split; [exact Hv|].
  split; [exact Hr|].
  exact (proj1 (proj2 (rotation_archive_is_found _ _ _ _ Hrun eq_refl Hv) Hr)).
Defined.

Lemma write_keeps_retention_bound_witness :
  calm (full_world []) /\
  NoDup (map fst (w_files (full_world []))) /\
  write unit unit plainFormat (sample_writer 1) tt tt "hello" (full_world [])
  = (Val (mkWriter false (Some (mkFile 5 false)) live 10 1 0),
     snd (write unit unit plainFormat (sample_writer 1) tt tt "hello" (full_world []))) /\
  Z.of_nat (List.length
              (on_disk (mkWriter false (Some (mkFile 5 false)) live 10 1 0)
                 (snd (write unit unit plainFormat (sample_writer 1) tt tt "hello"
                         (full_world []))))) <= 1.
Proof.
  assert (Hcalm : calm (full_world [])) by (intros f []).
  assert (Hnd : NoDup (map fst (w_files (full_world [])))).
  { cbv. repeat constructor; cbn; intuition discriminate. }
  assert (Hrun : write unit unit plainFormat (sample_writer 1) tt tt "hello"
                   (full_world [])
                 = (Val (mkWriter false (Some (mkFile 5 false)) live 10 1 0),
                    snd (write unit unit plainFormat (sample_writer 1) tt tt "hello"
                           (full_world []))))
    by (vm_compute; reflexivity).
  assert (Ht : w_trace (snd (write unit unit plainFormat (sample_writer 1) tt tt "hello"
                               (full_world [])))
               = w_trace (full_world [])
                 ++ [EvWriteString 6 None; EvCall FRotate; EvClose None;
                     EvRename live (live ++ "." ++ Format_RFC3339 t0)%string None;
                     EvOpen live None; EvCall FDeleteOld; EvWalk "/log" None;
                     EvRemove arch1 None; EvRemove arch2 None; EvRemove arch3 None])
    by (vm_compute; reflexivity).
  split; [exact Hcalm|]. split; [exact Hnd|]. split; [exact Hrun|].
  destruct (write_keeps_retention_bound unit unit plainFormat _ tt tt "hello"
              _ _ _ _ Hcalm Hnd Hrun Ht eq_refl)
    as [[Hc _]|[_ Hb]]; [discriminate Hc|exact Hb].
Defined.
